(** * Payment agent: a shallow embedding of the core control loop

    The development follows the Python sources
      src/models/state.py, src/agent/observer.py, src/agent/reasoner.py,
      src/agent/executor.py, src/agent/learner.py, src/safety/guardrails.py.

    Conventions of the embedding.
    - Python [int] is [Z].  Python [float] is modelled by the rationals
      [Q].  The detectors of issuer degradation, method fatigue and
      geographic issues, [_should_rollback], [check_rollback_needed] and
      the moving averages of [update_baselines] compute in double
      precision: every operation is rounded to the nearest double ([fl],
      section "Double precision"), [a - b] is [fsub a b], and a literal
      such as [0.15] is [fl 0.15].  Elsewhere (the ratios of counters, the
      numpy statistics, the scores and the weights) the values are exact
      rationals.
    - [datetime] and [timedelta] are [Z] counts of microseconds; every call
      of [datetime.now()] inside one operation reads the argument [now].
    - A [dict] is an insertion-ordered association list ([dict V], keys are
      strings), a [set] of strings is a [gset string], a [deque] is a list
      with the oldest element first.  A [defaultdict] is a [dict] read with
      its default; the read does not insert the missing key, and every
      function below treats an entry that holds the default like a missing
      one.
    - An object mutated in place is returned as a new value by the
      function that mutates it.
    - Writes to the logger and to standard output are left out, except the
      reasons of the rollbacks, which [monitor_and_rollback] returns here
      next to its result. *)

From Stdlib Require Import ZArith QArith Qround Qabs Qpower Lqa Lia List String Ascii Bool.
From Stdlib Require Import DecimalString.
From Stdlib Require Import Sorted.
From stdpp Require Import gmap strings.
Import ListNotations.

Local Open Scope string_scope.
Local Open Scope list_scope.
Local Open Scope Z_scope.

(** ** Rational comparisons as booleans *)

Definition Qleb (x y : Q) : bool := Qle_bool x y.
Definition Qltb (x y : Q) : bool := negb (Qle_bool y x).
Definition Qgeb (x y : Q) : bool := Qleb y x.
Definition Qgtb (x y : Q) : bool := Qltb y x.
Definition Qmin (x y : Q) : Q := if Qleb x y then x else y.
Definition Qmax (x y : Q) : Q := if Qleb x y then y else x.

(** ** Double precision

    A Python [float] is an IEEE 754 binary64 number, and every arithmetic
    operation on floats returns the double nearest to the exact result,
    ties going to the even mantissa.  [fl x] is that double for the
    rational [x]: the mantissa has 53 bits, the exponent of the last bit
    is at least -1074 (the subnormal numbers).  Overflow to infinity is
    not modelled: [fl] rounds as if the exponent had no upper bound. *)

(** Rounding to the nearest integer, ties to even. *)
Definition round_half_even (x : Q) : Z :=
  let f := Qfloor x in
  let r := (x - inject_Z f)%Q in
  if Qltb r 0.5 then f
  else if Qltb 0.5 r then f + 1
  else if Z.even f then f else f + 1.

(** The binary exponent of a positive rational: [2 ^ k <= x < 2 ^ (k + 1)]. *)
Definition ilog2 (x : Q) : Z :=
  let k := Z.log2 (Qnum x) - Z.log2 (Zpos (Qden x)) in
  if Qleb (2 ^ k) x then k else k - 1.

(** The exponent of the last bit of the mantissa of the double next to [x]. *)
Definition ulp_exponent (x : Q) : Z := Z.max (ilog2 x - 52) (-1074).

Definition fl_magnitude (x : Q) : Q :=
  if Qleb x 0 then 0%Q
  else
    let e := ulp_exponent x in
    (inject_Z (round_half_even (x / 2 ^ e)) * 2 ^ e)%Q.

(** The double nearest to [x]. *)
Definition fl (x : Q) : Q :=
  if Qltb x 0 then (- fl_magnitude (- x))%Q else fl_magnitude x.

(** The four operations of Python on floats.  An operand that is a
    literal, an exact ratio of two counters or an exact mean is rounded
    on the way in; an operand that is a double already is left as it is
    by [fl] ([fl_idempotent]). *)
Definition fadd (a b : Q) : Q := fl (fl a + fl b).
Definition fsub (a b : Q) : Q := fl (fl a - fl b).
Definition fmul (a b : Q) : Q := fl (fl a * fl b).
Definition fdiv (a b : Q) : Q := fl (fl a / fl b).

Arguments fl_magnitude : simpl never.
Arguments fl : simpl never.
Arguments fadd : simpl never.
Arguments fsub : simpl never.
Arguments fmul : simpl never.
Arguments fdiv : simpl never.

(** ** Insertion-ordered dictionaries with string keys *)

Definition dict (V : Type) : Type := list (string * V).

Section DictOps.
Context {V : Type}.

Fixpoint dget (d : dict V) (k : string) : option V :=
  match d with
  | [] => None
  | (k', v) :: d' => if String.eqb k k' then Some v else dget d' k
  end.

(** [d.get(k, dflt)], and the read of a [defaultdict]. *)
Definition dget_or (dflt : V) (d : dict V) (k : string) : V :=
  match dget d k with Some v => v | None => dflt end.

(** [d[k] = v]: an existing key keeps its position, a new key goes last. *)
Fixpoint dset (d : dict V) (k : string) (v : V) : dict V :=
  match d with
  | [] => [(k, v)]
  | (k', v') :: d' =>
      if String.eqb k k' then (k', v) :: d' else (k', v') :: dset d' k v
  end.

(** [del d[k]] guarded by [k in d]. *)
Fixpoint ddel (d : dict V) (k : string) : dict V :=
  match d with
  | [] => []
  | (k', v') :: d' =>
      if String.eqb k k' then ddel d' k else (k', v') :: ddel d' k
  end.

(** In-place update of the entry of a [defaultdict]. *)
Definition dupd (dflt : V) (f : V -> V) (d : dict V) (k : string) : dict V :=
  dset d k (f (dget_or dflt d k)).

Definition dvalues (d : dict V) : list V := List.map snd d.
Definition dkeys (d : dict V) : list string := List.map fst d.
End DictOps.

(** ** src/models/state.py *)

Inductive PaymentStatus := SUCCESS | FAILED | PENDING | RETRY.
Inductive PaymentMethod := CREDIT_CARD | DEBIT_CARD | UPI | NET_BANKING | WALLET.
Inductive ActionType :=
  ADJUST_RETRY | CIRCUIT_BREAKER | ROUTE_CHANGE | METHOD_SUPPRESS | ALERT_OPS | NO_ACTION.
Inductive RiskLevel := LOW | MEDIUM | HIGH | CRITICAL.
Inductive AuthorizationLevel := AUTOMATIC | SEMI_AUTOMATIC | MANUAL.

Definition PaymentStatus_eqb (a b : PaymentStatus) : bool :=
  match a, b with
  | SUCCESS, SUCCESS | FAILED, FAILED | PENDING, PENDING | RETRY, RETRY => true
  | _, _ => false
  end.

Definition PaymentMethod_value (m : PaymentMethod) : string :=
  match m with
  | CREDIT_CARD => "credit_card"
  | DEBIT_CARD => "debit_card"
  | UPI => "upi"
  | NET_BANKING => "net_banking"
  | WALLET => "wallet"
  end.

Definition ActionType_value (t : ActionType) : string :=
  match t with
  | ADJUST_RETRY => "adjust_retry"
  | CIRCUIT_BREAKER => "circuit_breaker"
  | ROUTE_CHANGE => "route_change"
  | METHOD_SUPPRESS => "method_suppress"
  | ALERT_OPS => "alert_ops"
  | NO_ACTION => "no_action"
  end.

Definition ActionType_eqb (a b : ActionType) : bool :=
  match a, b with
  | ADJUST_RETRY, ADJUST_RETRY | CIRCUIT_BREAKER, CIRCUIT_BREAKER
  | ROUTE_CHANGE, ROUTE_CHANGE | METHOD_SUPPRESS, METHOD_SUPPRESS
  | ALERT_OPS, ALERT_OPS | NO_ACTION, NO_ACTION => true
  | _, _ => false
  end.

Definition RiskLevel_value (r : RiskLevel) : string :=
  match r with
  | LOW => "low" | MEDIUM => "medium" | HIGH => "high" | CRITICAL => "critical"
  end.

(** Truth value of an [Optional[str]]: [None] and the empty string are false. *)
Definition truthy (s : option string) : bool :=
  match s with
  | None => false
  | Some s => negb (String.eqb s EmptyString)
  end.

Record PaymentTransaction := {
  transaction_id : string;
  timestamp : Z;
  amount : Q;
  currency : string;
  payment_method : PaymentMethod;
  issuer : string;
  merchant_id : string;
  status : PaymentStatus;
  error_code : option string;
  error_message : option string;
  latency_ms : Q;
  retry_count : Z;
  is_retry : bool;
  original_transaction_id : option string;
  region : string;
  processor : string
}.

(** [Action.parameters]: the keys the executor reads, each optional. *)
Record Parameters := {
  p_issuer : option string;
  p_duration_minutes : option Z;
  p_max_retries : option Z;
  p_backoff_multiplier : option Q;
  p_timeout_ms : option Z;
  p_alternative_routing : option bool;
  p_reduce_routing_pct : option Q;
  p_payment_method : option string
}.

(** [Action.estimated_impact]: the keys the learner reads, each optional. *)
Record Impact := {
  success_rate_delta : option Q;
  latency_delta_ms : option Q;
  cost_delta_per_txn : option Q
}.

(** [Action.actual_impact], as [record_outcome] of the learner writes it. *)
Record ActualImpact := {
  actual_success_rate_delta : Q;
  actual_latency_delta : Q
}.

(** An action.  The fields [reasoning], [created_at] and
    [rollback_action_id] of the source are not read by the functions
    modelled below and are left out. *)
Record Action := {
  action_id : string;
  action_type : ActionType;
  target : string;
  parameters : Parameters;
  risk_level : RiskLevel;
  authorization_level : AuthorizationLevel;
  estimated_impact : Impact;
  confidence : Q;
  executed_at : option Z;
  completed_at : option Z;
  action_status : string;
  approver : option string;
  actual_impact : option ActualImpact
}.

Record RetryStrategy := {
  max_retries : option Z;
  backoff_multiplier : option Q;
  timeout_ms : option Z
}.

Record RoutingOverride := {
  alternative_routing : bool;
  reduce_routing_pct : Q;
  applied_at : Z
}.

(** The agent state: the control knobs and the counters the executor and
    the safety gate read and write.  The metrics filled by [update_metrics]
    are not read by the functions modelled below and are left out. *)
Record AgentState := {
  active_circuit_breakers : gset string;
  suppressed_methods : gset string;
  retry_strategies : dict RetryStrategy;
  routing_overrides : dict RoutingOverride;
  actions_taken_last_hour : Z;
  rollbacks_last_hour : Z;
  actions_executed : Z;
  actions_successful : Z
}.

Definition AgentState_init : AgentState :=
  {| active_circuit_breakers := ∅;
     suppressed_methods := ∅;
     retry_strategies := [];
     routing_overrides := [];
     actions_taken_last_hour := 0;
     rollbacks_last_hour := 0;
     actions_executed := 0;
     actions_successful := 0 |}.

(** [AgentState.can_take_action] *)
Definition can_take_action (self : AgentState) (action : Action) : bool * string :=
  if 50 <=? actions_taken_last_hour self then
    (false, "Hourly action limit reached")
  else if 10 <=? rollbacks_last_hour self then
    (false, "Too many rollbacks in last hour")
  else if (match risk_level action with HIGH | CRITICAL => true | _ => false end)
          && (3 <=? rollbacks_last_hour self) then
    (false, "High-risk action blocked due to recent rollbacks")
  else
    (true, "Action allowed").

(** ** numpy and sorting helpers used by the observer and the reasoner *)

(** [sorted(l, key=..., reverse=True)]: stable, descending.  [le y x] reads
    "the key of [y] is at most the key of [x]". *)
Fixpoint insert_desc {A : Type} (le : A -> A -> bool) (x : A) (l : list A) : list A :=
  match l with
  | [] => [x]
  | y :: l' => if le y x then x :: y :: l' else y :: insert_desc le x l'
  end.

Definition sort_desc {A : Type} (le : A -> A -> bool) (l : list A) : list A :=
  fold_right (insert_desc le) [] l.

Fixpoint insert_asc (x : Q) (l : list Q) : list Q :=
  match l with
  | [] => [x]
  | y :: l' => if Qleb x y then x :: y :: l' else y :: insert_asc x l'
  end.

Definition sort_asc (l : list Q) : list Q := fold_right insert_asc [] l.

Definition Qsum (l : list Q) : Q := fold_right Qplus 0%Q l.
Definition Zsum (l : list Z) : Z := fold_right Z.add 0 l.

(** [numpy.mean] of a non-empty array. *)
Definition np_mean (l : list Q) : Q := (Qsum l / inject_Z (Z.of_nat (length l)))%Q.

(** [numpy.max] of a non-empty array. *)
Definition np_max (l : list Q) : Q :=
  match l with
  | [] => 0%Q
  | x :: l' => fold_left Qmax l' x
  end.

(** [numpy.percentile(a, q)] with the default linear interpolation: the
    value at the virtual index [q/100 * (n-1)] of the sorted array. *)
Definition np_percentile (a : list Q) (q : Q) : Q :=
  let s := sort_asc a in
  let n := Z.of_nat (length s) in
  let pos := (q / 100 * inject_Z (n - 1))%Q in
  let lo := Qfloor pos in
  let hi := Z.min (lo + 1) (n - 1) in
  let frac := (pos - inject_Z lo)%Q in
  let alo := nth (Z.to_nat lo) s 0%Q in
  let ahi := nth (Z.to_nat hi) s 0%Q in
  (alo + frac * (ahi - alo))%Q.

(** [deque(maxlen=n).append(x)]: the oldest elements fall off the left. *)
Definition deque_append {A : Type} (maxlen : nat) (l : list A) (x : A) : list A :=
  let l' := l ++ [x] in
  skipn (length l' - maxlen)%nat l'.

(** ** src/agent/observer.py *)

Record Counter := { success : Z; failed : Z; total : Z }.

Definition Counter_zero : Counter := {| success := 0; failed := 0; total := 0 |}.

(** The five keys of [self.stats]. *)
Inductive Dimension := D_overall | D_by_issuer | D_by_method | D_by_region | D_by_merchant.

Record Stats := {
  overall : dict Counter;
  by_issuer : dict Counter;
  by_method : dict Counter;
  by_region : dict Counter;
  by_merchant : dict Counter
}.

Definition stats_dim (s : Stats) (dimension : Dimension) : dict Counter :=
  match dimension with
  | D_overall => overall s
  | D_by_issuer => by_issuer s
  | D_by_method => by_method s
  | D_by_region => by_region s
  | D_by_merchant => by_merchant s
  end.

Record Latencies := {
  ring_overall : list Q;
  ring_by_issuer : dict (list Q);
  ring_by_method : dict (list Q)
}.

Record RetryStat := { attempted : Z; succeeded : Z }.

Definition RetryStat_zero : RetryStat := {| attempted := 0; succeeded := 0 |}.

Record PaymentObserver := {
  window_size : Z;
  recent_transactions : list PaymentTransaction;
  transactions_window : list PaymentTransaction;
  stats : Stats;
  latencies : Latencies;
  error_codes : dict Z;
  error_messages : dict Z;
  retry_stats : dict RetryStat
}.

Definition minutes (m : Z) : Z := m * 60000000.

(** [PaymentObserver.__init__] *)
Definition PaymentObserver_init (window_size_minutes : Z) : PaymentObserver :=
  {| window_size := minutes window_size_minutes;
     recent_transactions := [];
     transactions_window := [];
     stats := {| overall := []; by_issuer := []; by_method := [];
                 by_region := []; by_merchant := [] |};
     latencies := {| ring_overall := []; ring_by_issuer := []; ring_by_method := [] |};
     error_codes := [];
     error_messages := [];
     retry_stats := [] |}.

(** ['success' if transaction.status == SUCCESS else 'failed'], as a flag. *)
Definition status_key (transaction : PaymentTransaction) : bool :=
  PaymentStatus_eqb (status transaction) SUCCESS.

(** [c[status_key] += d; c['total'] += d] *)
Definition counter_add (is_success : bool) (d : Z) (c : Counter) : Counter :=
  if is_success
  then {| success := success c + d; failed := failed c; total := total c + d |}
  else {| success := success c; failed := failed c + d; total := total c + d |}.

Definition _update_stats (transaction : PaymentTransaction) (s : Stats) : Stats :=
  let sk := status_key transaction in
  let method := PaymentMethod_value (payment_method transaction) in
  {| overall := dupd Counter_zero (counter_add sk 1) (overall s) "current";
     by_issuer := dupd Counter_zero (counter_add sk 1) (by_issuer s) (issuer transaction);
     by_method := dupd Counter_zero (counter_add sk 1) (by_method s) method;
     by_region := dupd Counter_zero (counter_add sk 1) (by_region s) (region transaction);
     by_merchant :=
       dupd Counter_zero (counter_add sk 1) (by_merchant s) (merchant_id transaction) |}.

Definition _remove_from_stats (transaction : PaymentTransaction) (s : Stats) : Stats :=
  let sk := status_key transaction in
  let method := PaymentMethod_value (payment_method transaction) in
  {| overall := dupd Counter_zero (counter_add sk (-1)) (overall s) "current";
     by_issuer := dupd Counter_zero (counter_add sk (-1)) (by_issuer s) (issuer transaction);
     by_method := dupd Counter_zero (counter_add sk (-1)) (by_method s) method;
     by_region := dupd Counter_zero (counter_add sk (-1)) (by_region s) (region transaction);
     by_merchant :=
       dupd Counter_zero (counter_add sk (-1)) (by_merchant s) (merchant_id transaction) |}.

(** The loop of [_cleanup_old_transactions]: pop from the left while the
    head is older than the cutoff, removing each popped entry from the
    counters. *)
Fixpoint cleanup_loop (cutoff_time : Z) (window : list PaymentTransaction) (s : Stats)
  : list PaymentTransaction * Stats :=
  match window with
  | [] => ([], s)
  | old_txn :: rest =>
      if timestamp old_txn <? cutoff_time
      then cleanup_loop cutoff_time rest (_remove_from_stats old_txn s)
      else (window, s)
  end.

Definition with_window_stats (self : PaymentObserver)
    (w : list PaymentTransaction) (s : Stats) : PaymentObserver :=
  {| window_size := window_size self;
     recent_transactions := recent_transactions self;
     transactions_window := w;
     stats := s;
     latencies := latencies self;
     error_codes := error_codes self;
     error_messages := error_messages self;
     retry_stats := retry_stats self |}.

Definition _cleanup_old_transactions (now : Z) (self : PaymentObserver) : PaymentObserver :=
  let cutoff_time := now - window_size self in
  let '(w, s) := cleanup_loop cutoff_time (transactions_window self) (stats self) in
  with_window_stats self w s.

Definition _track_latency (transaction : PaymentTransaction) (l : Latencies) : Latencies :=
  if Qgtb (latency_ms transaction) 0 then
    let x := latency_ms transaction in
    let method := PaymentMethod_value (payment_method transaction) in
    {| ring_overall := deque_append 1000 (ring_overall l) x;
       ring_by_issuer :=
         dupd [] (fun q => deque_append 100 q x) (ring_by_issuer l) (issuer transaction);
       ring_by_method :=
         dupd [] (fun q => deque_append 100 q x) (ring_by_method l) method |}
  else l.

(** [AgentMemory.add_transaction] with [max_recent = 10000]. *)
Definition add_transaction (transaction : PaymentTransaction)
    (recent : list PaymentTransaction) : list PaymentTransaction :=
  let r := recent ++ [transaction] in
  if 10000 <? Z.of_nat (length r) then skipn (length r - Z.to_nat 10000)%nat r else r.

Definition track_errors (transaction : PaymentTransaction)
    (codes messages : dict Z) : dict Z * dict Z :=
  if PaymentStatus_eqb (status transaction) FAILED then
    let codes' :=
      match error_code transaction with
      | Some c => if truthy (Some c) then dupd 0 (Z.add 1) codes c else codes
      | None => codes
      end in
    let messages' :=
      match error_message transaction with
      | Some m => if truthy (Some m) then dupd 0 (Z.add 1) messages m else messages
      | None => messages
      end in
    (codes', messages')
  else (codes, messages).

Definition track_retries (transaction : PaymentTransaction)
    (rs : dict RetryStat) : dict RetryStat :=
  if is_retry transaction then
    let original_id :=
      if truthy (original_transaction_id transaction)
      then match original_transaction_id transaction with
           | Some i => i
           | None => transaction_id transaction
           end
      else transaction_id transaction in
    let rs1 :=
      dupd RetryStat_zero
        (fun r => {| attempted := attempted r + 1; succeeded := succeeded r |})
        rs original_id in
    if PaymentStatus_eqb (status transaction) SUCCESS then
      dupd RetryStat_zero
        (fun r => {| attempted := attempted r; succeeded := succeeded r + 1 |})
        rs1 original_id
    else rs1
  else rs.

(** [ingest_transaction], in the order of the source: memory, window,
    cleanup, counters, latency, errors, retries. *)
Definition ingest_transaction (now : Z) (transaction : PaymentTransaction)
    (self : PaymentObserver) : PaymentObserver :=
  let recent := add_transaction transaction (recent_transactions self) in
  let appended :=
    with_window_stats self (transactions_window self ++ [transaction]) (stats self) in
  let cleaned := _cleanup_old_transactions now appended in
  let s := _update_stats transaction (stats cleaned) in
  let l := _track_latency transaction (latencies self) in
  let '(codes, messages) :=
    track_errors transaction (error_codes self) (error_messages self) in
  let rs := track_retries transaction (retry_stats self) in
  {| window_size := window_size self;
     recent_transactions := recent;
     transactions_window := transactions_window cleaned;
     stats := s;
     latencies := l;
     error_codes := codes;
     error_messages := messages;
     retry_stats := rs |}.

(** [ingest_batch]; each transaction is ingested at its own clock reading. *)
Fixpoint ingest_batch (batch : list (Z * PaymentTransaction))
    (self : PaymentObserver) : PaymentObserver :=
  match batch with
  | [] => self
  | (now, transaction) :: rest => ingest_batch rest (ingest_transaction now transaction self)
  end.

Definition get_success_rate (self : PaymentObserver) (dimension : Dimension)
    (key : string) : Q :=
  let c := dget_or Counter_zero (stats_dim (stats self) dimension) key in
  if total c =? 0 then 1%Q
  else (inject_Z (success c) / inject_Z (total c))%Q.

Definition get_failure_rate (self : PaymentObserver) (dimension : Dimension)
    (key : string) : Q :=
  (1 - get_success_rate self dimension key)%Q.

Record LatencyStats := { p50 : Q; p95 : Q; p99 : Q; mean : Q; maxv : Q }.

(** The samples [get_latency_stats] reads; the latency table has no
    ['by_region'] and no ['by_merchant'] entry (a [KeyError], here [None]). *)
Definition latency_samples (self : PaymentObserver) (dimension : Dimension)
    (key : string) : option (list Q) :=
  match dimension with
  | D_overall => Some (ring_overall (latencies self))
  | D_by_issuer => Some (dget_or [] (ring_by_issuer (latencies self)) key)
  | D_by_method => Some (dget_or [] (ring_by_method (latencies self)) key)
  | D_by_region | D_by_merchant => None
  end.

Definition latency_stats_of (samples : list Q) : LatencyStats :=
  match samples with
  | [] => {| p50 := 0; p95 := 0; p99 := 0; mean := 0; maxv := 0 |}
  | _ :: _ => {| p50 := np_percentile samples 50;
            p95 := np_percentile samples 95;
            p99 := np_percentile samples 99;
            mean := np_mean samples;
            maxv := np_max samples |}
  end.

Definition get_latency_stats (self : PaymentObserver) (dimension : Dimension)
    (key : string) : option LatencyStats :=
  option_map latency_stats_of (latency_samples self dimension key).

(** [get_latency_stats('overall')] *)
Definition overall_latency_stats (self : PaymentObserver) : LatencyStats :=
  latency_stats_of (ring_overall (latencies self)).

Definition get_transaction_volume (self : PaymentObserver) (dimension : Dimension)
    (key : string) : Z :=
  total (dget_or Counter_zero (stats_dim (stats self) dimension) key).

Definition get_retry_efficiency (self : PaymentObserver) : Q :=
  match retry_stats self with
  | [] => 1%Q
  | _ =>
      let total_retries := Zsum (List.map attempted (dvalues (retry_stats self))) in
      let successful_retries := Zsum (List.map succeeded (dvalues (retry_stats self))) in
      if total_retries =? 0 then 1%Q
      else (inject_Z successful_retries / inject_Z total_retries)%Q
  end.

Definition get_top_errors (self : PaymentObserver) (n : nat) : list (string * Z) :=
  firstn n (sort_desc (fun y x => snd y <=? snd x) (error_codes self)).

Record Health := {
  h_success_rate : Q;
  h_failure_rate : Q;
  h_volume : Z;
  h_avg_latency : Q;
  h_p95_latency : Q
}.

(** The record stored for one key by [get_issuer_health] and
    [get_method_performance]. *)
Definition health_record (rings : dict (list Q)) (key : string) (c : Counter) : Health :=
  let success_rate := (inject_Z (success c) / inject_Z (total c))%Q in
  let latency := latency_stats_of (dget_or [] rings key) in
  {| h_success_rate := success_rate;
     h_failure_rate := 1 - success_rate;
     h_volume := total c;
     h_avg_latency := mean latency;
     h_p95_latency := p95 latency |}.

(** The loop shared by [get_issuer_health] and [get_method_performance]:
    entries with [total == 0] are skipped, the others are stored under
    their key in the result built so far. *)
Fixpoint health_loop (rings : dict (list Q)) (entries : dict Counter)
    (health : dict Health) : dict Health :=
  match entries with
  | [] => health
  | (key, c) :: rest =>
      if total c =? 0 then health_loop rings rest health
      else health_loop rings rest (dset health key (health_record rings key c))
  end.

Definition get_issuer_health (self : PaymentObserver) : dict Health :=
  health_loop (ring_by_issuer (latencies self)) (by_issuer (stats self)) [].

Definition get_method_performance (self : PaymentObserver) : dict Health :=
  health_loop (ring_by_method (latencies self)) (by_method (stats self)) [].

(** ** src/agent/reasoner.py *)

(** A detected pattern.  Of the source's fields the model keeps the type,
    the severity, the affected entity and the numeric metrics; the
    identifier, the time stamp, the formatted texts and the confidence
    (computed with [math.exp] and [math.sqrt]) are left out. *)
Record Pattern := {
  pattern_type : string;
  severity : Q;
  affected_dimension : string;
  affected_value : string;
  metrics : list (string * Q)
}.

Record Baselines := {
  overall_success_rate : Q;
  issuer_success_rates : dict Q;
  method_success_rates : dict Q;
  avg_latency : Q;
  retry_efficiency : Q
}.

Record Thresholds := {
  issuer_degradation : Q;
  method_fatigue : Q;
  latency_spike : Q;
  retry_storm : Q;
  error_cluster : Z
}.

Record PaymentReasoner := {
  baselines : Baselines;
  thresholds : Thresholds
}.

(** The default of the two [defaultdict]s of baselines. *)
Definition default_rate : Q := 0.95.

(** [PaymentReasoner.__init__] *)
Definition PaymentReasoner_init : PaymentReasoner :=
  {| baselines :=
       {| overall_success_rate := 0.95;
          issuer_success_rates := [];
          method_success_rates := [];
          avg_latency := 200;
          retry_efficiency := 0.60 |};
     thresholds :=
       {| issuer_degradation := 0.15;
          method_fatigue := 0.20;
          latency_spike := 1.5;
          retry_storm := 0.40;
          error_cluster := 10 |} |}.

(** One iteration of the loop of [_detect_issuer_degradation]. *)
Definition issuer_pattern (self : PaymentReasoner) (issuer : string) (health : Health)
  : list Pattern :=
  let baseline := dget_or default_rate (issuer_success_rates (baselines self)) issuer in
  let degradation := fsub baseline (h_success_rate health) in
  if (10 <=? h_volume health)
     && Qgeb degradation (fl (issuer_degradation (thresholds self))) then
    let severity := Qmin (fdiv degradation 0.3) 1.0 in
    [ {| pattern_type := "issuer_degradation";
         severity := severity;
         affected_dimension := "issuer";
         affected_value := issuer;
         metrics := [ ("current_success_rate", h_success_rate health);
                      ("baseline_success_rate", baseline);
                      ("degradation", degradation);
                      ("volume", inject_Z (h_volume health));
                      ("avg_latency", h_avg_latency health) ] |} ]
  else [].

Definition _detect_issuer_degradation (self : PaymentReasoner) (observer : PaymentObserver)
  : list Pattern :=
  flat_map (fun kv => issuer_pattern self (fst kv) (snd kv)) (get_issuer_health observer).

Definition _detect_retry_storms (self : PaymentReasoner) (observer : PaymentObserver)
  : list Pattern :=
  let total_txns := get_transaction_volume observer D_overall "current" in
  let retry_count :=
    Z.of_nat (length (List.filter is_retry (transactions_window observer))) in
  if total_txns =? 0 then []
  else
    let retry_percentage := (inject_Z retry_count / inject_Z total_txns)%Q in
    let retry_eff := get_retry_efficiency observer in
    if Qgeb retry_percentage (retry_storm (thresholds self)) then
      [ {| pattern_type := "retry_storm";
           severity := Qmin (retry_percentage / 0.6) 1.0;
           affected_dimension := "overall";
           affected_value := "retry_behavior";
           metrics := [ ("retry_percentage", retry_percentage);
                        ("retry_efficiency", retry_eff);
                        ("total_retries", inject_Z retry_count);
                        ("total_transactions", inject_Z total_txns) ] |} ]
    else [].

(** One iteration of the loop of [_detect_method_fatigue]. *)
Definition method_pattern (self : PaymentReasoner) (method : string) (perf : Health)
  : list Pattern :=
  let baseline := dget_or default_rate (method_success_rates (baselines self)) method in
  let degradation := fsub baseline (h_success_rate perf) in
  if (20 <=? h_volume perf)
     && Qgeb degradation (fl (method_fatigue (thresholds self))) then
    [ {| pattern_type := "method_fatigue";
         severity := Qmin (fdiv degradation 0.4) 1.0;
         affected_dimension := "payment_method";
         affected_value := method;
         metrics := [ ("current_success_rate", h_success_rate perf);
                      ("baseline_success_rate", baseline);
                      ("degradation", degradation);
                      ("volume", inject_Z (h_volume perf)) ] |} ]
  else [].

Definition _detect_method_fatigue (self : PaymentReasoner) (observer : PaymentObserver)
  : list Pattern :=
  flat_map (fun kv => method_pattern self (fst kv) (snd kv))
    (get_method_performance observer).

Definition _detect_latency_spikes (self : PaymentReasoner) (observer : PaymentObserver)
  : list Pattern :=
  let latency_stats := overall_latency_stats observer in
  let baseline := avg_latency (baselines self) in
  let current_p95 := p95 latency_stats in
  if Qgtb current_p95 (baseline * latency_spike (thresholds self)) then
    let spike_factor := (current_p95 / baseline)%Q in
    [ {| pattern_type := "latency_spike";
         severity := Qmin ((spike_factor - 1.0) / 2.0) 1.0;
         affected_dimension := "overall";
         affected_value := "latency";
         metrics := [ ("p50", p50 latency_stats);
                      ("p95", p95 latency_stats);
                      ("p99", p99 latency_stats);
                      ("mean", mean latency_stats);
                      ("baseline", baseline);
                      ("spike_factor", spike_factor) ] |} ]
  else [].

(** One iteration of the loop of [_detect_error_clusters]. *)
Definition error_pattern (self : PaymentReasoner) (observer : PaymentObserver)
    (error_code : string) (count : Z) : list Pattern :=
  if error_cluster (thresholds self) <=? count then
    let total := get_transaction_volume observer D_overall "current" in
    let error_rate := (inject_Z count / inject_Z (Z.max total 1))%Q in
    [ {| pattern_type := "error_cluster";
         severity := Qmin (error_rate / 0.1) 1.0;
         affected_dimension := "error_code";
         affected_value := error_code;
         metrics := [ ("error_count", inject_Z count);
                      ("total_transactions", inject_Z total);
                      ("error_rate", error_rate) ] |} ]
  else [].

Definition _detect_error_clusters (self : PaymentReasoner) (observer : PaymentObserver)
  : list Pattern :=
  flat_map (fun kv => error_pattern self observer (fst kv) (snd kv))
    (get_top_errors observer 5).

(** One iteration of the loop of [_detect_geographic_issues]. *)
Definition region_pattern (observer : PaymentObserver) (region : string) (c : Counter)
  : list Pattern :=
  if total c <? 10 then []
  else
    let success_rate :=
      if 0 <? total c then (inject_Z (success c) / inject_Z (total c))%Q else 1.0%Q in
    let overall_rate := get_success_rate observer D_overall "current" in
    let degradation := fsub overall_rate success_rate in
    if Qgeb degradation (fl 0.20) then
      [ {| pattern_type := "geographic_issue";
           severity := Qmin (fdiv degradation 0.4) 1.0;
           affected_dimension := "region";
           affected_value := region;
           metrics := [ ("region_success_rate", success_rate);
                        ("overall_success_rate", overall_rate);
                        ("degradation", degradation);
                        ("volume", inject_Z (total c)) ] |} ]
    else [].

Definition _detect_geographic_issues (observer : PaymentObserver) : list Pattern :=
  flat_map (fun kv => region_pattern observer (fst kv) (snd kv))
    (by_region (stats observer)).

Definition analyze (self : PaymentReasoner) (observer : PaymentObserver) : list Pattern :=
  let patterns :=
    _detect_issuer_degradation self observer
    ++ _detect_retry_storms self observer
    ++ _detect_method_fatigue self observer
    ++ _detect_latency_spikes self observer
    ++ _detect_error_clusters self observer
    ++ _detect_geographic_issues observer in
  sort_desc (fun y x => Qleb (severity y) (severity x)) patterns.

(** The loop over issuers of [update_baselines]. *)
Fixpoint update_issuer_baselines (items : dict Health) (rates : dict Q) : dict Q :=
  match items with
  | [] => rates
  | (issuer, health) :: rest =>
      if Qgeb (h_success_rate health) 0.90 && (20 <=? h_volume health) then
        let current := dget_or default_rate rates issuer in
        update_issuer_baselines rest
          (dset rates issuer
             (fadd (fmul 0.9 current) (fmul 0.1 (h_success_rate health))))
      else update_issuer_baselines rest rates
  end.

Definition update_baselines (self : PaymentReasoner) (observer : PaymentObserver)
  : PaymentReasoner :=
  let b := baselines self in
  let success_rate := get_success_rate observer D_overall "current" in
  let overall' :=
    if Qgeb success_rate 0.90
    then fadd (fmul 0.9 (overall_success_rate b)) (fmul 0.1 success_rate)
    else overall_success_rate b in
  let issuers' :=
    update_issuer_baselines (get_issuer_health observer) (issuer_success_rates b) in
  let latency_stats := overall_latency_stats observer in
  let avg' :=
    if Qgtb (mean latency_stats) 0
    then fadd (fmul 0.9 (avg_latency b)) (fmul 0.1 (mean latency_stats))
    else avg_latency b in
  {| baselines :=
       {| overall_success_rate := overall';
          issuer_success_rates := issuers';
          method_success_rates := method_success_rates b;
          avg_latency := avg';
          retry_efficiency := retry_efficiency b |};
     thresholds := thresholds self |}.

(** ** Text formatting used in messages *)

Definition Z_to_string (z : Z) : string := NilZero.string_of_int (Z.to_int z).

(** The format [{x:.1%}]: the value times 100 with one decimal and a [%]. *)
Definition format_percent1 (x : Q) : string :=
  let n := round_half_even (x * 1000) in
  let a := Z.abs n in
  ((if Qltb x 0 then "-" else EmptyString)
   ++ Z_to_string (a / 10) ++ "." ++ Z_to_string (a mod 10) ++ "%")%string.

(** ** src/agent/executor.py *)

Record RollbackThresholds := {
  success_rate_drop : Q;
  latency_increase : Q;
  error_rate_increase : Q;
  cost_increase : Q
}.

(** [self.rollback_thresholds], set in [__init__] and never reassigned. *)
Definition rollback_thresholds : RollbackThresholds :=
  {| success_rate_drop := 0.05;
     latency_increase := 0.50;
     error_rate_increase := 0.10;
     cost_increase := 0.20 |}.

Record Metrics := {
  m_success_rate : Q;
  m_avg_latency : Q;
  m_transaction_volume : Z;
  m_timestamp : Z
}.

Record LogEntry := {
  log_action_id : string;
  log_action_type : string;
  log_target : string;
  log_executed_at : Z;
  log_success : bool;
  log_message : string;
  log_baseline_metrics : Metrics;
  log_estimated_impact : Impact;
  log_parameters : Parameters
}.

Record PaymentExecutor := {
  execution_log : list LogEntry;
  active_interventions : dict Action
}.

(** [PaymentExecutor.__init__] *)
Definition PaymentExecutor_init : PaymentExecutor :=
  {| execution_log := []; active_interventions := [] |}.

Definition set_status (action : Action) (s : string)
    (executed completed : option Z) : Action :=
  {| action_id := action_id action;
     action_type := action_type action;
     target := target action;
     parameters := parameters action;
     risk_level := risk_level action;
     authorization_level := authorization_level action;
     estimated_impact := estimated_impact action;
     confidence := confidence action;
     executed_at := executed;
     completed_at := completed;
     action_status := s;
     approver := approver action;
     actual_impact := actual_impact action |}.

Definition with_controls (state : AgentState) (breakers methods : gset string)
    (retries : dict RetryStrategy) (routes : dict RoutingOverride) : AgentState :=
  {| active_circuit_breakers := breakers;
     suppressed_methods := methods;
     retry_strategies := retries;
     routing_overrides := routes;
     actions_taken_last_hour := actions_taken_last_hour state;
     rollbacks_last_hour := rollbacks_last_hour state;
     actions_executed := actions_executed state;
     actions_successful := actions_successful state |}.

Definition with_counters (state : AgentState) (taken rollbacks executed : Z) : AgentState :=
  {| active_circuit_breakers := active_circuit_breakers state;
     suppressed_methods := suppressed_methods state;
     retry_strategies := retry_strategies state;
     routing_overrides := routing_overrides state;
     actions_taken_last_hour := taken;
     rollbacks_last_hour := rollbacks;
     actions_executed := executed;
     actions_successful := actions_successful state |}.

(** The test of the loop that looks for a similar active action. *)
Definition similar (action active_action : Action) : bool :=
  ActionType_eqb (action_type active_action) (action_type action)
  && String.eqb (target active_action) (target action).

Definition _pre_execution_checks (self : PaymentExecutor) (action : Action)
    (state : AgentState) : bool * string :=
  if (match authorization_level action with MANUAL => true | _ => false end)
     && negb (truthy (approver action)) then
    (false, "Manual authorization required")
  else if (match authorization_level action with SEMI_AUTOMATIC => true | _ => false end)
          && (negb (truthy (approver action))
              && negb (String.eqb (RiskLevel_value (risk_level action)) "low")) then
    (false, "Semi-automatic action requires approval for non-low risk")
  else
    let '(can_take, reason) := can_take_action state action in
    if negb can_take then (false, reason)
    else
      match List.find (similar action) (dvalues (active_interventions self)) with
      | Some active_action =>
          (false, ("Similar action already active: " ++ action_id active_action)%string)
      | None => (true, "Checks passed")
      end.

Definition _execute_circuit_breaker (action : Action) (state : AgentState)
  : bool * string * AgentState :=
  match p_issuer (parameters action) with
  | Some issuer =>
      if truthy (Some issuer) then
        (true, ("Circuit breaker activated for " ++ issuer)%string,
         with_controls state ({[issuer]} ∪ active_circuit_breakers state)
           (suppressed_methods state) (retry_strategies state) (routing_overrides state))
      else (false, "No issuer specified", state)
  | None => (false, "No issuer specified", state)
  end.

Definition _execute_retry_adjustment (action : Action) (state : AgentState)
  : bool * string * AgentState :=
  let tgt := target action in
  let p := parameters action in
  let strategy :=
    dget_or {| max_retries := None; backoff_multiplier := None; timeout_ms := None |}
      (retry_strategies state) tgt in
  let strategy' :=
    {| max_retries :=
         match p_max_retries p with Some v => Some v | None => max_retries strategy end;
       backoff_multiplier :=
         match p_backoff_multiplier p with
         | Some v => Some v
         | None => backoff_multiplier strategy
         end;
       timeout_ms :=
         match p_timeout_ms p with Some v => Some v | None => timeout_ms strategy end |} in
  (true, ("Retry strategy adjusted for " ++ tgt)%string,
   with_controls state (active_circuit_breakers state) (suppressed_methods state)
     (dset (retry_strategies state) tgt strategy') (routing_overrides state)).

Definition _execute_route_change (now : Z) (action : Action) (state : AgentState)
  : bool * string * AgentState :=
  let tgt := target action in
  let p := parameters action in
  let override :=
    {| alternative_routing :=
         match p_alternative_routing p with Some b => b | None => false end;
       reduce_routing_pct :=
         match p_reduce_routing_pct p with Some v => v | None => 0%Q end;
       applied_at := now |} in
  (true, ("Routing adjusted for " ++ tgt)%string,
   with_controls state (active_circuit_breakers state) (suppressed_methods state)
     (retry_strategies state) (dset (routing_overrides state) tgt override)).

Definition _execute_method_suppress (action : Action) (state : AgentState)
  : bool * string * AgentState :=
  match p_payment_method (parameters action) with
  | Some method =>
      if truthy (Some method) then
        (true, ("Payment method " ++ method ++ " temporarily suppressed")%string,
         with_controls state (active_circuit_breakers state)
           ({[method]} ∪ suppressed_methods state)
           (retry_strategies state) (routing_overrides state))
      else (false, "No payment method specified", state)
  | None => (false, "No payment method specified", state)
  end.

(** The alert text goes to the logger and to standard output only. *)
Definition _execute_alert (action : Action) (state : AgentState)
  : bool * string * AgentState :=
  (true, "Alert sent to ops team", state).

Definition _execute_by_type (now : Z) (action : Action) (state : AgentState)
  : bool * string * AgentState :=
  match action_type action with
  | CIRCUIT_BREAKER => _execute_circuit_breaker action state
  | ADJUST_RETRY => _execute_retry_adjustment action state
  | ROUTE_CHANGE => _execute_route_change now action state
  | METHOD_SUPPRESS => _execute_method_suppress action state
  | ALERT_OPS => _execute_alert action state
  | NO_ACTION => (true, "No action taken (monitoring only)", state)
  end.

(** The success rate and the mean latency are recorded as the ratio of the
    counters and the mean of the samples; [_should_rollback], which reads
    them, rounds them to the doubles that Python holds.  For latencies
    that are whole numbers of milliseconds the rounded mean is the value
    of [numpy.mean], whose sums are then free of rounding. *)
Definition _capture_baseline_metrics (now : Z) (observer : PaymentObserver) : Metrics :=
  {| m_success_rate := get_success_rate observer D_overall "current";
     m_avg_latency := mean (overall_latency_stats observer);
     m_transaction_volume := get_transaction_volume observer D_overall "current";
     m_timestamp := now |}.

Definition _log_execution (now : Z) (action : Action) (baseline_metrics : Metrics)
    (ok : bool) (message : string) (log : list LogEntry) : list LogEntry :=
  log ++ [ {| log_action_id := action_id action;
              log_action_type := ActionType_value (action_type action);
              log_target := target action;
              log_executed_at := now;
              log_success := ok;
              log_message := message;
              log_baseline_metrics := baseline_metrics;
              log_estimated_impact := estimated_impact action;
              log_parameters := parameters action |} ].

(** The result of [execute]: the returned pair, the action as mutated, the
    agent state as mutated and the executor as mutated. *)
Record ExecuteResult := {
  ex_ok : bool;
  ex_message : string;
  ex_action : Action;
  ex_state : AgentState;
  ex_self : PaymentExecutor
}.

Definition execute (now : Z) (self : PaymentExecutor) (action : Action)
    (state : AgentState) (observer : PaymentObserver) : ExecuteResult :=
  let '(can_execute, reason) := _pre_execution_checks self action state in
  if negb can_execute then
    {| ex_ok := false; ex_message := reason; ex_action := action;
       ex_state := state; ex_self := self |}
  else
    let baseline_metrics := _capture_baseline_metrics now observer in
    let '(ok, message, state1) := _execute_by_type now action state in
    if ok then
      let action' := set_status action "executed" (Some now) (completed_at action) in
      {| ex_ok := true; ex_message := message; ex_action := action';
         ex_state :=
           with_counters state1 (actions_taken_last_hour state1 + 1)
             (rollbacks_last_hour state1) (actions_executed state1 + 1);
         ex_self :=
           {| execution_log :=
                _log_execution now action' baseline_metrics ok message (execution_log self);
              active_interventions :=
                dset (active_interventions self) (action_id action') action' |} |}
    else
      {| ex_ok := false; ex_message := message;
         ex_action := set_status action "failed" (executed_at action) (completed_at action);
         ex_state := state1; ex_self := self |}.

Definition _find_baseline_for_action (self : PaymentExecutor) (id : string)
  : option Metrics :=
  option_map log_baseline_metrics
    (List.find (fun e => String.eqb (log_action_id e) id) (rev (execution_log self))).

Definition _should_rollback (now : Z) (action : Action) (baseline current : Metrics)
  : bool * string :=
  let success_drop := fsub (m_success_rate baseline) (m_success_rate current) in
  if Qgtb success_drop (fl (success_rate_drop rollback_thresholds)) then
    (true, ("Success rate dropped " ++ format_percent1 success_drop)%string)
  else
    let latency_hit :=
      if Qgtb (fl (m_avg_latency baseline)) 0 then
        let increase :=
          fdiv (fsub (m_avg_latency current) (m_avg_latency baseline))
               (m_avg_latency baseline) in
        if Qgtb increase (fl (latency_increase rollback_thresholds))
        then Some ("Latency increased " ++ format_percent1 increase)%string
        else None
      else None in
    match latency_hit with
    | Some reason => (true, reason)
    | None =>
        match executed_at action with
        | Some t =>
            let duration := now - t in
            let max_duration :=
              minutes (match p_duration_minutes (parameters action) with
                       | Some m => m
                       | None => 30
                       end) in
            if max_duration <? duration then (true, "Action duration expired")
            else (false, EmptyString)
        | None => (false, EmptyString)
        end
    end.

(** The branch on the action type in [_rollback_action]: the write of the
    execution is taken back. *)
Definition reverse_write (action : Action) (state : AgentState) : AgentState :=
  match action_type action with
  | CIRCUIT_BREAKER =>
      match p_issuer (parameters action) with
      | Some issuer =>
          with_controls state (active_circuit_breakers state ∖ {[issuer]})
            (suppressed_methods state) (retry_strategies state) (routing_overrides state)
      | None => state
      end
  | ADJUST_RETRY =>
      with_controls state (active_circuit_breakers state) (suppressed_methods state)
        (ddel (retry_strategies state) (target action)) (routing_overrides state)
  | ROUTE_CHANGE =>
      with_controls state (active_circuit_breakers state) (suppressed_methods state)
        (retry_strategies state) (ddel (routing_overrides state) (target action))
  | METHOD_SUPPRESS =>
      match p_payment_method (parameters action) with
      | Some method =>
          with_controls state (active_circuit_breakers state)
            (suppressed_methods state ∖ {[method]})
            (retry_strategies state) (routing_overrides state)
      | None => state
      end
  | ALERT_OPS | NO_ACTION => state
  end.

(** [_rollback_action].  The operations of the [try] block (discarding
    from a set, deleting a key that is present) do not raise, so the
    function returns [True]; the action, the state and the executor are
    returned as mutated. *)
Definition _rollback_action (now : Z) (self : PaymentExecutor) (action : Action)
    (state : AgentState) : bool * Action * AgentState * PaymentExecutor :=
  let state' := reverse_write action state in
  let self' :=
    {| execution_log := execution_log self;
       active_interventions := ddel (active_interventions self) (action_id action) |} in
  (true, set_status action "rolled_back" (executed_at action) (Some now), state', self').

(** What one pass of [monitor_and_rollback] produces: the returned list of
    identifiers, the rolled-back actions as mutated, the messages written
    to the logger (identifier and reason), and the mutated state and
    executor. *)
Record MonitorResult := {
  rolled_back : list string;
  rolled_back_actions : list Action;
  rollback_reports : list (string * string);
  mon_state : AgentState;
  mon_self : PaymentExecutor
}.

(** The loop of [monitor_and_rollback] over the snapshot
    [list(self.active_interventions.items())]. *)
Fixpoint monitor_loop (now : Z) (current_metrics : Metrics)
    (items : list (string * Action)) (acc : MonitorResult) : MonitorResult :=
  match items with
  | [] => acc
  | (id, action) :: rest =>
      match _find_baseline_for_action (mon_self acc) id with
      | None => monitor_loop now current_metrics rest acc
      | Some baseline =>
          let '(should, reason) := _should_rollback now action baseline current_metrics in
          if should then
            let '(ok, action', state', self') :=
              _rollback_action now (mon_self acc) action (mon_state acc) in
            if ok then
              monitor_loop now current_metrics rest
                {| rolled_back := rolled_back acc ++ [id];
                   rolled_back_actions := rolled_back_actions acc ++ [action'];
                   rollback_reports := rollback_reports acc ++ [(id, reason)];
                   mon_state :=
                     with_counters state' (actions_taken_last_hour state')
                       (rollbacks_last_hour state' + 1) (actions_executed state');
                   mon_self := self' |}
            else
              monitor_loop now current_metrics rest
                {| rolled_back := rolled_back acc;
                   rolled_back_actions := rolled_back_actions acc;
                   rollback_reports := rollback_reports acc;
                   mon_state := state';
                   mon_self := self' |}
          else monitor_loop now current_metrics rest acc
      end
  end.

Definition monitor_and_rollback (now : Z) (self : PaymentExecutor)
    (state : AgentState) (observer : PaymentObserver) : MonitorResult :=
  let current_metrics := _capture_baseline_metrics now observer in
  monitor_loop now current_metrics (active_interventions self)
    {| rolled_back := []; rolled_back_actions := []; rollback_reports := [];
       mon_state := state; mon_self := self |}.

Definition get_active_interventions (self : PaymentExecutor) : list Action :=
  dvalues (active_interventions self).

(** ** src/agent/learner.py *)

Record Outcome := {
  o_action_id : string;
  o_action_type : string;
  o_target : string;
  o_estimated_impact : Impact;
  o_actual_impact : ActualImpact;
  o_prediction_error : Q;
  o_baseline_metrics : Metrics;
  o_actual_metrics : Metrics
}.

Record PaymentLearner := {
  action_outcomes : dict (list Outcome)
}.

(** [PaymentLearner.__init__] *)
Definition PaymentLearner_init : PaymentLearner := {| action_outcomes := [] |}.

(** [impact.get(key, 0)] *)
Definition get0 (v : option Q) : Q := match v with Some x => x | None => 0%Q end.

Definition _calculate_prediction_error (estimated : Impact) (actual : ActualImpact) : Q :=
  let err (est_val act_val : Q) : list Q :=
    if Qgtb (Qabs est_val) 0.001 then [Qabs ((est_val - act_val) / est_val)] else [] in
  let errors :=
    err (get0 (success_rate_delta estimated)) (actual_success_rate_delta actual)
    ++ err (get0 (latency_delta_ms estimated)) (actual_latency_delta actual) in
  match errors with
  | [] => 0.0%Q
  | _ => np_mean errors
  end.

Definition set_actual_impact (action : Action) (impact : ActualImpact) : Action :=
  {| action_id := action_id action;
     action_type := action_type action;
     target := target action;
     parameters := parameters action;
     risk_level := risk_level action;
     authorization_level := authorization_level action;
     estimated_impact := estimated_impact action;
     confidence := confidence action;
     executed_at := executed_at action;
     completed_at := completed_at action;
     action_status := action_status action;
     approver := approver action;
     actual_impact := Some impact |}.

(** [record_outcome]: the learner and the action, both as mutated. *)
Definition record_outcome (self : PaymentLearner) (action : Action)
    (baseline_metrics actual_metrics : Metrics) : PaymentLearner * Action :=
  let impact :=
    {| actual_success_rate_delta :=
         m_success_rate actual_metrics - m_success_rate baseline_metrics;
       actual_latency_delta :=
         m_avg_latency actual_metrics - m_avg_latency baseline_metrics |} in
  let outcome :=
    {| o_action_id := action_id action;
       o_action_type := ActionType_value (action_type action);
       o_target := target action;
       o_estimated_impact := estimated_impact action;
       o_actual_impact := impact;
       o_prediction_error :=
         _calculate_prediction_error (estimated_impact action) impact;
       o_baseline_metrics := baseline_metrics;
       o_actual_metrics := actual_metrics |} in
  let action_key :=
    (ActionType_value (action_type action) ++ "_" ++ target action)%string in
  ({| action_outcomes :=
        dupd [] (fun l => l ++ [outcome]) (action_outcomes self) action_key |},
   set_actual_impact action impact).

(** [PaymentDecisionMaker.weights]: a dictionary with exactly these four
    keys. *)
Record Weights := {
  w_success_rate : Q;
  w_latency : Q;
  w_cost : Q;
  w_risk : Q
}.

(** The weights set by [PaymentDecisionMaker.__init__]. *)
Definition Weights_init : Weights :=
  {| w_success_rate := 0.40; w_latency := 0.25; w_cost := 0.20; w_risk := 0.15 |}.

Record ObjectiveScores := {
  s_success_rate : list Q;
  s_latency : list Q;
  s_cost : list Q;
  s_risk : list Q
}.

(** The body of the inner loop of [update_decision_weights]. *)
Definition score_outcome (sc : ObjectiveScores) (outcome : Outcome) : ObjectiveScores :=
  let actual_success := actual_success_rate_delta (o_actual_impact outcome) in
  if Qgtb actual_success 0 then
    let estimated := o_estimated_impact outcome in
    {| s_success_rate :=
         if Qgtb (get0 (success_rate_delta estimated)) 0
         then s_success_rate sc ++ [1.0%Q] else s_success_rate sc;
       s_latency :=
         if Qltb (get0 (latency_delta_ms estimated)) 0
         then s_latency sc ++ [1.0%Q] else s_latency sc;
       s_cost :=
         if Qleb (get0 (cost_delta_per_txn estimated)) 0.02
         then s_cost sc ++ [1.0%Q] else s_cost sc;
       s_risk := s_risk sc |}
  else sc.

Definition objective_scores (self : PaymentLearner) : ObjectiveScores :=
  fold_left score_outcome (concat (dvalues (action_outcomes self)))
    {| s_success_rate := []; s_latency := []; s_cost := []; s_risk := [] |}.

(** The update of one weight: unchanged when no score was collected. *)
Definition adjust_weight (learning_rate : Q) (scores : list Q) (current_weight : Q) : Q :=
  match scores with
  | [] => current_weight
  | _ =>
      let avg_score := np_mean scores in
      let new_weight := (current_weight + learning_rate * (avg_score - 0.5))%Q in
      Qmax 0.05 (Qmin 0.60 new_weight)
  end.

(** The weights after the update loop and before the normalisation. *)
Definition adjusted_weights (self : PaymentLearner) (weights : Weights)
    (learning_rate : Q) : Weights :=
  let sc := objective_scores self in
  {| w_success_rate := adjust_weight learning_rate (s_success_rate sc) (w_success_rate weights);
     w_latency := adjust_weight learning_rate (s_latency sc) (w_latency weights);
     w_cost := adjust_weight learning_rate (s_cost sc) (w_cost weights);
     w_risk := adjust_weight learning_rate (s_risk sc) (w_risk weights) |}.

Definition total_weight (w : Weights) : Q :=
  (0 + w_success_rate w + w_latency w + w_cost w + w_risk w)%Q.

(** [update_decision_weights]; [None] is the [ZeroDivisionError] of the
    normalisation when the weights sum to zero. *)
Definition update_decision_weights (self : PaymentLearner) (weights : Weights)
    (learning_rate : Q) : option Weights :=
  let w := adjusted_weights self weights learning_rate in
  let t := total_weight w in
  if Qeq_bool t 0 then None
  else Some {| w_success_rate := w_success_rate w / t;
               w_latency := w_latency w / t;
               w_cost := w_cost w / t;
               w_risk := w_risk w / t |}.

(** ** src/safety/guardrails.py *)

Module Guardrails.

Inductive AuthorizationLevel := AUTOMATIC | SEMI_AUTOMATIC | MANUAL | BLOCKED.

Record SafetyLimits := {
  max_traffic_impact_percent : Q;
  max_actions_per_hour : Z;
  max_rollbacks_per_hour : Z;
  max_concurrent_interventions : Z;
  min_confidence_for_action : Q;
  min_score_for_action : Q;
  auto_approve_impact_threshold : Q;
  manual_approve_impact_threshold : Q
}.

Definition SafetyLimits_default : SafetyLimits :=
  {| max_traffic_impact_percent := 15.0;
     max_actions_per_hour := 10;
     max_rollbacks_per_hour := 3;
     max_concurrent_interventions := 5;
     min_confidence_for_action := 0.6;
     min_score_for_action := 0.5;
     auto_approve_impact_threshold := 5.0;
     manual_approve_impact_threshold := 20.0 |}.

(** An exception raised by the interpreter. *)
Inductive Raised := AttributeError (object_type attribute : string).

Definition _check_rate_limit (limits : SafetyLimits) (state : AgentState) : bool :=
  actions_executed state <? max_actions_per_hour limits * 24.

(** [check_action_allowed].  Check 3 reads [state.active_actions]; the
    class [AgentState] has no such attribute, so once checks 1 and 2
    pass the call raises and checks 3 to 5 return nothing. *)
Definition check_action_allowed (limits : SafetyLimits) (action : Action)
    (state : AgentState) : Raised + (bool * AuthorizationLevel * string) :=
  if negb (_check_rate_limit limits state) then
    inr (false, BLOCKED,
         ("Rate limit exceeded: max " ++ Z_to_string (max_actions_per_hour limits)
          ++ " actions/hour")%string)
  else if max_rollbacks_per_hour limits <=? rollbacks_last_hour state then
    inr (false, BLOCKED,
         ("Too many rollbacks: " ++ Z_to_string (rollbacks_last_hour state) ++ "/"
          ++ Z_to_string (max_rollbacks_per_hour limits))%string)
  else inl (AttributeError "AgentState" "active_actions").

End Guardrails.

(** ** Vocabulary of the statements *)

(** The key under which a transaction is counted in a dimension. *)
Definition dim_key (dimension : Dimension) (t : PaymentTransaction) : string :=
  match dimension with
  | D_overall => "current"
  | D_by_issuer => issuer t
  | D_by_method => PaymentMethod_value (payment_method t)
  | D_by_region => region t
  | D_by_merchant => merchant_id t
  end.

Definition counted (dimension : Dimension) (key : string) (t : PaymentTransaction) : bool :=
  String.eqb (dim_key dimension t) key.

(** The counters a list of transactions amounts to, for one key. *)
Definition tally (dimension : Dimension) (key : string) (l : list PaymentTransaction)
  : Counter :=
  {| success :=
       Z.of_nat (length (List.filter
                  (fun t => counted dimension key t && status_key t) l));
     failed :=
       Z.of_nat (length (List.filter
                  (fun t => counted dimension key t && negb (status_key t)) l));
     total := Z.of_nat (length (List.filter (counted dimension key) l)) |}.

(** The operations on an observer: ingesting a transaction at some clock
    reading, and evicting at some clock reading. *)
Inductive ObserverOp :=
| OpIngest (now : Z) (transaction : PaymentTransaction)
| OpEvict (now : Z).

Definition observer_step (self : PaymentObserver) (op : ObserverOp) : PaymentObserver :=
  match op with
  | OpIngest now transaction => ingest_transaction now transaction self
  | OpEvict now => _cleanup_old_transactions now self
  end.

Definition observer_run (ops : list ObserverOp) (self : PaymentObserver)
  : PaymentObserver :=
  fold_left observer_step ops self.

(** The reasoners obtained from a fresh one by baseline updates. *)
Inductive reasoner_reachable : PaymentReasoner -> Prop :=
| reasoner_fresh : reasoner_reachable PaymentReasoner_init
| reasoner_updated self observer :
    reasoner_reachable self -> reasoner_reachable (update_baselines self observer).

(** The executors obtained from a fresh one by [execute] and
    [monitor_and_rollback], whatever the agent state, the observer and the
    clock are at each call. *)
Inductive executor_reachable : PaymentExecutor -> Prop :=
| executor_fresh : executor_reachable PaymentExecutor_init
| executor_executed now self action state observer :
    executor_reachable self ->
    executor_reachable (ex_self (execute now self action state observer))
| executor_monitored now self state observer :
    executor_reachable self ->
    executor_reachable (mon_self (monitor_and_rollback now self state observer)).

(** The pair that identifies the object of an intervention. *)
Definition intervention_key (a : Action) : ActionType * string :=
  (action_type a, target a).

Definition high_risk (a : Action) : Prop :=
  risk_level a = HIGH \/ risk_level a = CRITICAL.

(** The counters read for a key, as [defaultdict] reads them. *)
Definition reads (s : Stats) (dimension : Dimension) (key : string) : Counter :=
  dget_or Counter_zero (stats_dim s dimension) key.

Definition cplus (a b : Counter) : Counter :=
  {| success := success a + success b;
     failed := failed a + failed b;
     total := total a + total b |}.

(** The counters are those of the window, key by key. *)
Definition agrees (s : Stats) (w : list PaymentTransaction) : Prop :=
  forall dimension key, reads s dimension key = tally dimension key w.

(** No key occurs twice in a table of counters. *)
Definition stats_wf (s : Stats) : Prop :=
  forall dimension, NoDup (dkeys (stats_dim s dimension)).

Definition observer_inv (self : PaymentObserver) : Prop :=
  agrees (stats self) (transactions_window self) /\ stats_wf (stats self).

(** The entries [health_loop] adds for a table without repeated keys. *)
Definition health_entries (rings : dict (list Q)) (entries : dict Counter) : dict Health :=
  flat_map
    (fun kc => if total (snd kc) =? 0 then []
               else [(fst kc, health_record rings (fst kc) (snd kc))])
    entries.

(** The pattern [_detect_issuer_degradation] builds for an issuer. *)
Definition issuer_pattern_of (self : PaymentReasoner) (i : string) (health : Health)
  : Pattern :=
  let baseline := dget_or default_rate (issuer_success_rates (baselines self)) i in
  let degradation := fsub baseline (h_success_rate health) in
  {| pattern_type := "issuer_degradation";
     severity := Qmin (fdiv degradation 0.3) 1.0;
     affected_dimension := "issuer";
     affected_value := i;
     metrics := [ ("current_success_rate", h_success_rate health);
                  ("baseline_success_rate", baseline);
                  ("degradation", degradation);
                  ("volume", inject_Z (h_volume health));
                  ("avg_latency", h_avg_latency health) ] |}.

(** The decision of one iteration of the loop of [monitor_and_rollback]:
    a baseline is found and [_should_rollback] says yes. *)
Definition rollback_due (now : Z) (self : PaymentExecutor) (current : Metrics)
    (ka : string * Action) : bool :=
  match _find_baseline_for_action self (fst ka) with
  | None => false
  | Some baseline => fst (_should_rollback now (snd ka) baseline current)
  end.

(** The reason logged for a rollback. *)
Definition rollback_reason (now : Z) (self : PaymentExecutor) (current : Metrics)
    (ka : string * Action) : string :=
  match _find_baseline_for_action self (fst ka) with
  | None => EmptyString
  | Some baseline => snd (_should_rollback now (snd ka) baseline current)
  end.

(** One rollback as the loop applies it to the agent state. *)
Definition rollback_state (state : AgentState) (ka : string * Action) : AgentState :=
  let state' := reverse_write (snd ka) state in
  with_counters state' (actions_taken_last_hour state')
    (rollbacks_last_hour state' + 1) (actions_executed state').




(** What holds of every entry of the table of active interventions. *)
Definition entry_ok (self : PaymentExecutor) (ka : string * Action) : Prop :=
  action_id (snd ka) = fst ka
  /\ executed_at (snd ka) <> None
  /\ _find_baseline_for_action self (fst ka) <> None.

Definition executor_inv (self : PaymentExecutor) : Prop :=
  NoDup (dkeys (active_interventions self))
  /\ NoDup (List.map intervention_key (dvalues (active_interventions self)))
  /\ Forall (entry_ok self) (active_interventions self).




Definition weights_sum (w : Weights) : Q :=
  (w_success_rate w + w_latency w + w_cost w + w_risk w)%Q.




(** ** Sample data *)

Definition no_parameters : Parameters :=
  {| p_issuer := None; p_duration_minutes := None; p_max_retries := None;
     p_backoff_multiplier := None; p_timeout_ms := None;
     p_alternative_routing := None; p_reduce_routing_pct := None;
     p_payment_method := None |}.

Definition no_impact : Impact :=
  {| success_rate_delta := None; latency_delta_ms := None; cost_delta_per_txn := None |}.

Definition sample_action (id : string) (ty : ActionType) (tgt : string)
    (p : Parameters) (risk : RiskLevel) : Action :=
  {| action_id := id; action_type := ty; target := tgt; parameters := p;
     risk_level := risk; authorization_level := AUTOMATIC;
     estimated_impact := no_impact; confidence := 0.9;
     executed_at := None; completed_at := None;
     action_status := "pending"; approver := None; actual_impact := None |}.

Definition breaker_parameters (issuer : string) : Parameters :=
  {| p_issuer := Some issuer; p_duration_minutes := Some 10; p_max_retries := None;
     p_backoff_multiplier := None; p_timeout_ms := None;
     p_alternative_routing := None; p_reduce_routing_pct := None;
     p_payment_method := None |}.

Definition state_with_counters (taken rollbacks : Z) : AgentState :=
  with_counters AgentState_init taken rollbacks 0.

Definition sample_transaction (id : string) (ts : Z) (iss : string)
    (st : PaymentStatus) (code : option string) (latency : Q) (retry : bool)
  : PaymentTransaction :=
  {| transaction_id := id; timestamp := ts; amount := 100; currency := "INR";
     payment_method := UPI; issuer := iss; merchant_id := "m1"; status := st;
     error_code := code; error_message := None; latency_ms := latency;
     retry_count := 0; is_retry := retry; original_transaction_id := None;
     region := "south"; processor := "default" |}.

(** An alert with its own identifier and target. *)
Definition alert (n : string) : Action :=
  sample_action ("alert-" ++ n)%string ALERT_OPS ("ops-" ++ n)%string no_parameters LOW.

(** Executing a list of actions in turn, at clock reading [now], with the
    observer unchanged. *)
Definition execute_all (now : Z) (observer : PaymentObserver) (actions : list Action)
    (start : PaymentExecutor * AgentState) : PaymentExecutor * AgentState :=
  fold_left
    (fun (acc : PaymentExecutor * AgentState) a =>
       let r := execute now (fst acc) a (snd acc) observer in
       (ex_self r, ex_state r))
    actions start.

(** An executor with five active interventions, and the agent state that
    goes with it. *)
Definition five_active : PaymentExecutor * AgentState :=
  execute_all 0 (PaymentObserver_init 10)
    [alert "1"; alert "2"; alert "3"; alert "4"; alert "5"]
    (PaymentExecutor_init, AgentState_init).

(** A failed retry with an error code and a latency of one second, seen at
    time 0; and a transaction that reaches the observer twenty minutes
    later carrying a time stamp fifteen minutes old. *)
Definition slow_failure : PaymentTransaction :=
  sample_transaction "t1" 0 "HDFC" FAILED (Some "E1") 1000 true.

Definition late_arrival : PaymentTransaction :=
  sample_transaction "t2" (minutes 5) "HDFC" SUCCESS None 0 false.

(** After these two ingestions with a ten minute window both transactions
    have left the window. *)
Definition emptied_observer : PaymentObserver :=
  observer_run [OpIngest 0 slow_failure; OpIngest (minutes 20) late_arrival]
    (PaymentObserver_init 10).

Definition zero_latency_stats : LatencyStats :=
  {| p50 := 0; p95 := 0; p99 := 0; mean := 0; maxv := 0 |}.

(** Ten failed transactions of one issuer, all inside the window. *)
Definition ten_failures : list ObserverOp :=
  List.map
    (fun n => OpIngest 0 (sample_transaction ("f" ++ Z_to_string n)%string 0 "HDFC"
                            FAILED (Some "E1") 100 false))
    [1; 2; 3; 4; 5; 6; 7; 8; 9; 10].

(** A stale success without latency, ingested into a fresh observer. *)
Definition quiet_observer : PaymentObserver :=
  observer_run [OpIngest (minutes 20) late_arrival] (PaymentObserver_init 10).

(** A circuit breaker for one issuer; an observer at 95% success and one
    at 85% success; the breaker executed at time 0 over the healthy
    observer. *)
Definition icici_breaker : Action :=
  sample_action "cb-icici" CIRCUIT_BREAKER "ICICI" (breaker_parameters "ICICI") MEDIUM.

Definition observer_with (statuses : list PaymentStatus) : PaymentObserver :=
  observer_run
    (List.map (fun st => OpIngest 0 (sample_transaction "t" 0 "ICICI" st None 100 false))
       statuses)
    (PaymentObserver_init 10).

Definition healthy_observer : PaymentObserver :=
  observer_with (repeat SUCCESS 19 ++ repeat FAILED 1).

Definition degraded_observer : PaymentObserver :=
  observer_with (repeat SUCCESS 17 ++ repeat FAILED 3).

Definition breaker_executed : ExecuteResult :=
  execute 0 PaymentExecutor_init icici_breaker AgentState_init healthy_observer.

(** An observer at 60% success: twenty transactions of one issuer, one
    method and one region, eight of them failed. *)
Definition troubled_observer : PaymentObserver :=
  observer_with (repeat SUCCESS 12 ++ repeat FAILED 8).

(** Five payments in the window, three of them retries. *)
Definition retried_payments : list ObserverOp :=
  List.map
    (fun n => OpIngest 0 (sample_transaction ("r" ++ Z_to_string n)%string 0 "HDFC"
                            SUCCESS None 100 (n <=? 3)))
    [1; 2; 3; 4; 5].



(** An outcome of an action whose estimate is that of the circuit
    breaker built by the decision maker (success +0.15, latency -200 ms,
    cost +0.02), after which the success rate rose by 0.05. *)
Definition sample_outcome (estimate : Impact) (gain : Q) : Outcome :=
  {| o_action_id := "cb-icici";
     o_action_type := "circuit_breaker";
     o_target := "ICICI";
     o_estimated_impact := estimate;
     o_actual_impact :=
       {| actual_success_rate_delta := gain; actual_latency_delta := 0 |};
     o_prediction_error := 0;
     o_baseline_metrics :=
       {| m_success_rate := 0.85; m_avg_latency := 200;
          m_transaction_volume := 100; m_timestamp := 0 |};
     o_actual_metrics :=
       {| m_success_rate := 0.85 + gain; m_avg_latency := 200;
          m_transaction_volume := 100; m_timestamp := minutes 5 |} |}.

Definition breaker_estimate : Impact :=
  {| success_rate_delta := Some 0.15%Q;
     latency_delta_ms := Some (-200)%Q;
     cost_delta_per_txn := Some 0.02%Q |}.


Definition learner_with (o : Outcome) : PaymentLearner :=
  {| action_outcomes := [("circuit_breaker_ICICI", [o])] |}.

(** ** Vocabulary of the further statements *)

(** The transactions a run of operations ingests, in order. *)
Definition ingested (ops : list ObserverOp) : list PaymentTransaction :=
  flat_map (fun op => match op with
                      | OpIngest _ transaction => [transaction]
                      | OpEvict _ => []
                      end) ops.

(** The last [n] elements of a list. *)
Definition lastn {A : Type} (n : nat) (l : list A) : list A :=
  skipn (length l - n)%nat l.

(** The time stamps do not decrease along the list. *)
Definition by_time (a b : PaymentTransaction) : Prop := timestamp a <= timestamp b.

(** The window and the memory as parts of the ingestion history [h]. *)
Definition history_inv (h : list PaymentTransaction) (self : PaymentObserver) : Prop :=
  (exists older, h = older ++ transactions_window self)
  /\ recent_transactions self = lastn (Z.to_nat 10000) h.

(** The positive latencies of the transactions selected by [f], in the
    order of ingestion: what [_track_latency] appends to a ring. *)
Definition positive_latencies (f : PaymentTransaction -> bool)
    (h : list PaymentTransaction) : list Q :=
  List.map latency_ms (List.filter (fun t => Qgtb (latency_ms t) 0 && f t) h).

Definition has_issuer (key : string) (t : PaymentTransaction) : bool :=
  String.eqb (issuer t) key.

Definition has_method (key : string) (t : PaymentTransaction) : bool :=
  String.eqb (PaymentMethod_value (payment_method t)) key.

(** The failed transactions that carry the error code [code]. *)
Definition failed_with (code : string) (t : PaymentTransaction) : bool :=
  PaymentStatus_eqb (status t) FAILED
  && match error_code t with
     | Some c => String.eqb c code
     | None => false
     end.

(** [a] comes before [b] in a list sorted by count, largest first. *)
Definition by_count (a b : string * Z) : Prop := snd b <= snd a.

(** ** src/agent/reasoner.py: hypotheses *)

(** The source's class [Hypothesis], a hypothesis about the cause of a
    pattern.  The model keeps the root cause and the probability; the
    identifiers, the evidence texts and the time stamp are left out. *)
Record PatternHypothesis := { root_cause : string; probability : Q }.

(** [metrics[key]]: a missing key raises [KeyError], here [None]. *)
Definition metric (pattern : Pattern) (key : string) : option Q :=
  dget (metrics pattern) key.

(** The built-in [sum]: from 0, left to right. *)
Definition py_sum (l : list Q) : Q := fold_left Qplus l 0%Q.

Definition _generate_issuer_hypotheses (pattern : Pattern) : option (list PatternHypothesis) :=
  match metric pattern "current_success_rate", metric pattern "degradation" with
  | Some current, Some _ =>
      let down_probability := if Qltb current 0.20 then 0.6%Q else 0.3%Q in
      let throttle_probability :=
        if Qgtb (dget_or 0%Q (metrics pattern) "avg_latency") 500 then 0.5%Q else 0.3%Q in
      Some [ {| root_cause := "issuer_down"; probability := down_probability |};
             {| root_cause := "issuer_throttling"; probability := throttle_probability |};
             {| root_cause := "network_issue"; probability := 0.2 |} ]
  | _, _ => None
  end.

Definition _generate_retry_hypotheses (pattern : Pattern) : option (list PatternHypothesis) :=
  match metric pattern "retry_percentage", metric pattern "retry_efficiency",
        metric pattern "total_retries" with
  | Some _, Some _, Some _ =>
      Some [ {| root_cause := "aggressive_retry_config"; probability := 0.5 |};
             {| root_cause := "cascading_failures"; probability := 0.3 |};
             {| root_cause := "upstream_issue"; probability := 0.2 |} ]
  | _, _, _ => None
  end.

Definition _generate_method_hypotheses (pattern : Pattern) : option (list PatternHypothesis) :=
  Some [ {| root_cause := "fraud_detection_triggers"; probability := 0.4 |};
         {| root_cause := "user_cancellation"; probability := 0.3 |};
         {| root_cause := "method_limits"; probability := 0.3 |} ].

Definition _generate_latency_hypotheses (pattern : Pattern) : option (list PatternHypothesis) :=
  match metric pattern "spike_factor" with
  | Some _ =>
      Some [ {| root_cause := "system_load"; probability := 0.4 |};
             {| root_cause := "network_congestion"; probability := 0.3 |};
             {| root_cause := "downstream_slowness"; probability := 0.3 |} ]
  | None => None
  end.

Definition _generate_error_hypotheses (pattern : Pattern) : option (list PatternHypothesis) :=
  Some [ {| root_cause := "specific_error_condition"; probability := 0.6 |};
         {| root_cause := "configuration_issue"; probability := 0.4 |} ].

Definition _generate_geographic_hypotheses (pattern : Pattern) : option (list PatternHypothesis) :=
  Some [ {| root_cause := "regional_network_outage"; probability := 0.5 |};
         {| root_cause := "regional_bank_issue"; probability := 0.3 |};
         {| root_cause := "compliance_block"; probability := 0.2 |} ].

(** [h.probability /= total_prob] for every hypothesis. *)
Definition normalise (total_prob : Q) (hypotheses : list PatternHypothesis)
  : list PatternHypothesis :=
  List.map (fun h => {| root_cause := root_cause h;
                        probability := (probability h / total_prob)%Q |}) hypotheses.

Definition generate_hypotheses (pattern : Pattern) : option (list PatternHypothesis) :=
  let generated :=
    if String.eqb (pattern_type pattern) "issuer_degradation"
    then _generate_issuer_hypotheses pattern
    else if String.eqb (pattern_type pattern) "retry_storm"
    then _generate_retry_hypotheses pattern
    else if String.eqb (pattern_type pattern) "method_fatigue"
    then _generate_method_hypotheses pattern
    else if String.eqb (pattern_type pattern) "latency_spike"
    then _generate_latency_hypotheses pattern
    else if String.eqb (pattern_type pattern) "error_cluster"
    then _generate_error_hypotheses pattern
    else if String.eqb (pattern_type pattern) "geographic_issue"
    then _generate_geographic_hypotheses pattern
    else Some [] in
  match generated with
  | None => None
  | Some hypotheses =>
      let total_prob := py_sum (List.map probability hypotheses) in
      if Qgtb total_prob 0 then Some (normalise total_prob hypotheses)
      else Some hypotheses
  end.

(** The six pattern types [analyze] can emit. *)
Definition known_pattern_types : list string :=
  [ "issuer_degradation"; "retry_storm"; "method_fatigue";
    "latency_spike"; "error_cluster"; "geographic_issue" ].

(** [a] comes before [b] in a list sorted by severity, largest first. *)
Definition by_severity (a b : Pattern) : Prop := (severity b <= severity a)%Q.

(** ** src/agent/executor.py: the execution history *)

(** The slice [l[start:]] of a Python list: a negative start counts from
    the end, and both ends are clipped to the list. *)
Definition py_slice_from {A : Type} (start : Z) (l : list A) : list A :=
  let n := Z.of_nat (length l) in
  if start <? 0 then skipn (Z.to_nat (Z.max (n + start) 0)) l
  else skipn (Z.to_nat (Z.min start n)) l.

(** [get_execution_history]: [self.execution_log[-limit:]]. *)
Definition get_execution_history (self : PaymentExecutor) (limit : Z) : list LogEntry :=
  py_slice_from (- limit) (execution_log self).

(** ** Executor and agent state run together *)

(** [self.state.actions_successful += 1], in the act phase of the agent
    (src/agent/core.py). *)
Definition count_successful (state : AgentState) : AgentState :=
  {| active_circuit_breakers := active_circuit_breakers state;
     suppressed_methods := suppressed_methods state;
     retry_strategies := retry_strategies state;
     routing_overrides := routing_overrides state;
     actions_taken_last_hour := actions_taken_last_hour state;
     rollbacks_last_hour := rollbacks_last_hour state;
     actions_executed := actions_executed state;
     actions_successful := actions_successful state + 1 |}.

(** What the agent does with its executor and its state: the act phase
    executes an action and counts a success; the monitor phase calls
    [monitor_and_rollback]; the learn phase lets [record_outcome] write the
    actual impact of some of the active actions, which are shared with the
    executor's table.  Each call has its own clock reading and observer. *)
Inductive SystemOp :=
| SysExecute (now : Z) (action : Action) (observer : PaymentObserver)
| SysMonitor (now : Z) (observer : PaymentObserver)
| SysLearn (impacts : string -> option ActualImpact).

Definition learn_entry (impacts : string -> option ActualImpact)
    (ka : string * Action) : string * Action :=
  match impacts (fst ka) with
  | Some impact => (fst ka, set_actual_impact (snd ka) impact)
  | None => ka
  end.

Definition system_step (s : PaymentExecutor * AgentState) (op : SystemOp)
  : PaymentExecutor * AgentState :=
  match op with
  | SysExecute now action observer =>
      let r := execute now (fst s) action (snd s) observer in
      (ex_self r, if ex_ok r then count_successful (ex_state r) else ex_state r)
  | SysMonitor now observer =>
      let r := monitor_and_rollback now (fst s) (snd s) observer in
      (mon_self r, mon_state r)
  | SysLearn impacts =>
      ({| execution_log := execution_log (fst s);
          active_interventions :=
            List.map (learn_entry impacts) (active_interventions (fst s)) |},
       snd s)
  end.

Definition system_run (ops : list SystemOp) : PaymentExecutor * AgentState :=
  fold_left system_step ops (PaymentExecutor_init, AgentState_init).

(** The counters of the agent state and the tables of the executor fit
    together. *)
Definition system_inv (s : PaymentExecutor * AgentState) : Prop :=
  executor_inv (fst s)
  /\ actions_taken_last_hour (snd s) = actions_executed (snd s)
  /\ actions_successful (snd s) = actions_executed (snd s)
  /\ actions_executed (snd s) = Z.of_nat (length (execution_log (fst s)))
  /\ actions_executed (snd s) <= 50
  /\ 0 <= rollbacks_last_hour (snd s)
  /\ rollbacks_last_hour (snd s) + Z.of_nat (length (active_interventions (fst s)))
     <= actions_executed (snd s).

(** ** src/agent/learner.py: effectiveness of an action *)

Record Effectiveness := {
  sample_size : Z;
  avg_success_improvement : Q;
  avg_latency_improvement : Q;
  prediction_accuracy : Q;
  e_success_rate : Q
}.

(** [f"{action_type}_{target}"] *)
Definition outcome_key (action_type target : string) : string :=
  (action_type ++ "_" ++ target)%string.

(** [get_action_effectiveness]; [target] is [None] by default, and an
    empty target is as good as none. *)
Definition get_action_effectiveness (self : PaymentLearner) (action_type : string)
    (target : option string) : Effectiveness :=
  let action_key :=
    if truthy target
    then outcome_key action_type (match target with Some t => t | None => EmptyString end)
    else action_type in
  let outcomes := dget_or [] (action_outcomes self) action_key in
  match outcomes with
  | [] => {| sample_size := 0; avg_success_improvement := 0.0; avg_latency_improvement := 0.0;
             prediction_accuracy := 0.0; e_success_rate := 0.0 |}
  | _ :: _ =>
      let success_improvements :=
        List.map (fun o => actual_success_rate_delta (o_actual_impact o)) outcomes in
      let latency_improvements :=
        List.map (fun o => (- actual_latency_delta (o_actual_impact o))%Q) outcomes in
      let prediction_errors := List.map o_prediction_error outcomes in
      let successes :=
        Z.of_nat (length (List.filter
                            (fun o => Qgtb (actual_success_rate_delta (o_actual_impact o)) 0)
                            outcomes)) in
      {| sample_size := Z.of_nat (length outcomes);
         avg_success_improvement := np_mean success_improvements;
         avg_latency_improvement := np_mean latency_improvements;
         prediction_accuracy := 1.0 - np_mean prediction_errors;
         e_success_rate := inject_Z successes / inject_Z (Z.of_nat (length outcomes)) |}
  end.

(** A learner after a sequence of [record_outcome] calls, each with the
    action, the baseline metrics and the metrics measured. *)
Definition learner_run (calls : list (Action * Metrics * Metrics)) : PaymentLearner :=
  fold_left
    (fun self c => fst (record_outcome self (fst (fst c)) (snd (fst c)) (snd c)))
    calls PaymentLearner_init.

(** The call [c] was for an action of this type and target. *)
Definition call_for (ty : ActionType) (tgt : string) (c : Action * Metrics * Metrics)
  : bool :=
  ActionType_eqb (action_type (fst (fst c))) ty && String.eqb (target (fst (fst c))) tgt.

(** The outcome [o] is the record of the call [c]. *)
Definition outcome_records (o : Outcome) (c : Action * Metrics * Metrics) : Prop :=
  o_action_id o = action_id (fst (fst c))
  /\ o_estimated_impact o = estimated_impact (fst (fst c))
  /\ actual_success_rate_delta (o_actual_impact o)
     = (m_success_rate (snd c) - m_success_rate (snd (fst c)))%Q
  /\ actual_latency_delta (o_actual_impact o)
     = (m_avg_latency (snd c) - m_avg_latency (snd (fst c)))%Q
  /\ o_baseline_metrics o = snd (fst c)
  /\ o_actual_metrics o = snd c.

(** A sequence of [update_decision_weights] calls, each with the learner of
    the moment and its learning rate; [None] when a call raises. *)
Fixpoint update_many (calls : list (PaymentLearner * Q)) (weights : Weights)
  : option Weights :=
  match calls with
  | [] => Some weights
  | (learner, learning_rate) :: rest =>
      match update_decision_weights learner weights learning_rate with
      | None => None
      | Some weights' => update_many rest weights'
      end
  end.

(** Every weight is positive and the weights sum to 1. *)
Definition weights_ok (w : Weights) : Prop :=
  (0 < w_success_rate w)%Q /\ (0 < w_latency w)%Q /\ (0 < w_cost w)%Q
  /\ (0 < w_risk w)%Q /\ (weights_sum w == 1)%Q.

(** ** src/agent/decision_maker.py: scoring *)

Definition _score_success_impact (delta pattern_severity : Q) : Q :=
  if Qgtb delta 0 then Qmin (delta / 0.20 * pattern_severity) 1.0
  else Qmax 0.0 (1.0 + delta / 0.10).

Definition _score_latency_impact (delta_ms current_latency : Q) : Q :=
  if Qltb delta_ms 0 then
    let reduction_pct := (Qabs delta_ms / Qmax current_latency 100)%Q in
    Qmin (reduction_pct * 2) 1.0
  else
    let increase_pct := (delta_ms / Qmax current_latency 100)%Q in
    Qmax 0.0 (1.0 - increase_pct).

Definition _score_cost_impact (delta_per_txn : Q) : Q :=
  if Qeq_bool delta_per_txn 0 then 1.0
  else if Qleb delta_per_txn 0.02 then 0.8
  else if Qleb delta_per_txn 0.05 then 0.5
  else 0.2.

(** [self.impact_limits] *)
Definition impact_limits (risk : RiskLevel) : Q :=
  match risk with
  | LOW => 0.05
  | MEDIUM => 0.10
  | HIGH => 0.20
  | CRITICAL => 1.00
  end.

Definition _score_risk (risk : RiskLevel) (affected_pct : Q) (state : AgentState) : Q :=
  let base_score :=
    match risk with
    | LOW => 1.0
    | MEDIUM => 0.7
    | HIGH => 0.4
    | CRITICAL => 0.1
    end%Q in
  let limit := impact_limits risk in
  let base_score1 :=
    if Qgtb affected_pct limit then
      let penalty := ((affected_pct - limit) / limit)%Q in
      (base_score * Qmax 0.1 (1.0 - penalty))%Q
    else base_score in
  if 0 <? rollbacks_last_hour state then (base_score1 * 0.8)%Q else base_score1.

(** The score computed by [_evaluate_action].  [affected_traffic_pct]
    stands for [impact.get('affected_traffic_pct', 0.0)] and
    [average_latency_ms] for the field of that name of the agent state;
    the explanation text is left out. *)
Definition _evaluate_action (weights : Weights) (action : Action)
    (pattern_severity average_latency_ms affected_traffic_pct : Q)
    (state : AgentState) : Q :=
  let impact := estimated_impact action in
  let success_score :=
    _score_success_impact (get0 (success_rate_delta impact)) pattern_severity in
  let latency_score :=
    _score_latency_impact (get0 (latency_delta_ms impact)) average_latency_ms in
  let cost_score := _score_cost_impact (get0 (cost_delta_per_txn impact)) in
  let risk_score := _score_risk (risk_level action) affected_traffic_pct state in
  let total_score :=
    (w_success_rate weights * success_score + w_latency weights * latency_score
     + w_cost weights * cost_score + w_risk weights * risk_score)%Q in
  (total_score * confidence action)%Q.

(** ** src/agent/observer.py: basic anomalies *)

(** An anomaly; the message text is left out. *)
Record Anomaly := {
  anomaly_type : string;
  anomaly_severity : Q;
  anomaly_affected : option string
}.

(** One iteration of the loop over issuers of [detect_basic_anomalies]. *)
Definition issuer_anomaly (issuer : string) (health : Health) : list Anomaly :=
  if Qltb (h_success_rate health) 0.80 && (10 <=? h_volume health) then
    [ {| anomaly_type := "issuer_degradation";
         anomaly_severity := 1.0 - h_success_rate health;
         anomaly_affected := Some issuer |} ]
  else [].

Definition detect_basic_anomalies (self : PaymentObserver) : list Anomaly :=
  let overall_success := get_success_rate self D_overall "current" in
  let latency_stats := overall_latency_stats self in
  let retry_efficiency := get_retry_efficiency self in
  (if Qltb overall_success 0.85 then
     [ {| anomaly_type := "low_success_rate";
          anomaly_severity := 1.0 - overall_success;
          anomaly_affected := None |} ]
   else [])
  ++ flat_map (fun kv => issuer_anomaly (fst kv) (snd kv)) (get_issuer_health self)
  ++ (if Qgtb (p95 latency_stats) 1000 then
        [ {| anomaly_type := "high_latency";
             anomaly_severity := Qmin (p95 latency_stats / 2000) 1.0;
             anomaly_affected := None |} ]
      else [])
  ++ (if Qltb retry_efficiency 0.30
         && (10 <=? Z.of_nat (length (retry_stats self))) then
        [ {| anomaly_type := "low_retry_efficiency";
             anomaly_severity := 1.0 - retry_efficiency;
             anomaly_affected := None |} ]
      else []).

(** ** src/safety/rollback.py *)

(** The dictionary [_capture_baseline_metrics] returns, without its time
    stamp: the metrics the executor hands around. *)
Definition metrics_dict (m : Metrics) : dict Q :=
  [ ("success_rate", m_success_rate m);
    ("avg_latency", m_avg_latency m);
    ("transaction_volume", inject_Z (m_transaction_volume m)) ].

Module Rollback.

Record RollbackThresholds := {
  success_rate_drop : Q;
  latency_increase_percent : Q;
  error_rate_increase : Q;
  cost_increase_percent : Q;
  monitoring_window_seconds : Z
}.

Definition RollbackThresholds_default : RollbackThresholds :=
  {| success_rate_drop := 0.05;
     latency_increase_percent := 50.0;
     error_rate_increase := 0.10;
     cost_increase_percent := 20.0;
     monitoring_window_seconds := 300 |}.

(** The dictionary [set_baseline] stores, without its time stamp. *)
Record Baseline := {
  b_success_rate : Q;
  b_avg_latency_ms : Q;
  b_error_rate : Q;
  b_cost_per_txn : Q
}.

(** The reason of a rollback; the text is left out, the number it
    formats is kept. *)
Inductive Reason :=
| SuccessRateDropped (by_ : Q)
| LatencyIncreased (by_ : Q)
| ErrorRateIncreased (by_ : Q).

Record RollbackEvent := {
  ev_action_id : string;
  ev_action_type : string;
  ev_target : string;
  ev_reason : Reason
}.

(** [baseline_metrics] is [None] for the empty dictionary of the
    constructor. *)
Record RollbackManager := {
  thresholds : RollbackThresholds;
  baseline_metrics : option Baseline;
  rollback_history : list RollbackEvent
}.

(** [RollbackManager.__init__] *)
Definition RollbackManager_init (thresholds : RollbackThresholds) : RollbackManager :=
  {| thresholds := thresholds; baseline_metrics := None; rollback_history := [] |}.

Definition set_baseline (self : RollbackManager) (metrics : dict Q) : RollbackManager :=
  {| thresholds := thresholds self;
     baseline_metrics :=
       Some {| b_success_rate := dget_or 0.95%Q metrics "success_rate";
               b_avg_latency_ms := dget_or 200%Q metrics "avg_latency_ms";
               b_error_rate := dget_or 0.05%Q metrics "error_rate";
               b_cost_per_txn := dget_or 0.10%Q metrics "cost_per_txn" |};
     rollback_history := rollback_history self |}.

Definition _record_rollback (self : RollbackManager) (action : Action) (reason : Reason)
  : RollbackManager :=
  {| thresholds := thresholds self;
     baseline_metrics := baseline_metrics self;
     rollback_history :=
       rollback_history self
       ++ [ {| ev_action_id := action_id action;
               ev_action_type := ActionType_value (action_type action);
               ev_target := target action;
               ev_reason := reason |} ] |}.

(** [check_rollback_needed]: the returned pair and the manager as
    mutated. *)
Definition check_rollback_needed (self : RollbackManager) (action : Action)
    (current_metrics : dict Q) : (bool * option Reason) * RollbackManager :=
  match baseline_metrics self with
  | None => ((false, None), self)
  | Some baseline =>
      let success_drop :=
        fsub (b_success_rate baseline) (dget_or 0%Q current_metrics "success_rate") in
      if Qgtb success_drop (fl (success_rate_drop (thresholds self))) then
        let reason := SuccessRateDropped success_drop in
        ((true, Some reason), _record_rollback self action reason)
      else
        let latency_hit :=
          if Qgtb (fl (b_avg_latency_ms baseline)) 0 then
            let latency_increase :=
              fmul (fdiv (fsub (dget_or 0%Q current_metrics "avg_latency_ms")
                               (b_avg_latency_ms baseline))
                         (b_avg_latency_ms baseline))
                   100 in
            if Qgtb latency_increase (fl (latency_increase_percent (thresholds self)))
            then Some latency_increase else None
          else None in
        match latency_hit with
        | Some latency_increase =>
            let reason := LatencyIncreased latency_increase in
            ((true, Some reason), _record_rollback self action reason)
        | None =>
            let error_increase :=
              fsub (dget_or 0%Q current_metrics "error_rate") (b_error_rate baseline) in
            if Qgtb error_increase (fl (error_rate_increase (thresholds self))) then
              let reason := ErrorRateIncreased error_increase in
              ((true, Some reason), _record_rollback self action reason)
            else ((false, None), self)
        end
  end.

(** [get_rollback_history]: [self.rollback_history[-limit:]]. *)
Definition get_rollback_history (self : RollbackManager) (limit : Z) : list RollbackEvent :=
  py_slice_from (- limit) (rollback_history self).

End Rollback.

(** * Properties *)

(** ** Rational comparisons *)

Lemma Qleb_le (x y : Q) : Qleb x y = true <-> (x <= y)%Q.
Proof. apply Qle_bool_iff. Qed.

Lemma Qltb_lt (x y : Q) : Qltb x y = true <-> (x < y)%Q.
Proof.
  unfold Qltb. rewrite negb_true_iff. split.
  - intros H. apply Qnot_le_lt. intros Hle.
    apply Qle_bool_iff in Hle. congruence.
  - intros H. destruct (Qle_bool y x) eqn:E; [|reflexivity].
    apply Qle_bool_iff in E. exfalso. apply (Qlt_not_le _ _ H E).
Qed.

Lemma Qgeb_ge (x y : Q) : Qgeb x y = true <-> (y <= x)%Q.
Proof. apply Qleb_le. Qed.

Lemma Qgtb_gt (x y : Q) : Qgtb x y = true <-> (y < x)%Q.
Proof. apply Qltb_lt. Qed.

Lemma Qgtb_false (x y : Q) : Qgtb x y = false <-> (x <= y)%Q.
Proof.
  unfold Qgtb, Qltb. rewrite negb_false_iff. apply Qle_bool_iff.
Qed.

(** ** Double precision: rounding to an integer *)

Lemma Qltb_ge (x y : Q) : Qltb x y = false <-> (y <= x)%Q.
Proof.
  split.
  - intros H. destruct (Qlt_le_dec x y) as [Hlt|Hle]; [|exact Hle].
    apply Qltb_lt in Hlt. congruence.
  - intros H. apply not_true_is_false. intros E. apply Qltb_lt in E. lra.
Qed.

Lemma round_half_even_floor (x : Q) :
  Qfloor x <= round_half_even x <= Qfloor x + 1.
Proof.
  unfold round_half_even.
  destruct (Qltb _ 0.5); [lia|]. destruct (Qltb 0.5 _); [lia|].
  destruct (Z.even _); lia.
Qed.

Lemma round_half_even_mono (x y : Q) :
  (x <= y)%Q -> round_half_even x <= round_half_even y.
Proof.
  intros Hxy. pose proof (Qfloor_resp_le x y Hxy) as Hf.
  destruct (Z.eq_dec (Qfloor x) (Qfloor y)) as [E|E].
  - unfold round_half_even. rewrite <- E.
    set (f := Qfloor x) in *.
    destruct (Qltb (x - inject_Z f) 0.5) eqn:E1.
    + destruct (Qltb (y - inject_Z f) 0.5); [lia|].
      destruct (Qltb 0.5 (y - inject_Z f)); [lia|]. destruct (Z.even f); lia.
    + apply Qltb_ge in E1.
      assert (E2 : Qltb (y - inject_Z f) 0.5 = false) by (apply Qltb_ge; lra).
      rewrite E2.
      destruct (Qltb 0.5 (x - inject_Z f)) eqn:E3.
      * apply Qltb_lt in E3.
        assert (E4 : Qltb 0.5 (y - inject_Z f) = true) by (apply Qltb_lt; lra).
        rewrite E4. lia.
      * destruct (Qltb 0.5 (y - inject_Z f)); [destruct (Z.even f); lia | lia].
  - pose proof (round_half_even_floor x). pose proof (round_half_even_floor y). lia.
Qed.

Lemma round_half_even_Z (n : Z) : round_half_even (inject_Z n) = n.
Proof.
  unfold round_half_even. rewrite Qfloor_Z.
  assert (E : Qltb (inject_Z n - inject_Z n) 0.5 = true) by (apply Qltb_lt; lra).
  rewrite E. reflexivity.
Qed.

Lemma round_half_even_ge (n : Z) (x : Q) :
  (inject_Z n <= x)%Q -> n <= round_half_even x.
Proof.
  intros H. rewrite <- (round_half_even_Z n). apply round_half_even_mono, H.
Qed.

Lemma round_half_even_le (n : Z) (x : Q) :
  (x <= inject_Z n)%Q -> round_half_even x <= n.
Proof.
  intros H. rewrite <- (round_half_even_Z n). apply round_half_even_mono, H.
Qed.

(** ** Double precision: powers of two *)

Lemma pow2_pos (k : Z) : (0 < 2 ^ k)%Q.
Proof. apply Qpower_0_lt. reflexivity. Qed.

Lemma pow2_plus (a b : Z) : (2 ^ (a + b) == 2 ^ a * 2 ^ b)%Q.
Proof. apply Qpower_plus. discriminate. Qed.

Lemma pow2_le (a b : Z) : a <= b -> (2 ^ a <= 2 ^ b)%Q.
Proof. intros H. apply Qpower_le_compat_l; [exact H | discriminate]. Qed.

Lemma pow2_lt_inv (a b : Z) : (2 ^ a < 2 ^ b)%Q -> a < b.
Proof. intros H. apply (Qpower_lt_compat_l_inv 2); [exact H | reflexivity]. Qed.

Lemma pow2_inject (a : Z) : 0 <= a -> (inject_Z (2 ^ a) == 2 ^ a)%Q.
Proof. intros H. apply (Zpower_Qpower 2 a H). Qed.

(** ** Double precision: the binary exponent of a positive rational *)

Lemma ilog2_spec (x : Q) :
  (0 < x)%Q -> (2 ^ ilog2 x <= x < 2 ^ (ilog2 x + 1))%Q.
Proof.
  intros Hx. unfold ilog2.
  destruct x as [n d]. cbn [Qnum Qden].
  assert (Hn : 0 < n) by (unfold Qlt in Hx; cbn in Hx; lia).
  set (a := Z.log2 n). set (b := Z.log2 (Z.pos d)).
  destruct (Z.log2_spec n Hn) as [Ha1 Ha2]. fold a in Ha1, Ha2.
  destruct (Z.log2_spec (Z.pos d) eq_refl) as [Hb1 Hb2]. fold b in Hb1, Hb2.
  assert (Ha0 : 0 <= a) by apply Z.log2_nonneg.
  assert (Hb0 : 0 <= b) by apply Z.log2_nonneg.
  assert (Hx' : (n # d == inject_Z n / inject_Z (Z.pos d))%Q) by apply Qmake_Qdiv.
  assert (Hd : (0 < inject_Z (Z.pos d))%Q) by (unfold Qlt; cbn; lia).
  assert (Qa1 : (2 ^ a <= inject_Z n)%Q)
    by (rewrite <- (pow2_inject a Ha0), <- Zle_Qle; exact Ha1).
  assert (Qa2 : (inject_Z n < 2 ^ (a + 1))%Q)
    by (rewrite <- (pow2_inject (a + 1)) by lia; rewrite <- Zlt_Qlt;
        replace (a + 1) with (Z.succ a) by lia; exact Ha2).
  assert (Qb1 : (2 ^ b <= inject_Z (Z.pos d))%Q)
    by (rewrite <- (pow2_inject b Hb0), <- Zle_Qle; exact Hb1).
  assert (Qb2 : (inject_Z (Z.pos d) < 2 ^ (b + 1))%Q)
    by (rewrite <- (pow2_inject (b + 1)) by lia; rewrite <- Zlt_Qlt;
        replace (b + 1) with (Z.succ b) by lia; exact Hb2).
  assert (Hup : (n # d < 2 ^ (a - b + 1))%Q).
  { rewrite Hx'. apply Qlt_shift_div_r; [exact Hd|].
    assert (E : (2 ^ (a + 1) == 2 ^ (a - b + 1) * 2 ^ b)%Q)
      by (rewrite <- pow2_plus; replace (a - b + 1 + b) with (a + 1) by lia; reflexivity).
    pose proof (pow2_pos (a - b + 1)). pose proof (pow2_pos b).
    set (P := (2 ^ (a - b + 1))%Q) in *. set (B := (2 ^ b)%Q) in *.
    set (A := (2 ^ (a + 1))%Q) in *. nra. }
  assert (Hlow : (2 ^ (a - b - 1) < n # d)%Q).
  { rewrite Hx'. apply Qlt_shift_div_l; [exact Hd|].
    assert (E : (2 ^ a == 2 ^ (a - b - 1) * 2 ^ (b + 1))%Q)
      by (rewrite <- pow2_plus; replace (a - b - 1 + (b + 1)) with a by lia; reflexivity).
    pose proof (pow2_pos (a - b - 1)). pose proof (pow2_pos (b + 1)).
    set (P := (2 ^ (a - b - 1))%Q) in *. set (B := (2 ^ (b + 1))%Q) in *.
    set (A := (2 ^ a)%Q) in *. nra. }
  destruct (Qleb (2 ^ (a - b)) (n # d)) eqn:E.
  - apply Qleb_le in E. split; assumption.
  - assert (Hlt : (n # d < 2 ^ (a - b))%Q).
    { apply Qltb_lt. unfold Qltb, Qleb in *. rewrite E. reflexivity. }
    replace (a - b - 1 + 1) with (a - b) by lia. split; [lra | exact Hlt].
Qed.

Lemma ilog2_mono (x y : Q) : (0 < x)%Q -> (x <= y)%Q -> ilog2 x <= ilog2 y.
Proof.
  intros Hx Hxy.
  destruct (ilog2_spec x Hx) as [H1 _].
  destruct (ilog2_spec y) as [_ H2]; [lra|].
  assert (H : (2 ^ ilog2 x < 2 ^ (ilog2 y + 1))%Q) by lra.
  apply pow2_lt_inv in H. lia.
Qed.

Lemma ulp_exponent_mono (x y : Q) :
  (0 < x)%Q -> (x <= y)%Q -> ulp_exponent x <= ulp_exponent y.
Proof. intros Hx Hxy. unfold ulp_exponent. pose proof (ilog2_mono x y Hx Hxy). lia. Qed.

(** ** Double precision: rounding to a double *)

(** Rounding is monotone, so a bound on the exact value of an operand
    carries over to the double that the code holds. *)

Lemma scaled_below (x : Q) :
  (0 < x)%Q -> (x / 2 ^ ulp_exponent x < inject_Z (2 ^ 53))%Q.
Proof.
  intros Hx. destruct (ilog2_spec x Hx) as [_ H].
  apply Qlt_shift_div_r; [apply pow2_pos|].
  rewrite (pow2_inject 53) by lia. rewrite <- pow2_plus.
  eapply Qlt_le_trans; [exact H|]. apply pow2_le. unfold ulp_exponent. lia.
Qed.

Lemma scaled_above (x : Q) :
  (0 < x)%Q -> -1074 < ulp_exponent x ->
  (inject_Z (2 ^ 52) <= x / 2 ^ ulp_exponent x)%Q.
Proof.
  intros Hx He. destruct (ilog2_spec x Hx) as [H _].
  apply Qle_shift_div_l; [apply pow2_pos|].
  rewrite (pow2_inject 52) by lia. rewrite <- pow2_plus.
  eapply Qle_trans; [|exact H]. apply pow2_le. unfold ulp_exponent in *. lia.
Qed.

Lemma fl_magnitude_nonneg (x : Q) : (0 <= fl_magnitude x)%Q.
Proof.
  unfold fl_magnitude. destruct (Qleb x 0) eqn:E; [lra|].
  assert (Hx : (0 < x)%Q).
  { apply Qltb_lt. unfold Qltb, Qleb in *. rewrite E. reflexivity. }
  apply Qmult_le_0_compat; [|apply Qlt_le_weak, pow2_pos].
  change 0%Q with (inject_Z 0). rewrite <- Zle_Qle.
  apply round_half_even_ge. change (inject_Z 0) with 0%Q.
  apply Qle_shift_div_l; [apply pow2_pos | lra].
Qed.

Lemma fl_magnitude_mono (x y : Q) :
  (x <= y)%Q -> (fl_magnitude x <= fl_magnitude y)%Q.
Proof.
  intros Hxy. unfold fl_magnitude at 1. destruct (Qleb x 0) eqn:Ex.
  { apply fl_magnitude_nonneg. }
  assert (Hx : (0 < x)%Q).
  { apply Qltb_lt. unfold Qltb, Qleb in *. rewrite Ex. reflexivity. }
  assert (Hy : (0 < y)%Q) by lra.
  unfold fl_magnitude.
  assert (Ey : Qleb y 0 = false).
  { apply not_true_is_false. intros E. apply Qleb_le in E. lra. }
  rewrite Ey.
  pose proof (ulp_exponent_mono x y Hx Hxy) as He.
  set (ex := ulp_exponent x) in *. set (ey := ulp_exponent y) in *.
  destruct (Z.eq_dec ex ey) as [E|E].
  - rewrite <- E. apply Qmult_le_compat_r; [|apply Qlt_le_weak, pow2_pos].
    rewrite <- Zle_Qle. apply round_half_even_mono.
    apply Qmult_le_compat_r; [exact Hxy|].
    apply Qlt_le_weak, Qinv_lt_0_compat, pow2_pos.
  - assert (Hlt : ex < ey) by lia.
    assert (Hmx : round_half_even (x / 2 ^ ex) <= 2 ^ 53).
    { apply round_half_even_le, Qlt_le_weak, scaled_below, Hx. }
    assert (Hmy : 2 ^ 52 <= round_half_even (y / 2 ^ ey)).
    { apply round_half_even_ge, scaled_above; [exact Hy|].
      subst ex ey. unfold ulp_exponent in *. lia. }
    rewrite Zle_Qle in Hmx, Hmy.
    rewrite (pow2_inject 53) in Hmx by lia. rewrite (pow2_inject 52) in Hmy by lia.
    assert (Hp : (2 ^ 53 * 2 ^ ex <= 2 ^ 52 * 2 ^ ey)%Q).
    { rewrite <- !pow2_plus. apply pow2_le. lia. }
    pose proof (pow2_pos ex). pose proof (pow2_pos ey).
    set (mx := inject_Z (round_half_even (x / 2 ^ ex))) in *.
    set (my := inject_Z (round_half_even (y / 2 ^ ey))) in *.
    set (px := (2 ^ ex)%Q) in *. set (py := (2 ^ ey)%Q) in *.
    set (a := (2 ^ 53)%Q) in *. set (b := (2 ^ 52)%Q) in *.
    apply Qle_trans with (a * px)%Q; [|apply Qle_trans with (b * py)%Q].
    + apply Qmult_le_compat_r; [exact Hmx | lra].
    + exact Hp.
    + apply Qmult_le_compat_r; [exact Hmy | lra].
Qed.

Lemma fl_mono (x y : Q) : (x <= y)%Q -> (fl x <= fl y)%Q.
Proof.
  intros Hxy. unfold fl.
  destruct (Qltb x 0) eqn:Ex, (Qltb y 0) eqn:Ey.
  - apply Qopp_le_compat, fl_magnitude_mono. lra.
  - pose proof (fl_magnitude_nonneg (- x)). pose proof (fl_magnitude_nonneg y). lra.
  - apply Qltb_lt in Ey. apply Qltb_ge in Ex. lra.
  - apply fl_magnitude_mono, Hxy.
Qed.

Lemma fl_eq (x y : Q) : (x == y)%Q -> (fl x == fl y)%Q.
Proof. intros H. apply Qle_antisym; apply fl_mono; lra. Qed.

Lemma round_half_even_eq (x y : Q) : (x == y)%Q -> round_half_even x = round_half_even y.
Proof.
  intros H. apply Z.le_antisymm; apply round_half_even_mono; lra.
Qed.

Lemma ilog2_unique (x : Q) (k : Z) :
  (2 ^ k <= x < 2 ^ (k + 1))%Q -> ilog2 x = k.
Proof.
  intros [H1 H2].
  assert (Hx : (0 < x)%Q) by (pose proof (pow2_pos k); lra).
  destruct (ilog2_spec x Hx) as [H3 H4].
  assert (Ha : (2 ^ ilog2 x < 2 ^ (k + 1))%Q) by lra.
  assert (Hb : (2 ^ k < 2 ^ (ilog2 x + 1))%Q) by lra.
  apply pow2_lt_inv in Ha. apply pow2_lt_inv in Hb. lia.
Qed.

Lemma scaled_integer (m : Z) (e e' : Z) :
  e' <= e -> (inject_Z m * 2 ^ e / 2 ^ e' == inject_Z (m * 2 ^ (e - e')))%Q.
Proof.
  intros H. rewrite inject_Z_mult, (pow2_inject (e - e')) by lia.
  assert (E : (2 ^ e == 2 ^ (e - e') * 2 ^ e')%Q)
    by (rewrite <- pow2_plus; replace (e - e' + e') with e by lia; reflexivity).
  rewrite E. pose proof (pow2_pos e') as Hp. field. lra.
Qed.

Lemma fl_magnitude_of_integer (v : Q) (n : Z) :
  (0 < v)%Q -> (v / 2 ^ ulp_exponent v == inject_Z n)%Q ->
  (fl_magnitude v == v)%Q.
Proof.
  intros Hv Hn. unfold fl_magnitude.
  assert (E : Qleb v 0 = false).
  { apply not_true_is_false. intros E. apply Qleb_le in E. lra. }
  rewrite E. rewrite (round_half_even_eq _ _ Hn), round_half_even_Z, <- Hn.
  pose proof (pow2_pos (ulp_exponent v)) as Hp. field. lra.
Qed.

Lemma fl_magnitude_idempotent (x : Q) :
  (fl_magnitude (fl_magnitude x) == fl_magnitude x)%Q.
Proof.
  unfold fl_magnitude at 2 3. destruct (Qleb x 0) eqn:Ex; [reflexivity|].
  assert (Hx : (0 < x)%Q).
  { apply Qltb_lt. unfold Qltb, Qleb in *. rewrite Ex. reflexivity. }
  set (e := ulp_exponent x). set (m := round_half_even (x / 2 ^ e)).
  assert (He : -1074 <= e) by (subst e; unfold ulp_exponent; lia).
  assert (Hm0 : 0 <= m).
  { apply round_half_even_ge. change (inject_Z 0) with 0%Q.
    apply Qle_shift_div_l; [apply pow2_pos | lra]. }
  assert (Hm1 : m <= 2 ^ 53)
    by (apply round_half_even_le, Qlt_le_weak, scaled_below, Hx).
  pose proof (pow2_pos e) as Hpe.
  destruct (Z.eq_dec m 0) as [E0|E0].
  { rewrite E0. unfold fl_magnitude.
    assert (E : Qleb (inject_Z 0 * 2 ^ e) 0 = true).
    { apply Qleb_le. change (inject_Z 0) with 0%Q. lra. }
    rewrite E. change (inject_Z 0) with 0%Q. lra. }
  assert (Hm : (1 <= inject_Z m)%Q)
    by (change 1%Q with (inject_Z 1); rewrite <- Zle_Qle; lia).
  set (v := (inject_Z m * 2 ^ e)%Q).
  assert (Hv : (0 < v)%Q) by (subst v; nra).
  destruct (Z.eq_dec m (2 ^ 53)) as [E1|E1].
  - assert (Ev : (v == 2 ^ (e + 53))%Q).
    { subst v. rewrite E1, (pow2_inject 53), pow2_plus by lia. ring. }
    assert (Hl : ilog2 v = e + 53).
    { apply ilog2_unique. rewrite Ev. split; [apply Qle_refl|].
      rewrite (pow2_plus (e + 53) 1). pose proof (pow2_pos (e + 53)).
      change (2 ^ 1)%Q with 2%Q. lra. }
    apply (fl_magnitude_of_integer v (2 ^ 52) Hv).
    unfold ulp_exponent. rewrite Hl.
    replace (Z.max (e + 53 - 52) (-1074)) with (e + 1) by lia.
    rewrite Ev, (pow2_inject 52) by lia.
    assert (E : (2 ^ (e + 53) == 2 ^ 52 * 2 ^ (e + 1))%Q)
      by (rewrite <- pow2_plus; replace (52 + (e + 1)) with (e + 53) by lia; reflexivity).
    rewrite E. pose proof (pow2_pos (e + 1)). field. lra.
  - assert (Hlt : (v < 2 ^ (e + 53))%Q).
    { subst v. rewrite pow2_plus, <- (pow2_inject 53) by lia.
      assert (Hi : (inject_Z m < inject_Z (2 ^ 53))%Q) by (rewrite <- Zlt_Qlt; lia).
      rewrite (Qmult_comm (2 ^ e)). apply Qmult_lt_compat_r; assumption. }
    destruct (ilog2_spec v Hv) as [Hl _].
    assert (Hl' : (2 ^ ilog2 v < 2 ^ (e + 53))%Q) by lra.
    apply pow2_lt_inv in Hl'.
    assert (Hle : ulp_exponent v <= e) by (unfold ulp_exponent; lia).
    apply (fl_magnitude_of_integer v (m * 2 ^ (e - ulp_exponent v)) Hv).
    subst v. apply scaled_integer, Hle.
Qed.

Lemma fl_magnitude_zero (x : Q) : (x == 0)%Q -> fl_magnitude x = 0%Q.
Proof.
  intros H. unfold fl_magnitude.
  assert (E : Qleb x 0 = true) by (apply Qleb_le; lra).
  rewrite E. reflexivity.
Qed.

(** A double is left as it is: rounding twice is rounding once. *)
Lemma fl_idempotent (x : Q) : (fl (fl x) == fl x)%Q.
Proof.
  unfold fl at 2 3. destruct (Qltb x 0) eqn:Ex.
  - pose proof (fl_magnitude_nonneg (- x)) as H0.
    set (v := fl_magnitude (- x)) in *.
    destruct (Qeq_dec v 0) as [E|E].
    + unfold fl. assert (E' : Qltb (- v) 0 = false) by (apply Qltb_ge; lra).
      rewrite E'. rewrite fl_magnitude_zero by lra. lra.
    + unfold fl. assert (E' : Qltb (- v) 0 = true) by (apply Qltb_lt; lra).
      rewrite E'. apply Qopp_comp.
      assert (Ev : (- - v == v)%Q) by ring.
      transitivity (fl_magnitude v).
      * apply Qle_antisym; apply fl_magnitude_mono; lra.
      * subst v. apply fl_magnitude_idempotent.
  - pose proof (fl_magnitude_nonneg x) as H0.
    unfold fl. assert (E' : Qltb (fl_magnitude x) 0 = false) by (apply Qltb_ge; lra).
    rewrite E'. apply fl_magnitude_idempotent.
Qed.

Lemma fl_nonneg (x : Q) : (0 <= x)%Q -> (0 <= fl x)%Q.
Proof.
  intros H. unfold fl. destruct (Qltb x 0) eqn:E.
  - apply Qltb_lt in E. lra.
  - apply fl_magnitude_nonneg.
Qed.

(** ** Double precision: the operations are monotone *)

Lemma fadd_mono (a a' b b' : Q) :
  (a <= a')%Q -> (b <= b')%Q -> (fadd a b <= fadd a' b')%Q.
Proof.
  intros Ha Hb. unfold fadd. apply fl_mono.
  pose proof (fl_mono a a' Ha). pose proof (fl_mono b b' Hb). lra.
Qed.

Lemma fsub_mono (a a' b b' : Q) :
  (a <= a')%Q -> (b' <= b)%Q -> (fsub a b <= fsub a' b')%Q.
Proof.
  intros Ha Hb. unfold fsub. apply fl_mono.
  pose proof (fl_mono a a' Ha). pose proof (fl_mono b' b Hb). lra.
Qed.

Lemma fmul_mono (a a' b b' : Q) :
  (0 <= a)%Q -> (a <= a')%Q -> (0 <= b)%Q -> (b <= b')%Q ->
  (fmul a b <= fmul a' b')%Q.
Proof.
  intros Ha0 Ha Hb0 Hb. unfold fmul. apply fl_mono.
  pose proof (fl_mono a a' Ha). pose proof (fl_mono b b' Hb).
  pose proof (fl_nonneg a Ha0). pose proof (fl_nonneg b Hb0).
  set (x := fl a) in *. set (x' := fl a') in *.
  set (y := fl b) in *. set (y' := fl b') in *. nra.
Qed.

Lemma fdiv_mono_l (a a' b : Q) :
  (0 < fl b)%Q -> (a <= a')%Q -> (fdiv a b <= fdiv a' b)%Q.
Proof.
  intros Hb Ha. unfold fdiv. apply fl_mono.
  pose proof (fl_mono a a' Ha).
  apply Qmult_le_compat_r; [assumption|].
  apply Qlt_le_weak, Qinv_lt_0_compat, Hb.
Qed.

Lemma fsub_eq (a a' b b' : Q) :
  (a == a')%Q -> (b == b')%Q -> (fsub a b == fsub a' b')%Q.
Proof. intros Ha Hb. apply Qle_antisym; apply fsub_mono; lra. Qed.

(** The moving average that [update_baselines] stores, in doubles. *)
Lemma ema_rate_floor (b r : Q) :
  (0.9 <= b)%Q -> (0.9 <= r)%Q -> (0.9 <= fadd (fmul 0.9 b) (fmul 0.1 r))%Q.
Proof.
  intros Hb Hr.
  assert (HK : (0.9 <= fadd (fmul 0.9 0.9) (fmul 0.1 0.9))%Q)
    by (apply Qleb_le; vm_compute; reflexivity).
  eapply Qle_trans; [exact HK|].
  apply fadd_mono; apply fmul_mono; lra.
Qed.

Lemma ema_latency_floor (b m : Q) :
  (2 ^ (-1074) <= b)%Q -> (0 <= m)%Q ->
  (2 ^ (-1074) <= fadd (fmul 0.9 b) (fmul 0.1 m))%Q.
Proof.
  intros Hb Hm.
  assert (HK : (2 ^ (-1074) <= fadd (fmul 0.9 (2 ^ (-1074))) (fmul 0.1 0))%Q)
    by (apply Qleb_le; vm_compute; reflexivity).
  eapply Qle_trans; [exact HK|].
  pose proof (pow2_pos (-1074)).
  apply fadd_mono; apply fmul_mono; lra.
Qed.

(** ** Safety gate of the agent state *)

(** C3.  [can_take_action] refuses when the hourly cap of 50 is
    reached, when 10 rollbacks are reached, and, for a high or critical
    risk action, when 3 rollbacks are reached; the checks run in this order,
    so the reason is the high-risk one exactly when the first two checks
    pass. *)
Theorem C3_can_take_action_gates (state : AgentState) (action : Action) :
  (50 <= actions_taken_last_hour state -> fst (can_take_action state action) = false)
  /\ (10 <= rollbacks_last_hour state -> fst (can_take_action state action) = false)
  /\ (high_risk action -> 3 <= rollbacks_last_hour state ->
      fst (can_take_action state action) = false)
  /\ (high_risk action -> 3 <= rollbacks_last_hour state ->
      actions_taken_last_hour state < 50 -> rollbacks_last_hour state < 10 ->
      can_take_action state action
      = (false, "High-risk action blocked due to recent rollbacks"))
  /\ (high_risk action -> rollbacks_last_hour state = 3 ->
      fst (can_take_action state action) = false).
Proof.
  unfold can_take_action, high_risk.
  repeat split; intros;
    repeat match goal with
           | |- context [?a <=? ?b] => destruct (Z.leb_spec a b); simpl; try lia
           end;
    try reflexivity;
    match goal with
    | H : _ \/ _ |- _ => destruct H as [H | H]; rewrite H in *; simpl in *; congruence
    end.
Qed.

Lemma C3_witness :
  can_take_action (state_with_counters 0 3)
    (sample_action "a1" METHOD_SUPPRESS "upi" no_parameters HIGH)
  = (false, "High-risk action blocked due to recent rollbacks").
Proof.
  apply (proj1 (proj2 (proj2 (proj2
           (C3_can_take_action_gates (state_with_counters 0 3)
              (sample_action "a1" METHOD_SUPPRESS "upi" no_parameters HIGH)))))).
  - left. reflexivity.
  - simpl. lia.
  - simpl. lia.
  - simpl. lia.
Defined.

(** With the hourly cap reached, a high-risk action at three rollbacks is
    refused with the reason of the cap, not the high-risk one. *)
Lemma C3_counterexample :
  let state := state_with_counters 50 3 in
  let action := sample_action "a1" METHOD_SUPPRESS "upi" no_parameters HIGH in
  high_risk action /\ 3 <= rollbacks_last_hour state
  /\ can_take_action state action = (false, "Hourly action limit reached")
  /\ snd (can_take_action state action)
     <> "High-risk action blocked due to recent rollbacks".
Proof.
  simpl. repeat split.
  - left. reflexivity.
  - lia.
  - discriminate.
Qed.

(** C4.  The cap of five concurrent interventions is declared by
    [SafetyLimits] but is enforced on no path to execution: with five
    interventions active, the checks of the agent state and of the executor
    pass for a sixth action, [execute] runs it, and six interventions are
    active; [check_action_allowed], which holds the comparison with the
    cap, raises before reaching it. *)
Theorem C4_cap_of_five_not_enforced :
  let self := fst five_active in
  let state := snd five_active in
  let sixth := alert "6" in
  executor_reachable self
  /\ length (get_active_interventions self) = 5%nat
  /\ can_take_action state sixth = (true, "Action allowed")
  /\ _pre_execution_checks self sixth state = (true, "Checks passed")
  /\ ex_ok (execute 0 self sixth state (PaymentObserver_init 10)) = true
  /\ length (get_active_interventions
               (ex_self (execute 0 self sixth state (PaymentObserver_init 10)))) = 6%nat
  /\ Guardrails.check_action_allowed Guardrails.SafetyLimits_default sixth state
     = inl (Guardrails.AttributeError "AgentState" "active_actions").
Proof.
  split.
  - unfold five_active, execute_all. cbn [fold_left fst snd].
    do 5 apply executor_executed. apply executor_fresh.
  - repeat split; vm_compute; reflexivity.
Qed.

(** ** Circuit breaker: execution and rollback *)

(** C5.  For a circuit breaker with a non-empty issuer [i]:
    executing it succeeds and adds [i] to the set of active breakers, and
    rolling it back leaves the pre-execution set without [i]; this is the
    pre-execution set itself when [i] was not in it. *)
Theorem C5_breaker_execute_then_rollback
    (now : Z) (self : PaymentExecutor) (state : AgentState)
    (action : Action) (i : string) :
  action_type action = CIRCUIT_BREAKER ->
  p_issuer (parameters action) = Some i ->
  i <> EmptyString ->
  let executed := _execute_circuit_breaker action state in
  let rolled := snd (fst (_rollback_action now self action (snd executed))) in
  fst (fst executed) = true
  /\ active_circuit_breakers (snd executed) = {[i]} ∪ active_circuit_breakers state
  /\ active_circuit_breakers rolled = active_circuit_breakers state ∖ {[i]}
  /\ (i ∉ active_circuit_breakers state ->
      active_circuit_breakers rolled = active_circuit_breakers state).
Proof.
  intros Hty Hi Hne executed rolled. subst rolled executed.
  unfold _execute_circuit_breaker, _rollback_action, reverse_write.
  rewrite Hty, Hi. unfold truthy.
  destruct (String.eqb_spec i EmptyString) as [->|_]; [congruence|]. cbn.
  split; [reflexivity|]. split; [reflexivity|]. split.
  - apply set_eq. intros x.
    rewrite !elem_of_difference, elem_of_union, elem_of_singleton. tauto.
  - intros Hn. apply set_eq. intros x.
    rewrite elem_of_difference, elem_of_union, elem_of_singleton.
    split; [tauto|]. intros Hx. split; [tauto|]. intros ->. contradiction.
Qed.

Lemma C5_witness :
  let action := sample_action "cb1" CIRCUIT_BREAKER "HDFC" (breaker_parameters "HDFC") MEDIUM in
  let state1 := snd (_execute_circuit_breaker action AgentState_init) in
  active_circuit_breakers
    (snd (fst (_rollback_action 0 PaymentExecutor_init action state1)))
  = active_circuit_breakers AgentState_init.
Proof.
  intros action state1.
  refine (proj2 (proj2 (proj2
            (C5_breaker_execute_then_rollback 0 PaymentExecutor_init AgentState_init
               action "HDFC" _ _ _))) _).
  - reflexivity.
  - reflexivity.
  - discriminate.
  - cbn. apply not_elem_of_empty.
Defined.

(** When the issuer already has an active breaker, executing a second
    breaker for it and rolling that one back removes the issuer: the set
    is not the pre-execution set. *)
Lemma C5_counterexample :
  let action := sample_action "cb2" CIRCUIT_BREAKER "HDFC-2" (breaker_parameters "HDFC") MEDIUM in
  let state :=
    with_controls AgentState_init {["HDFC"]} ∅ [] [] in
  let r := _execute_circuit_breaker action state in
  fst (fst r) = true
  /\ active_circuit_breakers
       (snd (fst (_rollback_action 0 PaymentExecutor_init action (snd r))))
     <> active_circuit_breakers state.
Proof.
  cbn. split; [reflexivity|].
  intros Heq.
  assert (H : "HDFC" ∈ ({["HDFC"]} : gset string)) by (apply elem_of_singleton; reflexivity).
  rewrite <- Heq in H.
  apply elem_of_difference in H. destruct H as [_ H].
  apply H, elem_of_singleton. reflexivity.
Qed.

(** ** Dictionaries *)

Section DictFacts.
Context {V : Type}.
Implicit Types (d : dict V) (k : string) (v : V).

Lemma dget_dset d k v k' :
  dget (dset d k v) k' = if String.eqb k k' then Some v else dget d k'.
Proof.
  induction d as [|[k0 v0] d IH]; simpl.
  - rewrite (String.eqb_sym k' k). reflexivity.
  - destruct (String.eqb_spec k k0) as [->|Hne]; simpl.
    + rewrite (String.eqb_sym k' k0).
      destruct (String.eqb k0 k'); reflexivity.
    + rewrite IH.
      destruct (String.eqb_spec k k') as [->|Hne'].
      * destruct (String.eqb_spec k' k0); [congruence | reflexivity].
      * reflexivity.
Qed.

Lemma dget_or_dupd dflt (f : V -> V) d k k' :
  dget_or dflt (dupd dflt f d k) k'
  = if String.eqb k k' then f (dget_or dflt d k') else dget_or dflt d k'.
Proof.
  unfold dupd, dget_or at 1. rewrite dget_dset.
  destruct (String.eqb_spec k k') as [->|]; reflexivity.
Qed.

Lemma dget_ddel d k k' :
  dget (ddel d k) k' = if String.eqb k k' then None else dget d k'.
Proof.
  induction d as [|[k0 v0] d IH]; simpl.
  - destruct (String.eqb k k'); reflexivity.
  - destruct (String.eqb_spec k k0) as [->|Hne]; simpl.
    + rewrite IH. rewrite (String.eqb_sym k' k0).
      destruct (String.eqb k0 k'); reflexivity.
    + rewrite IH.
      destruct (String.eqb_spec k k') as [->|Hne'].
      * destruct (String.eqb_spec k' k0); [congruence | reflexivity].
      * reflexivity.
Qed.


Lemma dget_In d k v : dget d k = Some v -> In (k, v) d.
Proof.
  induction d as [|[k0 v0] d IH]; simpl; [discriminate|].
  destruct (String.eqb_spec k k0) as [->|Hne].
  - intros [= ->]. left. reflexivity.
  - intros H. right. apply IH, H.
Qed.

Lemma dget_None_keys d k : dget d k = None <-> ~ In k (dkeys d).
Proof.
  induction d as [|[k0 v0] d IH]; simpl.
  - split; [intros _ [] | reflexivity].
  - destruct (String.eqb_spec k k0) as [->|Hne].
    + split; [discriminate | intros H; exfalso; apply H; left; reflexivity].
    + rewrite IH. split.
      * intros H [Heq|Hin]; [congruence | contradiction].
      * intros H Hin. apply H. right. exact Hin.
Qed.

Lemma In_dget d k v : NoDup (dkeys d) -> In (k, v) d -> dget d k = Some v.
Proof.
  induction d as [|[k0 v0] d IH]; simpl; [intros _ []|].
  intros Hnd [Heq|Hin].
  - injection Heq as -> ->. rewrite String.eqb_refl. reflexivity.
  - inversion Hnd as [|? ? Hnotin Hnd']; subst.
    destruct (String.eqb_spec k k0) as [->|Hne].
    + exfalso. apply Hnotin, list_elem_of_In. apply (in_map fst) in Hin. exact Hin.
    + apply IH; assumption.
Qed.

Lemma dset_fresh d k v : dget d k = None -> dset d k v = d ++ [(k, v)].
Proof.
  induction d as [|[k0 v0] d IH]; simpl; [reflexivity|].
  destruct (String.eqb k k0); [discriminate|].
  intros H. rewrite (IH H). reflexivity.
Qed.

Lemma dset_present d k v :
  dget d k <> None -> dkeys (dset d k v) = dkeys d.
Proof.
  induction d as [|[k0 v0] d IH]; simpl; [congruence|].
  destruct (String.eqb k k0); simpl; [reflexivity|].
  intros H. rewrite (IH H). reflexivity.
Qed.

Lemma dset_keys_NoDup d k v : NoDup (dkeys d) -> NoDup (dkeys (dset d k v)).
Proof.
  intros Hnd. destruct (dget d k) eqn:E.
  - rewrite dset_present; [exact Hnd | congruence].
  - rewrite (dset_fresh _ _ _ E). unfold dkeys. rewrite List.map_app. simpl.
    apply dget_None_keys in E.
    apply NoDup_app. split; [exact Hnd|]. split.
    + intros x Hx Hin. apply list_elem_of_In in Hx.
      apply list_elem_of_In in Hin. simpl in Hin.
      destruct Hin as [<-|[]]. apply E, Hx.
    + apply NoDup_cons_2; [apply not_elem_of_nil | apply NoDup_nil_2].
Qed.

Lemma dupd_keys_NoDup dflt (f : V -> V) d k :
  NoDup (dkeys d) -> NoDup (dkeys (dupd dflt f d k)).
Proof. apply dset_keys_NoDup. Qed.

Lemma In_dset d k v x : In x (dset d k v) -> x = (k, v) \/ In x d.
Proof.
  induction d as [|[k0 v0] d IH]; simpl.
  - intros [<-|[]]. left. reflexivity.
  - destruct (String.eqb_spec k k0) as [->|Hne]; simpl.
    + intros [<-|Hin]; [left; reflexivity | right; right; exact Hin].
    + intros [<-|Hin]; [right; left; reflexivity|].
      destruct (IH Hin) as [->|Hin']; [left; reflexivity | right; right; exact Hin'].
Qed.

Lemma ddel_filter d k :
  ddel d k = List.filter (fun kv => negb (String.eqb k (fst kv))) d.
Proof.
  induction d as [|[k0 v0] d IH]; simpl; [reflexivity|].
  destruct (String.eqb k k0); simpl; rewrite IH; reflexivity.
Qed.

Lemma In_ddel d k x : In x (ddel d k) <-> In x d /\ fst x <> k.
Proof.
  rewrite ddel_filter, filter_In, negb_true_iff.
  destruct (String.eqb_spec k (fst x)); split; intros [H1 H2];
    split; congruence.
Qed.

(** Writing under a present key replaces the first entry of that key. *)
Lemma dset_split d k v :
  dget d k <> None ->
  exists l1 v0 l2,
    d = l1 ++ (k, v0) :: l2 /\ dset d k v = l1 ++ (k, v) :: l2.
Proof.
  induction d as [|[k0 v0] d IH]; simpl; [congruence|].
  destruct (String.eqb_spec k k0) as [->|Hne].
  - intros _. exists [], v0, d. split; reflexivity.
  - intros H. destruct (IH H) as (l1 & w & l2 & -> & ->).
    exists ((k0, v0) :: l1), w, l2. split; reflexivity.
Qed.
End DictFacts.

(** ** Window and counters *)

Lemma Counter_eq (a b : Counter) :
  success a = success b -> failed a = failed b -> total a = total b -> a = b.
Proof. destruct a, b; simpl; intros; subst; reflexivity. Qed.

Lemma Counter_proj (a b : Counter) :
  a = b -> success a = success b /\ failed a = failed b /\ total a = total b.
Proof. intros ->. repeat split. Qed.

Lemma tally_nil dimension key : tally dimension key [] = Counter_zero.
Proof. reflexivity. Qed.

Lemma tally_app dimension key (a b : list PaymentTransaction) :
  tally dimension key (a ++ b) = cplus (tally dimension key a) (tally dimension key b).
Proof.
  unfold tally, cplus; simpl.
  rewrite !List.filter_app, !List.length_app, !Nat2Z.inj_add. reflexivity.
Qed.

Lemma tally_one dimension key t :
  tally dimension key [t]
  = if counted dimension key t then counter_add (status_key t) 1 Counter_zero
    else Counter_zero.
Proof.
  unfold tally; simpl.
  destruct (counted dimension key t), (status_key t); reflexivity.
Qed.

Lemma tally_sound dimension key (l : list PaymentTransaction) :
  total (tally dimension key l)
  = success (tally dimension key l) + failed (tally dimension key l)
  /\ 0 <= success (tally dimension key l)
  /\ 0 <= failed (tally dimension key l)
  /\ 0 <= total (tally dimension key l).
Proof.
  split; [|simpl; lia].
  induction l as [|t l IH]; [reflexivity|].
  change (t :: l) with ([t] ++ l). rewrite tally_app, tally_one.
  destruct (counted dimension key t), (status_key t); simpl in *; lia.
Qed.

Lemma reads_update t s dimension key :
  reads (_update_stats t s) dimension key
  = cplus (reads s dimension key) (tally dimension key [t]).
Proof.
  rewrite tally_one. unfold reads, counted.
  destruct dimension;
    cbn [stats_dim _update_stats overall by_issuer by_method by_region by_merchant dim_key];
    rewrite dget_or_dupd; destruct (String.eqb _ key);
    destruct (status_key t); apply Counter_eq;
    cbn [cplus counter_add success failed total Counter_zero]; lia.
Qed.

Lemma reads_remove t s dimension key :
  cplus (reads (_remove_from_stats t s) dimension key) (tally dimension key [t])
  = reads s dimension key.
Proof.
  rewrite tally_one. unfold reads, counted.
  destruct dimension;
    cbn [stats_dim _remove_from_stats overall by_issuer by_method by_region by_merchant dim_key];
    rewrite dget_or_dupd; destruct (String.eqb _ key);
    destruct (status_key t); apply Counter_eq;
    cbn [cplus counter_add success failed total Counter_zero]; lia.
Qed.

Lemma update_stats_wf t s : stats_wf s -> stats_wf (_update_stats t s).
Proof.
  intros H dimension. specialize (H dimension).
  destruct dimension; simpl in *; apply dupd_keys_NoDup; exact H.
Qed.

Lemma remove_from_stats_wf t s : stats_wf s -> stats_wf (_remove_from_stats t s).
Proof.
  intros H dimension. specialize (H dimension).
  destruct dimension; simpl in *; apply dupd_keys_NoDup; exact H.
Qed.

(** The eviction loop splits the window into the evicted prefix and the
    rest, and takes exactly the evicted prefix out of the counters. *)
Lemma cleanup_loop_spec cutoff window s :
  exists evicted,
    window = evicted ++ fst (cleanup_loop cutoff window s)
    /\ (forall dimension key,
          cplus (reads (snd (cleanup_loop cutoff window s)) dimension key)
                (tally dimension key evicted)
          = reads s dimension key)
    /\ (stats_wf s -> stats_wf (snd (cleanup_loop cutoff window s)))
    /\ Forall (fun t => timestamp t < cutoff) evicted.
Proof.
  revert s. induction window as [|t rest IH]; intros s; simpl.
  - exists []. repeat split; auto.
    intros. apply Counter_eq; simpl; lia.
  - destruct (Z.ltb_spec (timestamp t) cutoff) as [Hlt|Hge].
    + destruct (IH (_remove_from_stats t s)) as (ev & Hw & Hr & Hwf & Hall).
      exists (t :: ev). repeat split.
      * simpl. f_equal. exact Hw.
      * intros dimension key.
        change (t :: ev) with ([t] ++ ev). rewrite tally_app.
        specialize (Hr dimension key).
        pose proof (reads_remove t s dimension key) as Hrm.
        apply Counter_proj in Hr. apply Counter_proj in Hrm.
        apply Counter_eq; simpl in *; lia.
      * intros H. apply Hwf, remove_from_stats_wf, H.
      * constructor; assumption.
    + exists []. repeat split; auto.
      intros. apply Counter_eq; simpl; lia.
Qed.

Lemma cleanup_inv now self :
  observer_inv self -> observer_inv (_cleanup_old_transactions now self).
Proof.
  intros [Hag Hwf]. unfold _cleanup_old_transactions.
  destruct (cleanup_loop_spec (now - window_size self)
              (transactions_window self) (stats self)) as (ev & Hw & Hr & Hwf' & _).
  destruct (cleanup_loop _ _ _) as [w' s'] eqn:E. simpl in *.
  split; simpl; [|apply Hwf', Hwf].
  intros dimension key.
  specialize (Hr dimension key). specialize (Hag dimension key).
  rewrite Hw, tally_app in Hag. rewrite Hag in Hr.
  apply Counter_proj in Hr. apply Counter_eq; simpl in *; lia.
Qed.

Lemma ingest_inv now t self :
  observer_inv self -> observer_inv (ingest_transaction now t self).
Proof.
  intros [Hag Hwf]. unfold ingest_transaction, _cleanup_old_transactions.
  cbn [transactions_window stats window_size with_window_stats].
  destruct (cleanup_loop_spec (now - window_size self)
              (transactions_window self ++ [t]) (stats self))
    as (ev & Hw & Hr & Hwf' & _).
  destruct (cleanup_loop _ _ _) as [w' s'] eqn:E.
  destruct (track_errors _ _ _) as [codes messages].
  cbn [transactions_window stats with_window_stats fst snd] in *.
  split; cbn [transactions_window stats]; [|apply update_stats_wf, Hwf', Hwf].
  intros dimension key. rewrite reads_update.
  specialize (Hr dimension key). specialize (Hag dimension key).
  pose proof (tally_app dimension key (transactions_window self) [t]) as Happ.
  rewrite Hw, tally_app in Happ. rewrite Hag in Hr.
  apply Counter_proj in Hr. apply Counter_proj in Happ.
  apply Counter_eq; simpl in *; lia.
Qed.

Lemma init_inv window_size_minutes :
  observer_inv (PaymentObserver_init window_size_minutes).
Proof.
  split.
  - intros dimension key. destruct dimension; reflexivity.
  - intros dimension. destruct dimension; apply NoDup_nil_2.
Qed.

Lemma observer_run_inv ops self :
  observer_inv self -> observer_inv (observer_run ops self).
Proof.
  revert self. induction ops as [|op ops IH]; intros self H; [exact H|].
  simpl. apply IH. destruct op; simpl.
  - apply ingest_inv, H.
  - apply cleanup_inv, H.
Qed.

(** C1.  After any sequence of ingestions and evictions on a fresh
    observer, every entry of every table of counters has
    [total = success + failed], and its three counters are not negative. *)
Theorem C1_counters_consistent
    (window_size_minutes : Z) (ops : list ObserverOp)
    (dimension : Dimension) (key : string) (c : Counter) :
  dget (stats_dim (stats (observer_run ops (PaymentObserver_init window_size_minutes)))
          dimension) key = Some c ->
  total c = success c + failed c
  /\ 0 <= success c /\ 0 <= failed c /\ 0 <= total c.
Proof.
  intros Hget.
  destruct (observer_run_inv ops _ (init_inv window_size_minutes)) as [Hag _].
  specialize (Hag dimension key). unfold reads, dget_or in Hag.
  rewrite Hget in Hag. subst c. apply tally_sound.
Qed.

Lemma C1_witness :
  let c := {| success := 0; failed := 1; total := 1 |} in
  total c = success c + failed c
  /\ 0 <= success c /\ 0 <= failed c /\ 0 <= total c.
Proof.
  intros c.
  apply (C1_counters_consistent 10 [OpIngest 0 slow_failure] D_by_issuer "HDFC" c).
  reflexivity.
Defined.

(** ** What eviction leaves alone *)

(** C10.  Eviction rewrites the window and the counters only: the error
    counts, the retry statistics, the latency rings and the memory are
    returned as they were.  So the error list, the retry efficiency and the
    latency statistics can describe transactions that have left the window:
    in [emptied_observer] the window is empty and the three still report the
    evicted failure. *)
Theorem C10_eviction_frame :
  (forall now self,
      let self' := _cleanup_old_transactions now self in
      error_codes self' = error_codes self
      /\ error_messages self' = error_messages self
      /\ retry_stats self' = retry_stats self
      /\ latencies self' = latencies self
      /\ recent_transactions self' = recent_transactions self
      /\ window_size self' = window_size self)
  /\ (forall now now' t self,
         let a := ingest_transaction now t self in
         let b := ingest_transaction now' t self in
         error_codes a = error_codes b
         /\ error_messages a = error_messages b
         /\ retry_stats a = retry_stats b
         /\ latencies a = latencies b)
  /\ (transactions_window emptied_observer = []
      /\ get_transaction_volume emptied_observer D_overall "current" = 0
      /\ get_top_errors emptied_observer 5 = [("E1", 1)]
      /\ (get_retry_efficiency emptied_observer == 0)%Q
      /\ (p50 (overall_latency_stats emptied_observer) == 1000)%Q
      /\ (mean (overall_latency_stats emptied_observer) == 1000)%Q).
Proof.
  split; [|split].
  - intros now self. unfold _cleanup_old_transactions.
    destruct (cleanup_loop _ _ _) as [w s]. simpl. repeat split.
  - intros now now' t self. unfold ingest_transaction.
    destruct (track_errors _ _ _) as [codes messages]. simpl. repeat split.
  - repeat split; vm_compute; reflexivity.
Qed.

(** ** Health tables *)

Lemma dget_app {V : Type} (a b : dict V) k :
  dget (a ++ b) k = match dget a k with Some v => Some v | None => dget b k end.
Proof.
  induction a as [|[k0 v0] a IH]; simpl; [reflexivity|].
  destruct (String.eqb k k0); [reflexivity | exact IH].
Qed.

Lemma health_loop_zero rings entries acc :
  Forall (fun kc => total (snd kc) = 0) entries ->
  health_loop rings entries acc = acc.
Proof.
  revert acc. induction entries as [|[k c] rest IH]; intros acc H; [reflexivity|].
  inversion H as [|? ? Hc Hrest]; subst. simpl in *.
  rewrite Hc. simpl. apply IH, Hrest.
Qed.

Lemma health_loop_spec rings entries acc :
  NoDup (dkeys entries) ->
  (forall k, In k (dkeys entries) -> dget acc k = None) ->
  health_loop rings entries acc = acc ++ health_entries rings entries.
Proof.
  revert acc. induction entries as [|[k c] rest IH]; intros acc Hnd Hfresh.
  - simpl. rewrite List.app_nil_r. reflexivity.
  - simpl in Hnd. inversion Hnd as [|? ? Hk Hnd']; subst.
    cbn [health_loop health_entries flat_map fst snd].
    destruct (total c =? 0) eqn:E.
    + simpl. apply IH; [exact Hnd'|].
      intros k' Hk'. apply Hfresh. right. exact Hk'.
    + rewrite dset_fresh by (apply Hfresh; left; reflexivity).
      rewrite IH; [|exact Hnd'|].
      * rewrite <- List.app_assoc. reflexivity.
      * intros k' Hk'. rewrite dget_app, (Hfresh k') by (right; exact Hk').
        simpl. destruct (String.eqb_spec k' k) as [->|]; [|reflexivity].
        exfalso. apply Hk, list_elem_of_In, Hk'.
Qed.

Lemma In_health_entries rings entries k h :
  In (k, h) (health_entries rings entries)
  <-> exists c, In (k, c) entries /\ total c <> 0 /\ h = health_record rings k c.
Proof.
  unfold health_entries. rewrite in_flat_map. split.
  - intros ([k0 c] & Hin & Hx). simpl in Hx.
    destruct (Z.eqb_spec (total c) 0); [destruct Hx|].
    destruct Hx as [[= <- <-]|[]]. exists c. auto.
  - intros (c & Hin & Hne & ->). exists (k, c). split; [exact Hin|].
    simpl. destruct (Z.eqb_spec (total c) 0); [contradiction|]. left. reflexivity.
Qed.

Lemma flat_map_nil {A B : Type} (f : A -> list B) (l : list A) :
  (forall x, In x l -> f x = []) -> flat_map f l = [].
Proof.
  induction l as [|x l IH]; intros H; [reflexivity|].
  simpl. rewrite (H x) by (left; reflexivity). apply IH.
  intros y Hy. apply H. right. exact Hy.
Qed.

Lemma In_insert_desc {A : Type} (le : A -> A -> bool) (x y : A) (l : list A) :
  In y (insert_desc le x l) <-> y = x \/ In y l.
Proof.
  induction l as [|z l IH]; simpl.
  - split; [intros [<-|[]]; auto | intros [->|[]]; auto].
  - destruct (le z x); simpl.
    + split; [intros [<-|H]; auto | intros [->|H]; auto].
    + rewrite IH. split.
      * intros [<-|[->|H]]; auto.
      * intros [->|[<-|H]]; auto.
Qed.

Lemma In_sort_desc {A : Type} (le : A -> A -> bool) (y : A) (l : list A) :
  In y (sort_desc le l) <-> In y l.
Proof.
  induction l as [|x l IH]; simpl; [reflexivity|].
  rewrite In_insert_desc, IH. split; intros [H|H]; auto.
Qed.

Lemma In_firstn {A : Type} (n : nat) (l : list A) (x : A) :
  In x (firstn n l) -> In x l.
Proof.
  revert l. induction n as [|n IH]; intros [|y l]; simpl; try tauto.
  intros [H|H]; [left; exact H | right; apply IH, H].
Qed.

(** ** Reasoner state *)

(** The latency baseline never falls below the smallest positive double. *)
Lemma reasoner_reachable_latency self :
  reasoner_reachable self -> (2 ^ (-1074) <= avg_latency (baselines self))%Q.
Proof.
  induction 1 as [|self observer _ IH].
  - apply Qleb_le. vm_compute. reflexivity.
  - cbn [update_baselines baselines avg_latency].
    destruct (Qgtb (mean (overall_latency_stats observer)) 0) eqn:E; [|exact IH].
    apply Qgtb_gt in E. apply ema_latency_floor; [exact IH | lra].
Qed.

Lemma reasoner_reachable_inv self :
  reasoner_reachable self ->
  thresholds self = thresholds PaymentReasoner_init
  /\ (0 < avg_latency (baselines self))%Q.
Proof.
  intros Hreach. split.
  - induction Hreach as [|self observer _ IH]; [reflexivity | exact IH].
  - pose proof (reasoner_reachable_latency self Hreach).
    pose proof (pow2_pos (-1074)). lra.
Qed.

(** ** Observers whose window is empty *)

Lemma empty_window_entries self dimension kc :
  observer_inv self -> transactions_window self = [] ->
  In kc (stats_dim (stats self) dimension) -> snd kc = Counter_zero.
Proof.
  intros [Hag Hwf] Hw Hin. destruct kc as [k c]. simpl.
  apply (In_dget _ _ _ (Hwf dimension)) in Hin.
  specialize (Hag dimension k). unfold reads, dget_or in Hag.
  rewrite Hin, Hw in Hag. exact Hag.
Qed.

Lemma empty_window_reads self dimension key :
  observer_inv self -> transactions_window self = [] ->
  dget_or Counter_zero (stats_dim (stats self) dimension) key = Counter_zero.
Proof.
  intros [Hag _] Hw. specialize (Hag dimension key).
  unfold reads in Hag. rewrite Hw in Hag. exact Hag.
Qed.

Lemma empty_window_health rings self dimension :
  observer_inv self -> transactions_window self = [] ->
  health_loop rings (stats_dim (stats self) dimension) [] = [].
Proof.
  intros Hinv Hw. apply health_loop_zero, List.Forall_forall.
  intros kc Hin. rewrite (empty_window_entries self dimension kc Hinv Hw Hin).
  reflexivity.
Qed.

(** C8.  With no transaction in the window every success rate
    is 1.0.  The latency statistics are all zero when the ring they are
    computed from holds no sample, and [analyze] emits no pattern when, in
    addition, no error code has been counted ten times: the rings and the
    error counts are not part of the window. *)
Theorem C8_empty_window
    (window_size_minutes : Z) (ops : list ObserverOp) (r : PaymentReasoner) :
  let obs := observer_run ops (PaymentObserver_init window_size_minutes) in
  reasoner_reachable r ->
  transactions_window obs = [] ->
  (forall dimension key, get_success_rate obs dimension key = 1%Q)
  /\ (forall dimension key,
         latency_samples obs dimension key = Some [] ->
         get_latency_stats obs dimension key = Some zero_latency_stats)
  /\ (ring_overall (latencies obs) = [] ->
      overall_latency_stats obs = zero_latency_stats)
  /\ (ring_overall (latencies obs) = [] ->
      (forall code n, In (code, n) (error_codes obs) -> n < 10) ->
      analyze r obs = []).
Proof.
  intros obs Hr Hw.
  pose proof (observer_run_inv ops _ (init_inv window_size_minutes)) as Hinv.
  fold obs in Hinv.
  destruct (reasoner_reachable_inv r Hr) as [Hthr Havg].
  assert (Hvol : forall dimension key,
             dget_or Counter_zero (stats_dim (stats obs) dimension) key = Counter_zero)
    by (intros; apply empty_window_reads; assumption).
  split; [|split; [|split]].
  - intros dimension key. unfold get_success_rate. rewrite Hvol. reflexivity.
  - intros dimension key Hs. unfold get_latency_stats. rewrite Hs. reflexivity.
  - intros Hring. unfold overall_latency_stats. rewrite Hring. reflexivity.
  - intros Hring Herr. unfold analyze.
    assert (H1 : _detect_issuer_degradation r obs = []).
    { unfold _detect_issuer_degradation, get_issuer_health.
      rewrite (empty_window_health _ obs D_by_issuer Hinv Hw). reflexivity. }
    assert (H2 : _detect_retry_storms r obs = []).
    { unfold _detect_retry_storms, get_transaction_volume.
      rewrite Hvol. reflexivity. }
    assert (H3 : _detect_method_fatigue r obs = []).
    { unfold _detect_method_fatigue, get_method_performance.
      rewrite (empty_window_health _ obs D_by_method Hinv Hw). reflexivity. }
    assert (H4 : _detect_latency_spikes r obs = []).
    { unfold _detect_latency_spikes, overall_latency_stats.
      rewrite Hring, Hthr. cbn [latency_stats_of p95 thresholds PaymentReasoner_init latency_spike].
      replace (Qgtb 0 (avg_latency (baselines r) * 1.5)) with false; [reflexivity|].
      symmetry. apply Qgtb_false. lra. }
    assert (H5 : _detect_error_clusters r obs = []).
    { unfold _detect_error_clusters. apply flat_map_nil.
      intros [code n] Hin. unfold get_top_errors in Hin.
      apply In_firstn, In_sort_desc in Hin. apply Herr in Hin.
      unfold error_pattern. rewrite Hthr. cbn [fst snd thresholds PaymentReasoner_init error_cluster].
      destruct (Z.leb_spec 10 n); [lia | reflexivity]. }
    assert (H6 : _detect_geographic_issues obs = []).
    { unfold _detect_geographic_issues. apply flat_map_nil.
      intros kc Hin. unfold region_pattern.
      rewrite (empty_window_entries obs D_by_region kc Hinv Hw Hin). reflexivity. }
    rewrite H1, H2, H3, H4, H5, H6. reflexivity.
Qed.

Lemma C8_witness :
  get_success_rate quiet_observer D_overall "current" = 1%Q
  /\ overall_latency_stats quiet_observer = zero_latency_stats
  /\ analyze PaymentReasoner_init quiet_observer = [].
Proof.
  destruct (C8_empty_window 10 [OpIngest (minutes 20) late_arrival]
              PaymentReasoner_init reasoner_fresh eq_refl) as (H1 & _ & H3 & H4).
  split; [apply H1|]. split; [apply H3; reflexivity|].
  apply H4; [reflexivity|]. intros code n [].
Defined.

(** In [emptied_observer] the window is empty, yet the latency ring still
    holds the sample of the evicted failure: the statistics are not zero
    and [analyze] reports a latency spike. *)
Lemma C8_counterexample :
  transactions_window emptied_observer = []
  /\ ~ (p50 (overall_latency_stats emptied_observer) == 0)%Q
  /\ ~ (p95 (overall_latency_stats emptied_observer) == 0)%Q
  /\ List.map pattern_type (analyze PaymentReasoner_init emptied_observer)
     = ["latency_spike"].
Proof.
  split; [reflexivity|]. split; [|split].
  - intros H. vm_compute in H. discriminate H.
  - intros H. vm_compute in H. discriminate H.
  - vm_compute. reflexivity.
Qed.

(** ** Issuer degradation detector *)

Lemma detect_issuer_In r obs p :
  NoDup (dkeys (by_issuer (stats obs))) ->
  In p (_detect_issuer_degradation r obs)
  <-> exists k c,
        In (k, c) (by_issuer (stats obs)) /\ total c <> 0
        /\ In p (issuer_pattern r k (health_record (ring_by_issuer (latencies obs)) k c)).
Proof.
  intros Hnd. unfold _detect_issuer_degradation, get_issuer_health.
  rewrite health_loop_spec by (auto; reflexivity).
  cbn [app]. rewrite in_flat_map. split.
  - intros ([k h] & Hin & Hp). apply In_health_entries in Hin.
    destruct Hin as (c & Hin & Hne & ->). exists k, c. auto.
  - intros (k & c & Hin & Hne & Hp).
    exists (k, health_record (ring_by_issuer (latencies obs)) k c).
    split; [|exact Hp]. apply In_health_entries. exists c. auto.
Qed.

Lemma issuer_pattern_In r k h p :
  thresholds r = thresholds PaymentReasoner_init ->
  In p (issuer_pattern r k h)
  <-> (10 <= h_volume h
       /\ (fl 0.15 <= fsub (dget_or default_rate (issuer_success_rates (baselines r)) k)
                            (h_success_rate h))%Q)
      /\ p = issuer_pattern_of r k h.
Proof.
  intros Hthr. unfold issuer_pattern. rewrite Hthr.
  cbn [thresholds PaymentReasoner_init issuer_degradation].
  destruct (Z.leb_spec 10 (h_volume h)) as [Hv|Hv]; cbn [andb].
  - destruct (Qgeb _ (fl 0.15)) eqn:E.
    + apply Qgeb_ge in E. split.
      * intros [<-|[]]. split; [split; assumption | reflexivity].
      * intros [_ ->]. left. reflexivity.
    + split; [intros [] | intros [[_ Hd] _]].
      apply Qgeb_ge in Hd. congruence.
  - split; [intros [] | intros [[Hv' _] _]; lia].
Qed.

Lemma health_record_view obs i c :
  dget (by_issuer (stats obs)) i = Some c -> total c <> 0 ->
  h_success_rate (health_record (ring_by_issuer (latencies obs)) i c)
  = get_success_rate obs D_by_issuer i
  /\ h_volume (health_record (ring_by_issuer (latencies obs)) i c)
     = get_transaction_volume obs D_by_issuer i.
Proof.
  intros Hget Hne. unfold get_success_rate, get_transaction_volume, dget_or.
  cbn [stats_dim]. rewrite Hget.
  destruct (Z.eqb_spec (total c) 0); [contradiction|]. split; reflexivity.
Qed.

(** C7.  On an observer reached by ingestions and evictions, with a
    reasoner reached by baseline updates: the volume the detector reads for
    an issuer is the number of its transactions in the window; a pattern
    is emitted for the issuer exactly when that volume is at least 10 and
    the degradation is at least the double 0.15, where the degradation is
    the baseline minus the current success rate as the code computes it,
    in double precision; the severity of the pattern is
    [min (degradation / 0.30) 1], the quotient in double precision; below
    10 nothing is emitted, and at exactly 10 a pattern can be.  For an
    issuer without a stored baseline (the default 0.95 applies) nothing is
    emitted at a success rate of 0.80 or more: the double nearest to 0.95
    minus the double nearest to 0.80 is below the double nearest to 0.15. *)
Theorem C7_issuer_degradation
    (window_size_minutes : Z) (ops : list ObserverOp) (r : PaymentReasoner)
    (i : string) :
  let obs := observer_run ops (PaymentObserver_init window_size_minutes) in
  let volume := get_transaction_volume obs D_by_issuer i in
  let degradation :=
    fsub (dget_or default_rate (issuer_success_rates (baselines r)) i)
         (get_success_rate obs D_by_issuer i) in
  reasoner_reachable r ->
  volume
  = Z.of_nat (length (List.filter (fun t => String.eqb (issuer t) i)
                        (transactions_window obs)))
  /\ ((exists p, In p (_detect_issuer_degradation r obs) /\ affected_value p = i)
      <-> 10 <= volume /\ (fl 0.15 <= degradation)%Q)
  /\ (forall p, In p (_detect_issuer_degradation r obs) -> affected_value p = i ->
        pattern_type p = "issuer_degradation"
        /\ severity p = Qmin (fdiv degradation 0.3) 1.0)
  /\ (volume < 10 ->
      forall p, In p (_detect_issuer_degradation r obs) -> affected_value p <> i)
  /\ (let obs10 := observer_run ten_failures (PaymentObserver_init 10) in
      get_transaction_volume obs10 D_by_issuer "HDFC" = 10
      /\ exists p, In p (_detect_issuer_degradation PaymentReasoner_init obs10)
                   /\ affected_value p = "HDFC")
  /\ (dget (issuer_success_rates (baselines r)) i = None ->
      (0.8 <= get_success_rate obs D_by_issuer i)%Q ->
      forall p, In p (_detect_issuer_degradation r obs) -> affected_value p <> i).
Proof.
  intros obs volume degradation Hr.
  destruct (observer_run_inv ops _ (init_inv window_size_minutes)) as [Hag Hwf].
  fold obs in Hag, Hwf.
  destruct (reasoner_reachable_inv r Hr) as [Hthr _].
  pose proof (Hwf D_by_issuer) as Hnd. cbn [stats_dim] in Hnd.
  assert (Hemit : forall p, In p (_detect_issuer_degradation r obs) ->
            affected_value p = i ->
            (10 <= volume /\ (fl 0.15 <= degradation)%Q)
            /\ pattern_type p = "issuer_degradation"
            /\ severity p = Qmin (fdiv degradation 0.3) 1.0).
  { intros p Hp Hi. apply (detect_issuer_In r obs p Hnd) in Hp.
    destruct Hp as (k & c & Hin & Hne & Hp).
    apply (issuer_pattern_In r k _ p Hthr) in Hp. destruct Hp as [[Hv Hd] ->].
    cbn [issuer_pattern_of affected_value] in Hi. subst k.
    apply (In_dget _ _ _ Hnd) in Hin.
    destruct (health_record_view obs i c Hin Hne) as [Hrate Hvol].
    rewrite Hvol in Hv. rewrite Hrate in Hd.
    split; [split; assumption|]. split; [reflexivity|].
    cbn [issuer_pattern_of severity]. rewrite Hrate. reflexivity. }
  split; [|split; [|split; [|split; [|split]]]].
  - subst volume. unfold get_transaction_volume.
    specialize (Hag D_by_issuer i). unfold reads in Hag. rewrite Hag. reflexivity.
  - split.
    + intros (p & Hp & Hi). apply (Hemit p Hp Hi).
    + intros [Hv Hd].
      destruct (dget (by_issuer (stats obs)) i) as [c|] eqn:Hget.
      * assert (Hne : total c <> 0).
        { subst volume. unfold get_transaction_volume, dget_or in Hv.
          cbn [stats_dim] in Hv. rewrite Hget in Hv. lia. }
        destruct (health_record_view obs i c Hget Hne) as [Hrate Hvol].
        exists (issuer_pattern_of r i
                  (health_record (ring_by_issuer (latencies obs)) i c)).
        split; [|reflexivity].
        apply (detect_issuer_In r obs _ Hnd). exists i, c.
        split; [apply dget_In, Hget|]. split; [exact Hne|].
        apply (issuer_pattern_In r i _ _ Hthr).
        rewrite Hvol, Hrate. split; [split; assumption | reflexivity].
      * exfalso. subst volume. unfold get_transaction_volume, dget_or in Hv.
        cbn [stats_dim] in Hv. rewrite Hget in Hv. simpl in Hv. lia.
  - intros p Hp Hi. apply (Hemit p Hp Hi).
  - intros Hlt p Hp Hi. destruct (Hemit p Hp Hi) as [[Hv _] _]. lia.
  - intros obs10. split; [vm_compute; reflexivity|].
    remember (_detect_issuer_degradation PaymentReasoner_init obs10) as l eqn:El.
    assert (H : List.map affected_value l = ["HDFC"])
      by (rewrite El; vm_compute; reflexivity).
    clear El. destruct l as [|p l]; [discriminate H|].
    exists p. split; [left; reflexivity|]. simpl in H. congruence.
  - intros Hnone Hrate p Hp Hi. destruct (Hemit p Hp Hi) as [[_ Hd] _].
    subst degradation. unfold dget_or in Hd. rewrite Hnone in Hd.
    assert (Hk : (fsub default_rate 0.8 < fl 0.15)%Q)
      by (apply Qltb_lt; vm_compute; reflexivity).
    pose proof (fsub_mono default_rate default_rate _ 0.8 (Qle_refl _) Hrate) as Hm.
    apply (Qlt_not_le _ _ Hk). eapply Qle_trans; [exact Hd | exact Hm].
Qed.

(** C7, the claim as the specification words it.  Eight successes and two
    failures of one issuer stand in the window and the reasoner is fresh:
    the volume is 10 and the baseline 0.95 minus the success rate 0.80 is
    0.15, yet the detector emits nothing, because the difference of the
    two doubles is 0.1499999999999999. *)
Lemma C7_counterexample :
  let obs := observer_with (repeat SUCCESS 8 ++ repeat FAILED 2) in
  let r := PaymentReasoner_init in
  get_transaction_volume obs D_by_issuer "ICICI" = 10
  /\ (0.15 <= dget_or default_rate (issuer_success_rates (baselines r)) "ICICI"
              - get_success_rate obs D_by_issuer "ICICI")%Q
  /\ _detect_issuer_degradation r obs = [].
Proof.
  split; [vm_compute; reflexivity|]. split.
  - apply Qleb_le. vm_compute. reflexivity.
  - vm_compute. reflexivity.
Qed.

Lemma C7_witness :
  exists p,
    In p (_detect_issuer_degradation PaymentReasoner_init
            (observer_run ten_failures (PaymentObserver_init 10)))
    /\ affected_value p = "HDFC".
Proof.
  apply (proj1 (proj2 (C7_issuer_degradation 10 ten_failures PaymentReasoner_init
                          "HDFC" reasoner_fresh))).
  split.
  - vm_compute. intros H. discriminate H.
  - vm_compute. intros H. discriminate H.
Defined.

(** ** Executor: the table of active interventions *)

Lemma ActionType_eqb_refl a : ActionType_eqb a a = true.
Proof. destruct a; reflexivity. Qed.

Lemma similar_false action a :
  similar action a = false -> intervention_key a <> intervention_key action.
Proof.
  unfold similar, intervention_key. intros H [= Ht Hg].
  rewrite Ht, Hg, ActionType_eqb_refl, String.eqb_refl in H. discriminate H.
Qed.

Lemma pre_checks_fresh self action state :
  fst (_pre_execution_checks self action state) = true ->
  forall a, In a (dvalues (active_interventions self)) ->
            intervention_key a <> intervention_key action.
Proof.
  unfold _pre_execution_checks.
  destruct (_ && negb (truthy (approver action))); [discriminate|].
  destruct (_ && (negb (truthy (approver action)) && _)); [discriminate|].
  destruct (can_take_action state action) as [can reason].
  destruct can; cbn [negb]; [|discriminate].
  destruct (List.find _ _) eqn:E; [discriminate|].
  intros _ a Hin. apply similar_false. apply (List.find_none _ _ E a Hin).
Qed.

Lemma NoDup_map_filter {A B : Type} (g : A -> B) (f : A -> bool) (l : list A) :
  NoDup (List.map g l) -> NoDup (List.map g (List.filter f l)).
Proof.
  induction l as [|x l IH]; simpl; [auto|].
  intros H. apply NoDup_cons in H. destruct H as [Hx Hl].
  destruct (f x); simpl; [|apply IH, Hl].
  apply NoDup_cons. split; [|apply IH, Hl].
  intros Hin. apply Hx. apply list_elem_of_In in Hin. apply list_elem_of_In.
  apply in_map_iff in Hin. destruct Hin as (y & Hy & Hin).
  apply filter_In in Hin. apply in_map_iff. exists y. tauto.
Qed.

Lemma NoDup_map_dset {V W : Type} (g : V -> W) (d : dict V) k v :
  NoDup (List.map g (dvalues d)) ->
  (forall a, In a (dvalues d) -> g a <> g v) ->
  NoDup (List.map g (dvalues (dset d k v))).
Proof.
  induction d as [|[k0 v0] d IH]; simpl; intros Hnd Hfresh.
  - apply NoDup_singleton.
  - apply NoDup_cons in Hnd. destruct Hnd as [Hx Hl].
    destruct (String.eqb k k0); simpl; apply NoDup_cons; split.
    + intros Hin. apply list_elem_of_In, in_map_iff in Hin.
      destruct Hin as (a & Ha & Hin). apply (Hfresh a); [right; exact Hin | exact Ha].
    + exact Hl.
    + intros Hin. apply list_elem_of_In, in_map_iff in Hin.
      destruct Hin as (a & Ha & Hin). unfold dvalues in Hin.
      apply in_map_iff in Hin. destruct Hin as ([k1 a1] & Hs & Hin).
      simpl in Hs. subst a1. apply In_dset in Hin. destruct Hin as [[= _ ->]|Hin].
      * apply (Hfresh v0); [left; reflexivity | symmetry; exact Ha].
      * apply Hx, list_elem_of_In, in_map_iff. exists a. split; [exact Ha|].
        apply in_map_iff. exists (k1, a). split; [reflexivity | exact Hin].
    + apply IH; [exact Hl|]. intros a Ha. apply Hfresh. right. exact Ha.
Qed.

Lemma find_baseline_log_app log e active active' id :
  _find_baseline_for_action
    {| execution_log := log ++ [e]; active_interventions := active |} id
  = if String.eqb (log_action_id e) id then Some (log_baseline_metrics e)
    else _find_baseline_for_action
           {| execution_log := log; active_interventions := active' |} id.
Proof.
  unfold _find_baseline_for_action. cbn [execution_log].
  rewrite List.rev_app_distr. simpl.
  destruct (String.eqb (log_action_id e) id); reflexivity.
Qed.

Lemma find_baseline_log s1 s2 id :
  execution_log s1 = execution_log s2 ->
  _find_baseline_for_action s1 id = _find_baseline_for_action s2 id.
Proof. unfold _find_baseline_for_action. intros ->. reflexivity. Qed.

Lemma entry_ok_log s1 s2 ka :
  execution_log s1 = execution_log s2 -> entry_ok s1 ka -> entry_ok s2 ka.
Proof.
  intros Hlog (H1 & H2 & H3). repeat split; auto.
  rewrite <- (find_baseline_log s1 s2 _ Hlog). exact H3.
Qed.

Lemma execute_inv now self action state observer :
  executor_inv self -> executor_inv (ex_self (execute now self action state observer)).
Proof.
  intros Hinv. unfold execute.
  destruct (_pre_execution_checks self action state) as [can reason] eqn:Hpre.
  destruct can; cbn [negb]; [|exact Hinv].
  destruct (_execute_by_type now action state) as [[ok message] state1].
  destruct ok; cbn [ex_self]; [|exact Hinv].
  destruct Hinv as (Hk & Hp & Hall).
  pose proof (pre_checks_fresh self action state) as Hfresh.
  rewrite Hpre in Hfresh. specialize (Hfresh eq_refl).
  split; [|split]; cbn [active_interventions set_status action_id].
  - apply dset_keys_NoDup, Hk.
  - apply NoDup_map_dset; [exact Hp|]. intros a Ha. apply (Hfresh a Ha).
  - apply List.Forall_forall. intros [k a] Hin. apply In_dset in Hin.
    unfold entry_ok, _log_execution. cbn [fst snd].
    rewrite (find_baseline_log_app _ _ _ (active_interventions self)).
    cbn [log_action_id set_status action_id].
    destruct Hin as [[= -> ->]|Hin].
    + cbn [action_id executed_at set_status]. rewrite String.eqb_refl.
      repeat split; congruence.
    + rewrite List.Forall_forall in Hall. destruct (Hall _ Hin) as (H1 & H2 & H3).
      cbn [fst snd] in *. repeat split; auto.
      destruct (String.eqb (action_id action) k); [congruence|].
      destruct self; exact H3.
Qed.

(** ** Executor: the monitoring loop *)

Lemma rollback_due_log now s1 s2 current ka :
  execution_log s1 = execution_log s2 ->
  rollback_due now s1 current ka = rollback_due now s2 current ka.
Proof.
  intros H. unfold rollback_due. rewrite (find_baseline_log s1 s2 _ H). reflexivity.
Qed.

(** The loop rolls back exactly the entries of the snapshot that are due,
    in the order of the snapshot. *)
Lemma monitor_loop_spec now current self items acc :
  execution_log (mon_self acc) = execution_log self ->
  let due := List.filter (rollback_due now self current) items in
  let r := monitor_loop now current items acc in
  rolled_back r = rolled_back acc ++ List.map fst due
  /\ rolled_back_actions r
     = rolled_back_actions acc
       ++ List.map (fun ka => set_status (snd ka) "rolled_back"
                                (executed_at (snd ka)) (Some now)) due
  /\ rollback_reports r
     = rollback_reports acc
       ++ List.map (fun ka => (fst ka, rollback_reason now self current ka)) due
  /\ execution_log (mon_self r) = execution_log self
  /\ active_interventions (mon_self r)
     = fold_left (fun d ka => ddel d (action_id (snd ka))) due
         (active_interventions (mon_self acc))
  /\ mon_state r = fold_left rollback_state due (mon_state acc).
Proof.
  revert acc. induction items as [|[id action] rest IH]; intros acc Hlog.
  - cbn. rewrite !List.app_nil_r. repeat split; auto.
  - assert (Hdue : rollback_due now self current (id, action)
                   = match _find_baseline_for_action self id with
                     | None => false
                     | Some b => fst (_should_rollback now action b current)
                     end) by reflexivity.
    assert (Hreason : rollback_reason now self current (id, action)
                      = match _find_baseline_for_action self id with
                        | None => EmptyString
                        | Some b => snd (_should_rollback now action b current)
                        end) by reflexivity.
    cbn zeta. cbn [monitor_loop List.filter]. rewrite Hdue.
    rewrite (find_baseline_log (mon_self acc) self id Hlog).
    destruct (_find_baseline_for_action self id) as [baseline|].
    + destruct (_should_rollback now action baseline current) as [should reason].
      cbn [fst snd] in *. destruct should.
      * unfold _rollback_action.
        match goal with
        | |- context [monitor_loop now current rest ?acc'] =>
            specialize (IH acc' Hlog)
        end.
        cbn [rolled_back rolled_back_actions rollback_reports mon_state mon_self
             active_interventions execution_log] in IH.
        destruct IH as (H1 & H2 & H3 & H4 & H5 & H6).
        cbn [List.map fold_left fst snd].
        rewrite H1, H2, H3, H4, H5, H6, Hreason.
        rewrite <- !List.app_assoc. repeat split; reflexivity.
      * apply (IH acc Hlog).
    + apply (IH acc Hlog).
Qed.


Lemma fold_ddel_filter (due : list (string * Action)) (d : dict Action) :
  exists f, fold_left (fun d ka => ddel d (action_id (snd ka))) due d = List.filter f d.
Proof.
  revert d. induction due as [|ka due IH]; intros d.
  - exists (fun _ => true). simpl. induction d as [|x d IHd]; simpl; congruence.
  - cbn [fold_left]. destruct (IH (ddel d (action_id (snd ka)))) as (f & ->).
    rewrite ddel_filter.
    exists (fun x => negb (String.eqb (action_id (snd ka)) (fst x)) && f x).
    induction d as [|x d IHd]; simpl; [reflexivity|].
    destruct (negb _); simpl; [destruct (f x)|]; rewrite IHd; reflexivity.
Qed.

Lemma reverse_write_counters a st :
  actions_taken_last_hour (reverse_write a st) = actions_taken_last_hour st
  /\ rollbacks_last_hour (reverse_write a st) = rollbacks_last_hour st
  /\ actions_executed (reverse_write a st) = actions_executed st.
Proof.
  unfold reverse_write.
  destruct (action_type a), (p_issuer (parameters a)), (p_payment_method (parameters a));
    repeat split.
Qed.

Lemma fold_rollback_count due st :
  rollbacks_last_hour (fold_left rollback_state due st)
  = rollbacks_last_hour st + Z.of_nat (length due).
Proof.
  revert st. induction due as [|ka due IH]; intros st.
  - simpl. lia.
  - cbn [fold_left length]. rewrite IH. unfold rollback_state. cbn [rollbacks_last_hour with_counters].
    destruct (reverse_write_counters (snd ka) st) as (_ & -> & _). lia.
Qed.








Lemma monitor_inv now self state observer :
  executor_inv self ->
  executor_inv (mon_self (monitor_and_rollback now self state observer)).
Proof.
  intros (Hk & Hp & Hall). unfold monitor_and_rollback.
  match goal with
  | |- context [monitor_loop ?n ?c ?items ?acc] =>
      destruct (monitor_loop_spec n c self items acc eq_refl)
        as (_ & _ & _ & Hlog & Hact & _)
  end.
  cbn [mon_self active_interventions] in Hact.
  destruct (fold_ddel_filter
              (List.filter (rollback_due now self (_capture_baseline_metrics now observer))
                 (active_interventions self))
              (active_interventions self)) as (f & Hf).
  unfold executor_inv. rewrite Hact, Hf. split; [|split].
  - apply NoDup_map_filter, Hk.
  - unfold dvalues in *. rewrite List.map_map in *. apply NoDup_map_filter, Hp.
  - apply List.Forall_forall. intros ka Hin. apply filter_In in Hin.
    rewrite List.Forall_forall in Hall.
    apply (entry_ok_log self); [symmetry; exact Hlog | apply Hall, Hin].
Qed.

Lemma executor_reachable_inv self : executor_reachable self -> executor_inv self.
Proof.
  induction 1 as [|now self action state observer _ IH|now self state observer _ IH].
  - repeat split; [apply NoDup_nil_2 | apply NoDup_nil_2 | apply List.Forall_nil].
  - apply execute_inv, IH.
  - apply monitor_inv, IH.
Qed.

Lemma NoDup_map_In_eq {A B : Type} (g : A -> B) (l : list A) (x y : A) :
  NoDup (List.map g l) -> In x l -> In y l -> g x = g y -> x = y.
Proof.
  induction l as [|z l IH]; simpl; [intros _ []|].
  intros Hnd Hx Hy Hg. apply NoDup_cons in Hnd. destruct Hnd as [Hz Hl].
  destruct Hx as [->|Hx], Hy as [->|Hy].
  - reflexivity.
  - exfalso. apply Hz, list_elem_of_In, in_map_iff. exists y. auto.
  - exfalso. apply Hz, list_elem_of_In, in_map_iff. exists x. auto.
  - apply IH; assumption.
Qed.

(** C9.  In every executor reached from a fresh one by [execute] and
    [monitor_and_rollback], no two active interventions share the pair of
    action type and target. *)
Theorem C9_unique_type_and_target (self : PaymentExecutor) :
  executor_reachable self ->
  NoDup (List.map intervention_key (get_active_interventions self))
  /\ (forall id1 id2 a1 a2,
        dget (active_interventions self) id1 = Some a1 ->
        dget (active_interventions self) id2 = Some a2 ->
        action_type a1 = action_type a2 -> target a1 = target a2 ->
        id1 = id2 /\ a1 = a2).
Proof.
  intros Hreach. destruct (executor_reachable_inv self Hreach) as (Hk & Hp & Hall).
  split; [exact Hp|].
  intros id1 id2 a1 a2 H1 H2 Hty Htg.
  apply dget_In in H1. apply dget_In in H2.
  assert (Hkey : intervention_key a1 = intervention_key a2)
    by (unfold intervention_key; congruence).
  unfold get_active_interventions, dvalues in Hp. rewrite List.map_map in Hp.
  assert (Heq : (id1, a1) = (id2, a2))
    by (apply (NoDup_map_In_eq _ _ _ _ Hp H1 H2); exact Hkey).
  injection Heq as -> ->. split; reflexivity.
Qed.

Lemma C9_witness :
  NoDup (List.map intervention_key (get_active_interventions (fst five_active))).
Proof.
  refine (proj1 (C9_unique_type_and_target (fst five_active) _)).
  unfold five_active, execute_all. cbn [fold_left fst snd].
  do 5 apply executor_executed. apply executor_fresh.
Defined.

(** ** Monitoring and rollback *)







(** ** Learner: tuning of the decision weights *)














(** * Further properties *)

(** ** The window after an eviction *)

Lemma cleanup_loop_window cutoff w s :
  exists evicted,
    w = evicted ++ fst (cleanup_loop cutoff w s)
    /\ Forall (fun t => timestamp t < cutoff) evicted
    /\ (forall t rest, fst (cleanup_loop cutoff w s) = t :: rest -> cutoff <= timestamp t).
Proof.
  revert s. induction w as [|x w IH]; intros s; simpl.
  - exists []. repeat split; [constructor | discriminate].
  - destruct (Z.ltb_spec (timestamp x) cutoff) as [Hlt|Hge].
    + destruct (IH (_remove_from_stats x s)) as (ev & Hw & Hall & Hhead).
      exists (x :: ev). repeat split.
      * simpl. f_equal. exact Hw.
      * constructor; assumption.
      * exact Hhead.
    + exists []. repeat split; [constructor|].
      simpl. intros t rest [= <- _]. exact Hge.
Qed.

Lemma sorted_tail_fresh cutoff (evicted rest : list PaymentTransaction) :
  StronglySorted by_time (evicted ++ rest) ->
  (forall t rest', rest = t :: rest' -> cutoff <= timestamp t) ->
  Forall (fun t => cutoff <= timestamp t) rest.
Proof.
  induction evicted as [|x evicted IH]; simpl; intros Hs Hhead.
  - destruct rest as [|t rest']; [constructor|].
    pose proof (Hhead t rest' eq_refl) as Ht.
    apply StronglySorted_inv in Hs. destruct Hs as [_ Hall].
    constructor; [exact Ht|].
    eapply List.Forall_impl; [|exact Hall]. unfold by_time. intros a Ha. lia.
  - apply StronglySorted_inv in Hs. apply IH; tauto.
Qed.

Lemma filter_all_false {A : Type} (f : A -> bool) (l : list A) :
  Forall (fun x => f x = false) l -> List.filter f l = [].
Proof.
  induction 1 as [|x l Hx _ IH]; simpl; [reflexivity|]. rewrite Hx. exact IH.
Qed.

Lemma filter_all_true {A : Type} (f : A -> bool) (l : list A) :
  Forall (fun x => f x = true) l -> List.filter f l = l.
Proof.
  induction 1 as [|x l Hx _ IH]; simpl; [reflexivity|]. rewrite Hx, IH. reflexivity.
Qed.

Lemma cleanup_window_split now self :
  exists evicted,
    transactions_window self
    = evicted ++ transactions_window (_cleanup_old_transactions now self)
    /\ Forall (fun t => timestamp t < now - window_size self) evicted
    /\ (forall t rest,
          transactions_window (_cleanup_old_transactions now self) = t :: rest ->
          now - window_size self <= timestamp t).
Proof.
  unfold _cleanup_old_transactions.
  destruct (cleanup_loop_window (now - window_size self)
              (transactions_window self) (stats self)) as (ev & Hw & Hall & Hhead).
  destruct (cleanup_loop _ _ _) as [w s].
  exists ev. cbn [transactions_window with_window_stats fst] in *. auto.
Qed.

(** X1.  An eviction removes a prefix of the window whose entries are all
    older than the cutoff and stops at the first entry that is not; when
    the time stamps of the window do not decrease, what is left is exactly
    the entries that are not older than the cutoff. *)
Theorem X1_eviction_keeps_the_fresh_tail (now : Z) (self : PaymentObserver) :
  let cutoff := now - window_size self in
  let kept := transactions_window (_cleanup_old_transactions now self) in
  (exists evicted,
      transactions_window self = evicted ++ kept
      /\ Forall (fun t => timestamp t < cutoff) evicted)
  /\ (forall t rest, kept = t :: rest -> cutoff <= timestamp t)
  /\ (StronglySorted by_time (transactions_window self) ->
      Forall (fun t => cutoff <= timestamp t) kept
      /\ kept = List.filter (fun t => cutoff <=? timestamp t) (transactions_window self)).
Proof.
  intros cutoff kept.
  destruct (cleanup_loop_window cutoff (transactions_window self) (stats self))
    as (ev & Hw & Hall & Hhead).
  assert (Hk : kept = fst (cleanup_loop cutoff (transactions_window self) (stats self))).
  { subst kept cutoff. unfold _cleanup_old_transactions.
    destruct (cleanup_loop _ _ _) as [w s]. reflexivity. }
  rewrite <- Hk in Hw, Hhead.
  split; [exists ev; split; assumption|]. split; [exact Hhead|].
  intros Hs. rewrite Hw in Hs.
  pose proof (sorted_tail_fresh cutoff ev kept Hs Hhead) as Hfresh.
  split; [exact Hfresh|].
  rewrite Hw, List.filter_app.
  rewrite filter_all_false, filter_all_true; [reflexivity| |].
  - eapply List.Forall_impl; [|exact Hfresh]. intros a Ha. simpl in Ha. apply Z.leb_le, Ha.
  - eapply List.Forall_impl; [|exact Hall]. intros a Ha. simpl in Ha. apply Z.leb_gt, Ha.
Qed.

Lemma X1_witness :
  transactions_window
    (_cleanup_old_transactions (minutes 11)
       (observer_run [OpIngest 0 slow_failure; OpIngest (minutes 5) late_arrival]
          (PaymentObserver_init 10)))
  = [late_arrival].
Proof.
  pose proof (proj2 (proj2 (X1_eviction_keeps_the_fresh_tail (minutes 11)
               (observer_run [OpIngest 0 slow_failure; OpIngest (minutes 5) late_arrival]
                  (PaymentObserver_init 10))))) as H.
  assert (E : transactions_window
                (observer_run [OpIngest 0 slow_failure; OpIngest (minutes 5) late_arrival]
                   (PaymentObserver_init 10))
              = [slow_failure; late_arrival]) by (vm_compute; reflexivity).
  cbv zeta in H. rewrite E in H.
  destruct H as [_ H].
  - repeat constructor. unfold by_time. vm_compute. intros Hgt. discriminate Hgt.
  - rewrite H. reflexivity.
Defined.

Lemma Forall_ltb (c : Z) (l : list PaymentTransaction) :
  forallb (fun t => timestamp t <? c) l = true ->
  Forall (fun t => timestamp t < c) l.
Proof.
  intros H. apply List.Forall_forall. intros t Hin.
  rewrite forallb_forall in H. apply Z.ltb_lt, H, Hin.
Qed.

(** X2.  When every entry of the window is older than the cutoff, an
    eviction empties the window and every counter reads zero afterwards,
    whatever was ingested before. *)
Theorem X2_full_eviction_resets_counters
    (window_size_minutes now : Z) (ops : list ObserverOp) :
  let obs := observer_run ops (PaymentObserver_init window_size_minutes) in
  let obs' := _cleanup_old_transactions now obs in
  Forall (fun t => timestamp t < now - window_size obs) (transactions_window obs) ->
  transactions_window obs' = []
  /\ (forall dimension key,
        dget_or Counter_zero (stats_dim (stats obs') dimension) key = Counter_zero)
  /\ (forall dimension key, get_transaction_volume obs' dimension key = 0).
Proof.
  intros obs obs' Hall.
  destruct (cleanup_window_split now obs) as (ev & Hw & _ & Hhead).
  fold obs' in Hw, Hhead.
  assert (Hempty : transactions_window obs' = []).
  { destruct (transactions_window obs') as [|t rest] eqn:E; [reflexivity|].
    exfalso. specialize (Hhead t rest eq_refl).
    rewrite List.Forall_forall in Hall.
    assert (Hin : In t (transactions_window obs))
      by (rewrite Hw; apply in_or_app; right; left; reflexivity).
    specialize (Hall t Hin). simpl in Hall. lia. }
  assert (Hinv : observer_inv obs').
  { apply cleanup_inv, observer_run_inv, init_inv. }
  assert (Hz : forall dimension key,
             dget_or Counter_zero (stats_dim (stats obs') dimension) key = Counter_zero)
    by (intros; apply empty_window_reads; assumption).
  split; [exact Hempty|]. split; [exact Hz|].
  intros dimension key. unfold get_transaction_volume. rewrite Hz. reflexivity.
Qed.

Lemma X2_witness :
  transactions_window
    (_cleanup_old_transactions (minutes 30)
       (observer_run ten_failures (PaymentObserver_init 10))) = []
  /\ get_transaction_volume
       (_cleanup_old_transactions (minutes 30)
          (observer_run ten_failures (PaymentObserver_init 10))) D_by_issuer "HDFC" = 0.
Proof.
  destruct (X2_full_eviction_resets_counters 10 (minutes 30) ten_failures) as (H1 & _ & H3).
  - apply Forall_ltb. vm_compute. reflexivity.
  - split; [exact H1 | apply H3].
Defined.

(** ** The window and the memory as parts of the ingestion history *)

Lemma lastn_snoc {A : Type} (n : nat) (h : list A) (x : A) :
  (1 <= n)%nat ->
  lastn n (lastn n h ++ [x]) = lastn n (h ++ [x]).
Proof.
  intros Hn. unfold lastn.
  rewrite !List.length_app, List.length_skipn. cbn [length].
  rewrite !List.skipn_app, List.length_skipn, List.skipn_skipn.
  replace (length h - (length h - n) + 1 - n - (length h - (length h - n)))%nat
    with (length h + 1 - n - length h)%nat by lia.
  replace (length h - (length h - n) + 1 - n + (length h - n))%nat
    with (length h + 1 - n)%nat by lia.
  reflexivity.
Qed.

Lemma add_transaction_lastn t recent :
  add_transaction t recent = lastn (Z.to_nat 10000) (recent ++ [t]).
Proof.
  unfold add_transaction, lastn.
  destruct (Z.ltb_spec 10000 (Z.of_nat (length (recent ++ [t])))) as [H|H].
  - reflexivity.
  - replace (length (recent ++ [t]) - Z.to_nat 10000)%nat with 0%nat by lia.
    reflexivity.
Qed.

Lemma lastn_length {A : Type} (n : nat) (l : list A) : (length (lastn n l) <= n)%nat.
Proof. unfold lastn. rewrite List.length_skipn. lia. Qed.

Lemma ingest_history h now t self :
  history_inv h self -> history_inv (h ++ [t]) (ingest_transaction now t self).
Proof.
  intros [(older & Hh) Hrecent]. unfold ingest_transaction, _cleanup_old_transactions.
  cbn [transactions_window stats window_size with_window_stats].
  destruct (cleanup_loop_window (now - window_size self)
              (transactions_window self ++ [t]) (stats self)) as (ev & Hw & _).
  destruct (cleanup_loop _ _ _) as [w' s'].
  destruct (track_errors _ _ _) as [codes messages].
  cbn [transactions_window recent_transactions with_window_stats fst] in *.
  split.
  - exists (older ++ ev). rewrite Hh, <- !List.app_assoc. f_equal. exact Hw.
  - rewrite add_transaction_lastn, Hrecent. apply lastn_snoc. lia.
Qed.

Lemma cleanup_history h now self :
  history_inv h self -> history_inv h (_cleanup_old_transactions now self).
Proof.
  intros [(older & Hh) Hrecent]. unfold _cleanup_old_transactions.
  destruct (cleanup_loop_window (now - window_size self)
              (transactions_window self) (stats self)) as (ev & Hw & _).
  destruct (cleanup_loop _ _ _) as [w' s'].
  cbn [transactions_window recent_transactions with_window_stats fst] in *.
  split; [|exact Hrecent].
  exists (older ++ ev). rewrite Hh, <- List.app_assoc. f_equal. exact Hw.
Qed.

Lemma observer_run_history ops h self :
  history_inv h self -> history_inv (h ++ ingested ops) (observer_run ops self).
Proof.
  revert h self. induction ops as [|op ops IH]; intros h self H.
  - simpl. rewrite List.app_nil_r. exact H.
  - destruct op as [now t|now]; cbn [observer_run fold_left observer_step ingested flat_map].
    + change (h ++ [t] ++ flat_map _ ops) with (h ++ [t] ++ ingested ops).
      rewrite List.app_assoc. apply (IH (h ++ [t])). apply ingest_history, H.
    + cbn [app]. apply (IH h). apply cleanup_history, H.
Qed.

(** X3.  After any run of ingestions and evictions on a fresh observer,
    the window is a tail of the sequence of ingested transactions, in the
    order of ingestion, and the memory holds the last 10000 of them. *)
Theorem X3_window_and_memory_are_tails
    (window_size_minutes : Z) (ops : list ObserverOp) :
  let obs := observer_run ops (PaymentObserver_init window_size_minutes) in
  (exists older, ingested ops = older ++ transactions_window obs)
  /\ recent_transactions obs = lastn (Z.to_nat 10000) (ingested ops)
  /\ Z.of_nat (length (recent_transactions obs)) <= 10000
  /\ (Z.of_nat (length (ingested ops)) <= 10000 ->
      recent_transactions obs = ingested ops).
Proof.
  intros obs.
  destruct (observer_run_history ops [] (PaymentObserver_init window_size_minutes))
    as [Hw Hr].
  - split; [exists []; reflexivity | reflexivity].
  - cbn [app] in Hw, Hr. fold obs in Hw, Hr.
    split; [exact Hw|]. split; [exact Hr|]. split.
    + rewrite Hr. pose proof (lastn_length (Z.to_nat 10000) (ingested ops)). lia.
    + intros Hlen. rewrite Hr. unfold lastn.
      replace (length (ingested ops) - Z.to_nat 10000)%nat with 0%nat by lia.
      reflexivity.
Qed.

Lemma X3_witness :
  recent_transactions
    (observer_run [OpIngest 0 slow_failure; OpIngest (minutes 20) late_arrival]
       (PaymentObserver_init 10))
  = [slow_failure; late_arrival].
Proof.
  apply (proj2 (proj2 (proj2 (X3_window_and_memory_are_tails 10
           [OpIngest 0 slow_failure; OpIngest (minutes 20) late_arrival])))).
  cbn. lia.
Defined.

(** ** What the counters mean *)

Lemma tally_success_le dimension key (l : list PaymentTransaction) :
  success (tally dimension key l) <= total (tally dimension key l).
Proof. destruct (tally_sound dimension key l) as (H1 & H2 & H3 & H4). lia. Qed.

Lemma filter_andb {A : Type} (f g : A -> bool) (l : list A) :
  List.filter (fun x => f x && g x) l = List.filter g (List.filter f l).
Proof.
  induction l as [|x l IH]; [reflexivity|].
  simpl. destruct (f x); simpl; [|exact IH].
  destruct (g x); simpl; rewrite IH; reflexivity.
Qed.

(** X4.  After any run of ingestions and evictions on a fresh observer:
    the volume of a key is the number of transactions of the window
    counted under that key; the success rate is 1 when there is none and
    the share of successes among them otherwise; success and failure rates
    lie between 0 and 1. *)
Theorem X4_volume_and_rates
    (window_size_minutes : Z) (ops : list ObserverOp)
    (dimension : Dimension) (key : string) :
  let obs := observer_run ops (PaymentObserver_init window_size_minutes) in
  let mine := List.filter (counted dimension key) (transactions_window obs) in
  let ok := List.filter status_key mine in
  get_transaction_volume obs dimension key = Z.of_nat (length mine)
  /\ get_success_rate obs dimension key
     = (if Z.of_nat (length mine) =? 0 then 1
        else inject_Z (Z.of_nat (length ok)) / inject_Z (Z.of_nat (length mine)))%Q
  /\ (0 <= get_success_rate obs dimension key <= 1)%Q
  /\ (0 <= get_failure_rate obs dimension key <= 1)%Q.
Proof.
  intros obs mine ok.
  destruct (observer_run_inv ops _ (init_inv window_size_minutes)) as [Hag _].
  fold obs in Hag. specialize (Hag dimension key). unfold reads in Hag.
  assert (Hok : success (tally dimension key (transactions_window obs))
                = Z.of_nat (length ok)).
  { subst ok mine. cbn [tally success]. f_equal. f_equal.
    apply filter_andb. }
  assert (Hrate : get_success_rate obs dimension key
     = (if Z.of_nat (length mine) =? 0 then 1
        else inject_Z (Z.of_nat (length ok)) / inject_Z (Z.of_nat (length mine)))%Q).
  { unfold get_success_rate. rewrite Hag, Hok. reflexivity. }
  assert (Hle : (length ok <= length mine)%nat).
  { pose proof (tally_success_le dimension key (transactions_window obs)) as H.
    rewrite Hok in H. cbn [tally total] in H. fold mine in H. lia. }
  assert (Hbounds : (0 <= get_success_rate obs dimension key <= 1)%Q).
  { rewrite Hrate. destruct (Z.eqb_spec (Z.of_nat (length mine)) 0) as [|Hne]; [lra|].
    assert (Hpos : (0 < inject_Z (Z.of_nat (length mine)))%Q).
    { replace 0%Q with (inject_Z 0) by reflexivity. rewrite <- Zlt_Qlt. lia. }
    split.
    - apply Qle_shift_div_l; [exact Hpos|]. rewrite Qmult_0_l.
      replace 0%Q with (inject_Z 0) by reflexivity. rewrite <- Zle_Qle. lia.
    - apply Qle_shift_div_r; [exact Hpos|]. rewrite Qmult_1_l.
      rewrite <- Zle_Qle. lia. }
  split; [|split; [exact Hrate|split; [exact Hbounds|]]].
  - unfold get_transaction_volume. rewrite Hag. reflexivity.
  - unfold get_failure_rate. lra.
Qed.

(** ** Properties that follow the ingestion history *)

Lemma observer_run_ingested (P : list PaymentTransaction -> PaymentObserver -> Prop) :
  (forall h now t self, P h self -> P (h ++ [t]) (ingest_transaction now t self)) ->
  (forall h now self, P h self -> P h (_cleanup_old_transactions now self)) ->
  forall ops h self, P h self -> P (h ++ ingested ops) (observer_run ops self).
Proof.
  intros Hin Hev ops. induction ops as [|op ops IH]; intros h self H.
  - simpl. rewrite List.app_nil_r. exact H.
  - destruct op as [now t|now]; cbn [observer_run fold_left observer_step ingested flat_map].
    + change (h ++ [t] ++ flat_map _ ops) with (h ++ [t] ++ ingested ops).
      rewrite List.app_assoc. apply (IH (h ++ [t])). apply Hin, H.
    + cbn [app]. apply (IH h). apply Hev, H.
Qed.

Lemma ingest_latencies now t self :
  latencies (ingest_transaction now t self) = _track_latency t (latencies self).
Proof.
  unfold ingest_transaction. destruct (track_errors _ _ _). reflexivity.
Qed.

Lemma ingest_retry_stats now t self :
  retry_stats (ingest_transaction now t self) = track_retries t (retry_stats self).
Proof.
  unfold ingest_transaction. destruct (track_errors _ _ _). reflexivity.
Qed.

Lemma ingest_error_codes now t self :
  error_codes (ingest_transaction now t self)
  = fst (track_errors t (error_codes self) (error_messages self)).
Proof.
  unfold ingest_transaction. destruct (track_errors _ _ _). reflexivity.
Qed.

Lemma cleanup_frame now self :
  latencies (_cleanup_old_transactions now self) = latencies self
  /\ retry_stats (_cleanup_old_transactions now self) = retry_stats self
  /\ error_codes (_cleanup_old_transactions now self) = error_codes self.
Proof.
  unfold _cleanup_old_transactions. destruct (cleanup_loop _ _ _). auto.
Qed.

(** ** Latency rings *)

Lemma deque_append_lastn {A : Type} (n : nat) (l : list A) (x : A) :
  deque_append n l x = lastn n (l ++ [x]).
Proof. reflexivity. Qed.

Lemma positive_latencies_snoc f h t :
  positive_latencies f (h ++ [t])
  = positive_latencies f h
    ++ (if Qgtb (latency_ms t) 0 && f t then [latency_ms t] else []).
Proof.
  unfold positive_latencies. rewrite List.filter_app, List.map_app. cbn [List.filter].
  destruct (Qgtb (latency_ms t) 0 && f t); reflexivity.
Qed.

Lemma In_lastn {A : Type} (n : nat) (l : list A) (x : A) : In x (lastn n l) -> In x l.
Proof.
  unfold lastn. intros H. rewrite <- (List.firstn_skipn (length l - n) l).
  apply in_or_app. right. exact H.
Qed.

Lemma positive_latencies_pos f h :
  Forall (fun x => (0 < x)%Q) (positive_latencies f h).
Proof.
  unfold positive_latencies. apply List.Forall_forall. intros x Hx.
  apply List.in_map_iff in Hx. destruct Hx as (t & <- & Ht).
  apply List.filter_In in Ht. destruct Ht as [_ Ht].
  apply andb_true_iff in Ht. destruct Ht as [Ht _]. apply Qgtb_gt, Ht.
Qed.

Lemma track_latency_rings h t l :
  (ring_overall l = lastn 1000 (positive_latencies (fun _ => true) h)
   /\ (forall key, dget_or [] (ring_by_issuer l) key
                   = lastn 100 (positive_latencies (has_issuer key) h))
   /\ (forall key, dget_or [] (ring_by_method l) key
                   = lastn 100 (positive_latencies (has_method key) h))) ->
  ring_overall (_track_latency t l)
  = lastn 1000 (positive_latencies (fun _ => true) (h ++ [t]))
  /\ (forall key, dget_or [] (ring_by_issuer (_track_latency t l)) key
                  = lastn 100 (positive_latencies (has_issuer key) (h ++ [t])))
  /\ (forall key, dget_or [] (ring_by_method (_track_latency t l)) key
                  = lastn 100 (positive_latencies (has_method key) (h ++ [t]))).
Proof.
  intros (Ho & Hi & Hm). unfold _track_latency.
  destruct (Qgtb (latency_ms t) 0) eqn:Epos.
  - cbn [ring_overall ring_by_issuer ring_by_method].
    split; [|split].
    + rewrite positive_latencies_snoc, Epos. cbn [andb].
      rewrite deque_append_lastn, Ho. apply lastn_snoc. lia.
    + intros key. rewrite dget_or_dupd, positive_latencies_snoc, Epos. cbn [andb].
      replace (has_issuer key t) with (String.eqb (issuer t) key) by reflexivity.
      destruct (String.eqb (issuer t) key).
      * rewrite deque_append_lastn, Hi. apply lastn_snoc. lia.
      * rewrite List.app_nil_r. apply Hi.
    + intros key. rewrite dget_or_dupd, positive_latencies_snoc, Epos. cbn [andb].
      replace (has_method key t)
        with (String.eqb (PaymentMethod_value (payment_method t)) key) by reflexivity.
      destruct (String.eqb (PaymentMethod_value (payment_method t)) key).
      * rewrite deque_append_lastn, Hm. apply lastn_snoc. lia.
      * rewrite List.app_nil_r. apply Hm.
  - split; [|split]; intros; rewrite positive_latencies_snoc, Epos; cbn [andb];
      rewrite List.app_nil_r; auto.
Qed.

(** X5.  After any run of ingestions and evictions on a fresh observer,
    the overall latency ring holds the last 1000 positive latencies of the
    ingested transactions, and the ring of an issuer or of a payment method
    the last 100 positive latencies ingested for it, in the order of
    ingestion and whatever the clock was; so a ring never holds more than
    1000 (overall) or 100 (per key) samples and every sample is positive. *)
Theorem X5_latency_rings (window_size_minutes : Z) (ops : list ObserverOp) :
  let obs := observer_run ops (PaymentObserver_init window_size_minutes) in
  let h := ingested ops in
  latency_samples obs D_overall "current"
  = Some (lastn 1000 (positive_latencies (fun _ => true) h))
  /\ (forall key, latency_samples obs D_by_issuer key
                  = Some (lastn 100 (positive_latencies (has_issuer key) h)))
  /\ (forall key, latency_samples obs D_by_method key
                  = Some (lastn 100 (positive_latencies (has_method key) h)))
  /\ (forall dimension key samples,
        latency_samples obs dimension key = Some samples ->
        (length samples <= match dimension with D_overall => 1000 | _ => 100 end)%nat
        /\ Forall (fun x => (0 < x)%Q) samples).
Proof.
  intros obs h.
  assert (H : ring_overall (latencies obs)
              = lastn 1000 (positive_latencies (fun _ => true) h)
              /\ (forall key, dget_or [] (ring_by_issuer (latencies obs)) key
                              = lastn 100 (positive_latencies (has_issuer key) h))
              /\ (forall key, dget_or [] (ring_by_method (latencies obs)) key
                              = lastn 100 (positive_latencies (has_method key) h))).
  { subst obs h.
    apply (observer_run_ingested
             (fun h self =>
                ring_overall (latencies self)
                = lastn 1000 (positive_latencies (fun _ => true) h)
                /\ (forall key, dget_or [] (ring_by_issuer (latencies self)) key
                                = lastn 100 (positive_latencies (has_issuer key) h))
                /\ (forall key, dget_or [] (ring_by_method (latencies self)) key
                                = lastn 100 (positive_latencies (has_method key) h)))
             ) with (h := []).
    - intros h now t self Hs. rewrite ingest_latencies. apply track_latency_rings, Hs.
    - intros h now self Hs. destruct (cleanup_frame now self) as (-> & _). exact Hs.
    - repeat split. }
  destruct H as (Ho & Hi & Hm).
  assert (Hpos : forall n f, Forall (fun x => (0 < x)%Q) (lastn n (positive_latencies f h))).
  { intros n f. apply List.Forall_forall. intros x Hx. apply In_lastn in Hx.
    pose proof (positive_latencies_pos f h) as Hall.
    rewrite List.Forall_forall in Hall. apply Hall, Hx. }
  split; [cbn; rewrite Ho; reflexivity|].
  split; [intros key; cbn; rewrite Hi; reflexivity|].
  split; [intros key; cbn; rewrite Hm; reflexivity|].
  intros dimension key samples Hs.
  destruct dimension; cbn in Hs; try discriminate; injection Hs as <-.
  - rewrite Ho. split; [apply lastn_length | apply Hpos].
  - rewrite Hi. split; [apply lastn_length | apply Hpos].
  - rewrite Hm. split; [apply lastn_length | apply Hpos].
Qed.

(** ** Latency statistics *)











(** ** Retry statistics *)

Lemma Zsum_dset {V : Type} (g : V -> Z) (dflt : V) (d : dict V) (k : string) (v : V) :
  g dflt = 0 ->
  Zsum (List.map g (dvalues (dset d k v)))
  = Zsum (List.map g (dvalues d)) + g v - g (dget_or dflt d k).
Proof.
  intros Hg. unfold dget_or, dvalues.
  induction d as [|[k' v'] d IH]; cbn [dset dget].
  - cbn. lia.
  - destruct (String.eqb k k').
    + cbn. lia.
    + cbn [List.map snd Zsum fold_right]. fold (Zsum (List.map g (List.map snd (dset d k v)))).
      fold (Zsum (List.map g (List.map snd d))). rewrite IH. lia.
Qed.

Lemma Zsum_dupd {V : Type} (g : V -> Z) (dflt : V) (f : V -> V) (d : dict V) (k : string) :
  g dflt = 0 ->
  Zsum (List.map g (dvalues (dupd dflt f d k)))
  = Zsum (List.map g (dvalues d)) + g (f (dget_or dflt d k)) - g (dget_or dflt d k).
Proof. intros Hg. unfold dupd. apply Zsum_dset, Hg. Qed.

Lemma track_retries_sums t rs :
  Zsum (List.map attempted (dvalues (track_retries t rs)))
  = Zsum (List.map attempted (dvalues rs)) + (if is_retry t then 1 else 0)
  /\ Zsum (List.map succeeded (dvalues (track_retries t rs)))
     = Zsum (List.map succeeded (dvalues rs))
       + (if is_retry t && status_key t then 1 else 0).
Proof.
  unfold track_retries, status_key. destruct (is_retry t); [|cbn [andb]; lia].
  cbn [andb]. set (key := if truthy _ then _ else _).
  destruct (PaymentStatus_eqb (status t) SUCCESS).
  - rewrite !(Zsum_dupd _ RetryStat_zero) by reflexivity.
    rewrite !dget_or_dupd, String.eqb_refl. cbn [attempted succeeded]. lia.
  - rewrite !(Zsum_dupd _ RetryStat_zero) by reflexivity.
    cbn [attempted succeeded]. lia.
Qed.

Lemma length_filter_snoc {A : Type} (f : A -> bool) (h : list A) (x : A) :
  Z.of_nat (length (List.filter f (h ++ [x])))
  = Z.of_nat (length (List.filter f h)) + (if f x then 1 else 0).
Proof.
  rewrite List.filter_app, List.length_app. cbn [List.filter].
  destruct (f x); cbn [length]; lia.
Qed.

Lemma filter_length_le {A : Type} (f : A -> bool) (l : list A) :
  (length (List.filter f l) <= length l)%nat.
Proof.
  induction l as [|x l IH]; simpl; [lia|]. destruct (f x); simpl; lia.
Qed.

Lemma ratio_within_unit (a b : Z) :
  0 <= a <= b -> 0 < b -> (0 <= inject_Z a / inject_Z b <= 1)%Q.
Proof.
  intros Hab Hb.
  assert (Hpos : (0 < inject_Z b)%Q).
  { replace 0%Q with (inject_Z 0) by reflexivity. rewrite <- Zlt_Qlt. exact Hb. }
  split.
  - apply Qle_shift_div_l; [exact Hpos|]. rewrite Qmult_0_l.
    replace 0%Q with (inject_Z 0) by reflexivity. rewrite <- Zle_Qle. lia.
  - apply Qle_shift_div_r; [exact Hpos|]. rewrite Qmult_1_l.
    rewrite <- Zle_Qle. lia.
Qed.

Lemma retry_sums_history window_size_minutes ops :
  let obs := observer_run ops (PaymentObserver_init window_size_minutes) in
  Zsum (List.map attempted (dvalues (retry_stats obs)))
  = Z.of_nat (length (List.filter is_retry (ingested ops)))
  /\ Zsum (List.map succeeded (dvalues (retry_stats obs)))
     = Z.of_nat (length (List.filter status_key (List.filter is_retry (ingested ops)))).
Proof.
  intros obs. subst obs. rewrite <- filter_andb.
  apply (observer_run_ingested
           (fun h self =>
              Zsum (List.map attempted (dvalues (retry_stats self)))
              = Z.of_nat (length (List.filter is_retry h))
              /\ Zsum (List.map succeeded (dvalues (retry_stats self)))
                 = Z.of_nat (length
                     (List.filter (fun t => is_retry t && status_key t) h))))
    with (h := []).
  - intros h now t self [Ha Hs]. rewrite ingest_retry_stats.
    destruct (track_retries_sums t (retry_stats self)) as [-> ->].
    rewrite !length_filter_snoc, Ha, Hs. split; reflexivity.
  - intros h now self Hs. destruct (cleanup_frame now self) as (_ & -> & _). exact Hs.
  - split; reflexivity.
Qed.

(** X7.  After any run of ingestions and evictions on a fresh observer,
    the retry efficiency is 1 when no retry has been ingested and otherwise
    the share of successful ones among all the retries ever ingested,
    evicted or not; it lies between 0 and 1. *)
Theorem X7_retry_efficiency (window_size_minutes : Z) (ops : list ObserverOp) :
  let obs := observer_run ops (PaymentObserver_init window_size_minutes) in
  let retries := List.filter is_retry (ingested ops) in
  let won := List.filter status_key retries in
  get_retry_efficiency obs
  = (if Z.of_nat (length retries) =? 0 then 1
     else inject_Z (Z.of_nat (length won)) / inject_Z (Z.of_nat (length retries)))%Q
  /\ (0 <= get_retry_efficiency obs <= 1)%Q.
Proof.
  intros obs retries won.
  destruct (retry_sums_history window_size_minutes ops) as [Ha Hs].
  fold obs in Ha, Hs. fold retries in Ha, Hs. fold won in Hs.
  assert (Heq : get_retry_efficiency obs
     = (if Z.of_nat (length retries) =? 0 then 1
        else inject_Z (Z.of_nat (length won)) / inject_Z (Z.of_nat (length retries)))%Q).
  { unfold get_retry_efficiency. rewrite Ha, Hs.
    destruct (retry_stats obs) eqn:E; [|reflexivity].
    cbn in Ha. rewrite <- Ha. reflexivity. }
  split; [exact Heq|]. rewrite Heq.
  destruct (Z.eqb_spec (Z.of_nat (length retries)) 0) as [|Hne]; [lra|].
  apply ratio_within_unit; [|lia].
  pose proof (filter_length_le status_key retries). fold won in H. lia.
Qed.

(** ** Error counts *)

Lemma track_errors_codes t codes messages :
  fst (track_errors t codes messages)
  = if PaymentStatus_eqb (status t) FAILED && truthy (error_code t)
    then dupd 0 (Z.add 1) codes
           (match error_code t with Some c => c | None => EmptyString end)
    else codes.
Proof.
  unfold track_errors. destruct (PaymentStatus_eqb (status t) FAILED); [|reflexivity].
  cbn [andb fst]. destruct (error_code t) as [c|]; [|reflexivity].
  destruct (truthy (Some c)); reflexivity.
Qed.

Lemma insert_desc_perm {A : Type} (le : A -> A -> bool) (x : A) (l : list A) :
  Permutation (insert_desc le x l) (x :: l).
Proof.
  induction l as [|y l IH]; simpl; [reflexivity|].
  destruct (le y x); [reflexivity|].
  rewrite IH. apply perm_swap.
Qed.

Lemma sort_desc_perm {A : Type} (le : A -> A -> bool) (l : list A) :
  Permutation (sort_desc le l) l.
Proof.
  induction l as [|x l IH]; simpl; [reflexivity|].
  rewrite insert_desc_perm. constructor. exact IH.
Qed.

Lemma insert_desc_sorted {A : Type} (le : A -> A -> bool) (x : A) (l : list A) :
  (forall a b, le a b = false -> le b a = true) ->
  (forall a b c, le a b = true -> le b c = true -> le a c = true) ->
  StronglySorted (fun a b => le b a = true) l ->
  StronglySorted (fun a b => le b a = true) (insert_desc le x l).
Proof.
  intros Htot Htrans. induction 1 as [|y l Hs IH Hall]; simpl.
  - repeat constructor.
  - destruct (le y x) eqn:E.
    + constructor; [constructor; assumption|].
      constructor; [exact E|].
      eapply List.Forall_impl; [|exact Hall]. intros b Hb. simpl in Hb.
      eapply Htrans; eassumption.
    + constructor; [exact IH|].
      apply List.Forall_forall. intros b Hb. apply In_insert_desc in Hb.
      destruct Hb as [->|Hb]; [apply Htot, E|].
      rewrite List.Forall_forall in Hall. apply Hall, Hb.
Qed.

Lemma sort_desc_sorted {A : Type} (le : A -> A -> bool) (l : list A) :
  (forall a b, le a b = false -> le b a = true) ->
  (forall a b c, le a b = true -> le b c = true -> le a c = true) ->
  StronglySorted (fun a b => le b a = true) (sort_desc le l).
Proof.
  intros Htot Htrans. induction l as [|x l IH]; simpl; [constructor|].
  apply insert_desc_sorted; assumption.
Qed.

Lemma sorted_split {A : Type} (R : A -> A -> Prop) (n : nat) (l : list A) :
  StronglySorted R l ->
  StronglySorted R (firstn n l)
  /\ (forall a b, In a (firstn n l) -> In b (skipn n l) -> R a b).
Proof.
  intros Hs. revert n. induction Hs as [|x l Hs IH Hall]; intros n.
  - rewrite List.firstn_nil. split; [constructor | intros a b []].
  - destruct n as [|n]; cbn [firstn skipn].
    + split; [constructor | intros a b []].
    + destruct (IH n) as [IH1 IH2]. split.
      * constructor; [exact IH1|].
        apply List.Forall_forall. intros b Hb. apply In_firstn in Hb.
        rewrite List.Forall_forall in Hall. apply Hall, Hb.
      * intros a b [<-|Ha] Hb; [|apply IH2; assumption].
        rewrite List.Forall_forall in Hall. apply Hall.
        rewrite <- (List.firstn_skipn n l). apply in_or_app. right. exact Hb.
Qed.

Lemma sorted_by_count (l : list (string * Z)) :
  StronglySorted by_count (sort_desc (fun y x => snd y <=? snd x) l).
Proof.
  eapply StronglySorted_ind
    with (P := fun l => StronglySorted by_count l);
    [constructor | | apply (sort_desc_sorted (fun y x => snd y <=? snd x))].
  - intros a l' _ IH Hall. constructor; [exact IH|].
    eapply List.Forall_impl; [|exact Hall]. intros b Hb. simpl in Hb.
    apply Z.leb_le, Hb.
  - intros a b H. apply Z.leb_gt in H. apply Z.leb_le. lia.
  - intros a b c H1 H2. apply Z.leb_le in H1, H2. apply Z.leb_le. lia.
Qed.

Lemma error_codes_history window_size_minutes ops :
  let obs := observer_run ops (PaymentObserver_init window_size_minutes) in
  (forall code, dget_or 0 (error_codes obs) code
                = if String.eqb code EmptyString then 0
                  else Z.of_nat (length (List.filter (failed_with code) (ingested ops))))
  /\ NoDup (dkeys (error_codes obs))
  /\ Forall (fun kv => fst kv <> EmptyString /\ 1 <= snd kv) (error_codes obs).
Proof.
  intros obs. subst obs.
  apply (observer_run_ingested
           (fun h self =>
              (forall code, dget_or 0 (error_codes self) code
                 = if String.eqb code EmptyString then 0
                   else Z.of_nat (length (List.filter (failed_with code) h)))
              /\ NoDup (dkeys (error_codes self))
              /\ Forall (fun kv => fst kv <> EmptyString /\ 1 <= snd kv)
                   (error_codes self)))
    with (h := []).
  - intros h now t self (Hc & Hnd & Hall).
    rewrite ingest_error_codes, track_errors_codes.
    assert (Hfw : forall code, code <> EmptyString ->
              failed_with code t
              = PaymentStatus_eqb (status t) FAILED && truthy (error_code t)
                && String.eqb
                     (match error_code t with Some c => c | None => EmptyString end)
                     code).
    { intros code Hne. unfold failed_with, truthy.
      destruct (PaymentStatus_eqb (status t) FAILED); [|reflexivity]. cbn [andb].
      destruct (error_code t) as [c|]; [|reflexivity].
      destruct (String.eqb_spec c EmptyString) as [->|Hc']; cbn [negb andb]; [|reflexivity].
      destruct (String.eqb_spec EmptyString code); congruence. }
    destruct (PaymentStatus_eqb (status t) FAILED && truthy (error_code t)) eqn:E.
    + set (c := match error_code t with Some c => c | None => EmptyString end) in *.
      assert (Hcne : c <> EmptyString).
      { apply andb_true_iff in E. destruct E as [_ E]. subst c. unfold truthy in E.
        destruct (error_code t) as [c|]; [|discriminate].
        destruct (String.eqb_spec c EmptyString); [discriminate | assumption]. }
      split; [|split].
      * intros code. rewrite dget_or_dupd, length_filter_snoc.
        destruct (String.eqb_spec code EmptyString) as [->|Hne].
        -- destruct (String.eqb_spec c EmptyString); [congruence|].
           rewrite Hc. reflexivity.
        -- rewrite (Hfw code Hne). cbn [andb].
           destruct (String.eqb c code); rewrite Hc;
             destruct (String.eqb_spec code EmptyString); try congruence; lia.
      * apply dupd_keys_NoDup, Hnd.
      * apply List.Forall_forall. intros x Hx. unfold dupd in Hx.
        apply In_dset in Hx. destruct Hx as [->|Hx].
        -- cbn [fst snd]. split; [exact Hcne|].
           rewrite Hc. destruct (String.eqb c EmptyString); lia.
        -- rewrite List.Forall_forall in Hall. apply Hall, Hx.
    + split; [|split; assumption].
      intros code. rewrite length_filter_snoc, Hc.
      destruct (String.eqb_spec code EmptyString) as [->|Hne]; [reflexivity|].
      rewrite (Hfw code Hne). cbn [andb]. lia.
  - intros h now self Hs. destruct (cleanup_frame now self) as (_ & _ & ->). exact Hs.
  - split; [|split; constructor].
    intros code. cbn. destruct (String.eqb code EmptyString); reflexivity.
Qed.

(** X8.  After any run of ingestions and evictions on a fresh observer,
    the count kept for a non-empty error code is the number of failed
    transactions ever ingested with that code, evicted or not, and the
    empty code is never counted.  [get_top_errors n] returns at most [n]
    entries, largest count first; each has a non-empty code and its count
    in the history, which is at least 1; the entries left out have counts
    no larger than those returned. *)
Theorem X8_top_errors (window_size_minutes : Z) (ops : list ObserverOp) (n : nat) :
  let obs := observer_run ops (PaymentObserver_init window_size_minutes) in
  let seen code := Z.of_nat (length (List.filter (failed_with code) (ingested ops))) in
  (forall code, dget_or 0 (error_codes obs) code
                = if String.eqb code EmptyString then 0 else seen code)
  /\ (length (get_top_errors obs n) <= n)%nat
  /\ StronglySorted by_count (get_top_errors obs n)
  /\ (forall code count, In (code, count) (get_top_errors obs n) ->
        code <> EmptyString /\ count = seen code /\ 1 <= count)
  /\ (exists rest, Permutation (error_codes obs) (get_top_errors obs n ++ rest)
        /\ forall a b, In a (get_top_errors obs n) -> In b rest -> snd b <= snd a).
Proof.
  intros obs seen.
  destruct (error_codes_history window_size_minutes ops) as (Hc & Hnd & Hall).
  fold obs in Hc, Hnd, Hall.
  pose proof (sorted_by_count (error_codes obs)) as Hsorted.
  destruct (sorted_split by_count n _ Hsorted) as [Hs1 Hs2].
  split; [exact Hc|].
  split; [unfold get_top_errors; apply List.firstn_le_length|].
  split; [exact Hs1|]. split.
  - intros code count Hin. unfold get_top_errors in Hin.
    apply In_firstn, In_sort_desc in Hin.
    rewrite List.Forall_forall in Hall. destruct (Hall _ Hin) as [Hne Hge].
    cbn [fst snd] in Hne, Hge. split; [exact Hne|]. split; [|exact Hge].
    pose proof (In_dget _ _ _ Hnd Hin) as Hget.
    specialize (Hc code). unfold dget_or in Hc. rewrite Hget in Hc.
    destruct (String.eqb_spec code EmptyString); [congruence | exact Hc].
  - exists (skipn n (sort_desc (fun y x => snd y <=? snd x) (error_codes obs))).
    split.
    + unfold get_top_errors. rewrite List.firstn_skipn. symmetry. apply sort_desc_perm.
    + intros a b Ha Hb. apply (Hs2 a b Ha Hb).
Qed.

(** ** Reasoner: baselines *)

Lemma update_issuer_baselines_floor items rates :
  (forall i, (0.90 <= dget_or default_rate rates i)%Q) ->
  forall i, (0.90 <= dget_or default_rate (update_issuer_baselines items rates) i)%Q.
Proof.
  revert rates. induction items as [|[issuer health] items IH]; intros rates Hr; [exact Hr|].
  cbn [update_issuer_baselines].
  destruct (Qgeb (h_success_rate health) 0.90 && (20 <=? h_volume health)) eqn:E;
    [|apply IH, Hr].
  apply IH. intros i. unfold dget_or. rewrite dget_dset.
  destruct (String.eqb issuer i); [|apply Hr].
  apply andb_true_iff in E. destruct E as [E _]. apply Qgeb_ge in E.
  pose proof (Hr issuer) as Hc. unfold dget_or in Hc.
  eapply Qle_trans; [|apply ema_rate_floor]; lra.
Qed.

Lemma reasoner_baselines_inv self :
  reasoner_reachable self ->
  method_success_rates (baselines self) = []
  /\ retry_efficiency (baselines self) = retry_efficiency (baselines PaymentReasoner_init)
  /\ (0.90 <= overall_success_rate (baselines self))%Q
  /\ (forall i, (0.90 <= dget_or default_rate
                          (issuer_success_rates (baselines self)) i)%Q).
Proof.
  induction 1 as [|self observer _ (IHm & IHr & IHo & IHi)].
  - split; [reflexivity|]. split; [reflexivity|]. split; [cbn; lra|].
    intros i. cbn. unfold default_rate. lra.
  - cbn [update_baselines baselines method_success_rates retry_efficiency
         overall_success_rate issuer_success_rates].
    split; [exact IHm|]. split; [exact IHr|]. split.
    + destruct (Qgeb (get_success_rate observer D_overall "current") 0.90) eqn:E;
        [|exact IHo].
      apply Qgeb_ge in E. eapply Qle_trans; [|apply ema_rate_floor]; lra.
    + apply update_issuer_baselines_floor, IHi.
Qed.

(** X9.  However often the baselines are updated and whatever the
    observers show, the thresholds stay those of the constructor, the
    method baselines stay empty (the method detector always compares with
    the default 0.95) and the retry baseline stays 0.60; the overall
    baseline and the baseline of every issuer never fall below 0.90, and
    the latency baseline stays positive. *)
Theorem X9_baselines_are_bounded_below (self : PaymentReasoner) :
  reasoner_reachable self ->
  thresholds self = thresholds PaymentReasoner_init
  /\ method_success_rates (baselines self) = []
  /\ (forall method,
        dget_or default_rate (method_success_rates (baselines self)) method
        = default_rate)
  /\ retry_efficiency (baselines self) = 0.60%Q
  /\ (0.90 <= overall_success_rate (baselines self))%Q
  /\ (forall i, (0.90 <= dget_or default_rate
                          (issuer_success_rates (baselines self)) i)%Q)
  /\ (0 < avg_latency (baselines self))%Q.
Proof.
  intros Hr. destruct (reasoner_reachable_inv self Hr) as [Ht Ha].
  destruct (reasoner_baselines_inv self Hr) as (Hm & Hre & Ho & Hi).
  split; [exact Ht|]. split; [exact Hm|]. split; [intros; rewrite Hm; reflexivity|].
  split; [exact Hre|]. split; [exact Ho|]. split; [exact Hi | exact Ha].
Qed.

Lemma X9_witness :
  (0.90 <= overall_success_rate
             (baselines (update_baselines PaymentReasoner_init healthy_observer)))%Q.
Proof.
  refine (proj1 (proj2 (proj2 (proj2 (proj2
    (X9_baselines_are_bounded_below
       (update_baselines PaymentReasoner_init healthy_observer) _)))))).
  apply reasoner_updated, reasoner_fresh.
Defined.

(** ** Reasoner: the patterns of one analysis *)

Lemma Qmin_unit (x : Q) : (0 < x)%Q -> (0 < Qmin x 1.0 <= 1)%Q.
Proof.
  intros Hx. unfold Qmin. destruct (Qleb x 1.0) eqn:E.
  - apply Qleb_le in E. lra.
  - lra.
Qed.

Lemma Qmin_half (x : Q) : (1 # 2 <= x)%Q -> (1 # 2 <= Qmin x 1.0)%Q.
Proof. intros Hx. unfold Qmin. destruct (Qleb x 1.0); lra. Qed.

Lemma analyze_In self observer p :
  In p (analyze self observer)
  <-> In p (_detect_issuer_degradation self observer)
      \/ In p (_detect_retry_storms self observer)
      \/ In p (_detect_method_fatigue self observer)
      \/ In p (_detect_latency_spikes self observer)
      \/ In p (_detect_error_clusters self observer)
      \/ In p (_detect_geographic_issues observer).
Proof.
  unfold analyze. rewrite In_sort_desc, !List.in_app_iff. reflexivity.
Qed.

Lemma sorted_by_severity (l : list Pattern) :
  StronglySorted by_severity (sort_desc (fun y x => Qleb (severity y) (severity x)) l).
Proof.
  eapply StronglySorted_ind
    with (P := fun l => StronglySorted by_severity l);
    [constructor | | apply (sort_desc_sorted (fun y x => Qleb (severity y) (severity x)))].
  - intros a l' _ IH Hall. constructor; [exact IH|].
    eapply List.Forall_impl; [|exact Hall]. intros b Hb. simpl in Hb.
    apply Qleb_le, Hb.
  - intros a b H. apply Qleb_le.
    destruct (Qlt_le_dec (severity a) (severity b)) as [Hlt|Hge]; [|exact Hge].
    apply Qlt_le_weak, Qleb_le in Hlt. congruence.
  - intros a b c H1 H2. apply Qleb_le in H1, H2. apply Qleb_le. lra.
Qed.

(** The severity of a degradation that reached its threshold. *)
Lemma degradation_severity (thr c d : Q) :
  Qleb (1 # 2) (fdiv (fl thr) c) = true -> Qltb 0 (fl c) = true ->
  (fl thr <= d)%Q -> (1 # 2 <= Qmin (fdiv d c) 1.0 <= 1)%Q.
Proof.
  intros Hk Hc Hd. apply Qleb_le in Hk. apply Qltb_lt in Hc.
  pose proof (fdiv_mono_l (fl thr) d c Hc Hd) as Hm.
  split.
  - apply Qmin_half. lra.
  - apply Qmin_unit. lra.
Qed.

Lemma issuer_pattern_shape self i h p :
  thresholds self = thresholds PaymentReasoner_init ->
  In p (issuer_pattern self i h) ->
  pattern_type p = "issuer_degradation" /\ affected_value p = i
  /\ (1 # 2 <= severity p <= 1)%Q
  /\ (exists a b, metric p "current_success_rate" = Some a
                  /\ metric p "degradation" = Some b).
Proof.
  intros Ht. unfold issuer_pattern. rewrite Ht.
  cbn [thresholds PaymentReasoner_init issuer_degradation].
  destruct (_ && _) eqn:E; [|intros []]. intros [<-|[]].
  apply andb_true_iff in E. destruct E as [_ E]. apply Qgeb_ge in E.
  cbn [pattern_type affected_value severity].
  split; [reflexivity|]. split; [reflexivity|]. split.
  - apply (degradation_severity 0.15 0.3); [vm_compute; reflexivity.. | exact E].
  - eexists _, _. split; reflexivity.
Qed.

Lemma method_pattern_shape self m h p :
  thresholds self = thresholds PaymentReasoner_init ->
  In p (method_pattern self m h) ->
  pattern_type p = "method_fatigue" /\ affected_value p = m
  /\ (1 # 2 <= severity p <= 1)%Q.
Proof.
  intros Ht. unfold method_pattern. rewrite Ht.
  cbn [thresholds PaymentReasoner_init method_fatigue].
  destruct (_ && _) eqn:E; [|intros []]. intros [<-|[]].
  apply andb_true_iff in E. destruct E as [_ E]. apply Qgeb_ge in E.
  cbn [pattern_type affected_value severity].
  split; [reflexivity|]. split; [reflexivity|].
  apply (degradation_severity 0.20 0.4); [vm_compute; reflexivity.. | exact E].
Qed.

Lemma region_pattern_shape observer g c p :
  In p (region_pattern observer g c) ->
  pattern_type p = "geographic_issue" /\ affected_value p = g
  /\ (1 # 2 <= severity p <= 1)%Q.
Proof.
  unfold region_pattern. destruct (total c <? 10); [intros []|].
  destruct (Qgeb _ (fl 0.20)) eqn:E; [|intros []]. intros [<-|[]].
  apply Qgeb_ge in E. cbn [pattern_type affected_value severity].
  split; [reflexivity|]. split; [reflexivity|].
  apply (degradation_severity 0.20 0.4); [vm_compute; reflexivity.. | exact E].
Qed.

Lemma retry_storm_shape self observer p :
  thresholds self = thresholds PaymentReasoner_init ->
  In p (_detect_retry_storms self observer) ->
  pattern_type p = "retry_storm" /\ (1 # 2 <= severity p <= 1)%Q
  /\ (exists a b c, metric p "retry_percentage" = Some a
                    /\ metric p "retry_efficiency" = Some b
                    /\ metric p "total_retries" = Some c).
Proof.
  intros Ht. unfold _detect_retry_storms. rewrite Ht.
  cbn [thresholds PaymentReasoner_init retry_storm].
  destruct (_ =? 0); [intros []|].
  destruct (Qgeb _ 0.40) eqn:E; [|intros []]. intros [<-|[]].
  apply Qgeb_ge in E. cbn [pattern_type severity].
  split; [reflexivity|]. split.
  - set (d := (_ / _)%Q) in *. split.
    + apply Qmin_half. apply Qle_shift_div_l; lra.
    + apply Qmin_unit. apply Qlt_shift_div_l; lra.
  - eexists _, _, _. repeat split; reflexivity.
Qed.

Lemma latency_spike_shape self observer p :
  thresholds self = thresholds PaymentReasoner_init ->
  (0 < avg_latency (baselines self))%Q ->
  In p (_detect_latency_spikes self observer) ->
  pattern_type p = "latency_spike" /\ (1 # 4 < severity p <= 1)%Q
  /\ (exists a, metric p "spike_factor" = Some a).
Proof.
  intros Ht Hb. unfold _detect_latency_spikes. rewrite Ht.
  cbn [thresholds PaymentReasoner_init latency_spike].
  destruct (Qgtb _ _) eqn:E; [|intros []]. intros [<-|[]].
  apply Qgtb_gt in E. cbn [pattern_type severity].
  split; [reflexivity|]. split; [|eexists; reflexivity].
  set (b := avg_latency (baselines self)) in *.
  set (x := p95 (overall_latency_stats observer)) in *.
  assert (Hsf : (1.5 < x / b)%Q) by (apply Qlt_shift_div_l; lra).
  set (sf := (x / b)%Q) in *.
  assert (Hq : (1 # 4 < (sf - 1.0) / 2.0)%Q) by (apply Qlt_shift_div_l; lra).
  split.
  - unfold Qmin. destruct (Qleb _ 1.0); lra.
  - apply Qmin_unit. lra.
Qed.

Lemma error_pattern_shape self observer code count p :
  thresholds self = thresholds PaymentReasoner_init ->
  In p (error_pattern self observer code count) ->
  pattern_type p = "error_cluster" /\ affected_value p = code
  /\ 10 <= count /\ (0 < severity p <= 1)%Q.
Proof.
  intros Ht. unfold error_pattern. rewrite Ht.
  cbn [thresholds PaymentReasoner_init error_cluster].
  destruct (Z.leb_spec 10 count) as [Hc|Hc]; [|intros []]. intros [<-|[]].
  cbn [pattern_type affected_value severity].
  split; [reflexivity|]. split; [reflexivity|]. split; [exact Hc|].
  apply Qmin_unit.
  set (total := get_transaction_volume observer D_overall "current").
  assert (Hpos : (0 < inject_Z (Z.max total 1))%Q).
  { replace 0%Q with (inject_Z 0) by reflexivity. rewrite <- Zlt_Qlt. lia. }
  assert (Hcount : (0 < inject_Z count)%Q).
  { replace 0%Q with (inject_Z 0) by reflexivity. rewrite <- Zlt_Qlt. lia. }
  apply Qlt_shift_div_l; [lra|]. rewrite Qmult_0_l.
  apply Qlt_shift_div_l; [exact Hpos|]. rewrite Qmult_0_l. exact Hcount.
Qed.

Lemma analyze_shape self observer p :
  thresholds self = thresholds PaymentReasoner_init ->
  (0 < avg_latency (baselines self))%Q ->
  In p (analyze self observer) ->
  In (pattern_type p) known_pattern_types
  /\ (0 < severity p <= 1)%Q
  /\ (pattern_type p = "issuer_degradation" ->
      exists a b, metric p "current_success_rate" = Some a
                  /\ metric p "degradation" = Some b)
  /\ (pattern_type p = "retry_storm" ->
      exists a b c, metric p "retry_percentage" = Some a
                    /\ metric p "retry_efficiency" = Some b
                    /\ metric p "total_retries" = Some c)
  /\ (pattern_type p = "latency_spike" ->
      exists a, metric p "spike_factor" = Some a).
Proof.
  intros Ht Hb Hin. apply analyze_In in Hin.
  destruct Hin as [Hin|[Hin|[Hin|[Hin|[Hin|Hin]]]]].
  - unfold _detect_issuer_degradation in Hin. apply in_flat_map in Hin.
    destruct Hin as ([i h] & _ & Hp).
    destruct (issuer_pattern_shape self i h p Ht Hp) as (Hty & _ & Hs & Hm).
    rewrite Hty. split; [cbn; tauto|]. split; [lra|].
    split; [intros _; exact Hm|]. split; discriminate.
  - destruct (retry_storm_shape self observer p Ht Hin) as (Hty & Hs & Hm).
    rewrite Hty. split; [cbn; tauto|]. split; [lra|].
    split; [discriminate|]. split; [intros _; exact Hm | discriminate].
  - unfold _detect_method_fatigue in Hin. apply in_flat_map in Hin.
    destruct Hin as ([m h] & _ & Hp).
    destruct (method_pattern_shape self m h p Ht Hp) as (Hty & _ & Hs).
    rewrite Hty. split; [cbn; tauto|]. split; [lra|].
    split; [discriminate|]. split; discriminate.
  - destruct (latency_spike_shape self observer p Ht Hb Hin) as (Hty & Hs & Hm).
    rewrite Hty. split; [cbn; tauto|]. split; [lra|].
    split; [discriminate|]. split; [discriminate | intros _; exact Hm].
  - unfold _detect_error_clusters in Hin. apply in_flat_map in Hin.
    destruct Hin as ([code count] & _ & Hp).
    destruct (error_pattern_shape self observer code count p Ht Hp) as (Hty & _ & _ & Hs).
    rewrite Hty. split; [cbn; tauto|]. split; [exact Hs|].
    split; [discriminate|]. split; discriminate.
  - unfold _detect_geographic_issues in Hin. apply in_flat_map in Hin.
    destruct Hin as ([g c] & _ & Hp).
    destruct (region_pattern_shape observer g c p Hp) as (Hty & _ & Hs).
    rewrite Hty. split; [cbn; tauto|]. split; [lra|].
    split; [discriminate|]. split; discriminate.
Qed.

(** X10.  For a reasoner reached by baseline updates and any observer,
    [analyze] returns the patterns of the six detectors, rearranged so that
    severities do not increase along the list; every pattern has one of
    the six known types and a severity above 0 and at most 1. *)
Theorem X10_analyze_sorted_and_bounded (self : PaymentReasoner)
    (observer : PaymentObserver) :
  reasoner_reachable self ->
  StronglySorted by_severity (analyze self observer)
  /\ Permutation (analyze self observer)
       (_detect_issuer_degradation self observer
        ++ _detect_retry_storms self observer
        ++ _detect_method_fatigue self observer
        ++ _detect_latency_spikes self observer
        ++ _detect_error_clusters self observer
        ++ _detect_geographic_issues observer)
  /\ (forall p, In p (analyze self observer) ->
        In (pattern_type p) known_pattern_types /\ (0 < severity p <= 1)%Q).
Proof.
  intros Hr. destruct (reasoner_reachable_inv self Hr) as [Ht Hb].
  split; [apply sorted_by_severity|]. split; [apply sort_desc_perm|].
  intros p Hp. destruct (analyze_shape self observer p Ht Hb Hp) as (H1 & H2 & _).
  split; assumption.
Qed.

Lemma X10_witness :
  List.map pattern_type (analyze PaymentReasoner_init troubled_observer)
  = ["issuer_degradation"; "method_fatigue"]
  /\ StronglySorted by_severity (analyze PaymentReasoner_init troubled_observer).
Proof.
  split; [vm_compute; reflexivity|].
  exact (proj1 (X10_analyze_sorted_and_bounded PaymentReasoner_init troubled_observer
                  reasoner_fresh)).
Defined.

(** ** Reasoner: what each detector reports *)

Lemma reads_entry self dimension key c :
  stats_wf (stats self) ->
  In (key, c) (stats_dim (stats self) dimension) ->
  dget_or Counter_zero (stats_dim (stats self) dimension) key = c.
Proof.
  intros Hwf Hin. unfold dget_or.
  rewrite (In_dget _ _ _ (Hwf dimension) Hin). reflexivity.
Qed.

Lemma entry_of_volume self dimension key :
  get_transaction_volume self dimension key <> 0 ->
  exists c, In (key, c) (stats_dim (stats self) dimension)
            /\ dget_or Counter_zero (stats_dim (stats self) dimension) key = c.
Proof.
  unfold get_transaction_volume, dget_or. intros Hv.
  destruct (dget (stats_dim (stats self) dimension) key) as [c|] eqn:E.
  - exists c. split; [apply dget_In, E | reflexivity].
  - cbn in Hv. congruence.
Qed.

Lemma rate_of_entry self dimension key c :
  dget_or Counter_zero (stats_dim (stats self) dimension) key = c ->
  total c <> 0 ->
  get_success_rate self dimension key = (inject_Z (success c) / inject_Z (total c))%Q
  /\ get_transaction_volume self dimension key = total c.
Proof.
  intros Hc Hne. unfold get_success_rate, get_transaction_volume. rewrite Hc.
  destruct (Z.eqb_spec (total c) 0); [contradiction|]. split; reflexivity.
Qed.

(** X11.  Whatever the learnt baselines are, an issuer with at least 10
    transactions in the window and a success rate of at most 0.75 is
    reported by [analyze] as an issuer degradation of severity at least
    one half. *)
Theorem X11_degraded_issuer_is_reported
    (window_size_minutes : Z) (ops : list ObserverOp) (r : PaymentReasoner)
    (i : string) :
  let obs := observer_run ops (PaymentObserver_init window_size_minutes) in
  reasoner_reachable r ->
  10 <= get_transaction_volume obs D_by_issuer i ->
  (get_success_rate obs D_by_issuer i <= 0.75)%Q ->
  exists p, In p (analyze r obs)
            /\ pattern_type p = "issuer_degradation"
            /\ affected_value p = i
            /\ (1 # 2 <= severity p <= 1)%Q.
Proof.
  intros obs Hr Hv Hrate.
  destruct (observer_run_inv ops _ (init_inv window_size_minutes)) as [_ Hwf].
  fold obs in Hwf.
  destruct (reasoner_reachable_inv r Hr) as [Ht _].
  destruct (reasoner_baselines_inv r Hr) as (_ & _ & _ & Hi).
  destruct (entry_of_volume obs D_by_issuer i) as (c & Hin & Hc); [lia|].
  assert (Hne : total c <> 0).
  { unfold get_transaction_volume in Hv. rewrite Hc in Hv. lia. }
  cbn [stats_dim] in Hin.
  assert (Hget : dget (by_issuer (stats obs)) i = Some c)
    by (apply In_dget; [apply (Hwf D_by_issuer) | exact Hin]).
  destruct (health_record_view obs i c Hget Hne) as [Hhr Hhv].
  set (h := health_record (ring_by_issuer (latencies obs)) i c) in *.
  assert (Hp : In (issuer_pattern_of r i h) (issuer_pattern r i h)).
  { apply (issuer_pattern_In r i h _ Ht). split; [|reflexivity].
    rewrite Hhv, Hhr. split; [exact Hv|]. specialize (Hi i).
    assert (HK : (fl 0.15 <= fsub 0.90 0.75)%Q)
      by (apply Qleb_le; vm_compute; reflexivity).
    eapply Qle_trans; [exact HK|]. apply fsub_mono; assumption. }
  exists (issuer_pattern_of r i h).
  destruct (issuer_pattern_shape r i h _ Ht Hp) as (Hty & Hav & Hs & _).
  split; [|auto].
  apply analyze_In. left.
  apply (detect_issuer_In r obs _ (Hwf D_by_issuer)). exists i, c. auto.
Qed.

Lemma X11_witness :
  exists p, In p (analyze PaymentReasoner_init
                    (observer_run ten_failures (PaymentObserver_init 10)))
            /\ pattern_type p = "issuer_degradation"
            /\ affected_value p = "HDFC"
            /\ (1 # 2 <= severity p <= 1)%Q.
Proof.
  apply (X11_degraded_issuer_is_reported 10 ten_failures PaymentReasoner_init "HDFC").
  - apply reasoner_fresh.
  - vm_compute. intros H. discriminate H.
  - vm_compute. intros H. discriminate H.
Defined.

Lemma method_record_view obs m c :
  dget (by_method (stats obs)) m = Some c -> total c <> 0 ->
  h_success_rate (health_record (ring_by_method (latencies obs)) m c)
  = get_success_rate obs D_by_method m
  /\ h_volume (health_record (ring_by_method (latencies obs)) m c)
     = get_transaction_volume obs D_by_method m.
Proof.
  intros Hget Hne. unfold get_success_rate, get_transaction_volume, dget_or.
  cbn [stats_dim]. rewrite Hget.
  destruct (Z.eqb_spec (total c) 0); [contradiction|]. split; reflexivity.
Qed.

Lemma detect_method_In r obs p :
  NoDup (dkeys (by_method (stats obs))) ->
  In p (_detect_method_fatigue r obs)
  <-> exists k c,
        In (k, c) (by_method (stats obs)) /\ total c <> 0
        /\ In p (method_pattern r k (health_record (ring_by_method (latencies obs)) k c)).
Proof.
  intros Hnd. unfold _detect_method_fatigue, get_method_performance.
  rewrite health_loop_spec by (auto; reflexivity).
  cbn [app]. rewrite in_flat_map. split.
  - intros ([k h] & Hin & Hp). apply In_health_entries in Hin.
    destruct Hin as (c & Hin & Hne & ->). exists k, c. auto.
  - intros (k & c & Hin & Hne & Hp).
    exists (k, health_record (ring_by_method (latencies obs)) k c).
    split; [|exact Hp]. apply In_health_entries. exists c. auto.
Qed.

(** X12.  For an observer reached by ingestions and evictions and a
    reasoner reached by baseline updates, a method-fatigue pattern is
    reported for a payment method exactly when the method has at least 20
    transactions in the window and its degradation is at least the double
    0.20; the degradation is the default baseline 0.95 minus the success
    rate of the method, as the code computes it in double precision (the
    method baselines are never learnt); the severity is
    [min (degradation / 0.4) 1], the quotient in double precision.  So a
    method with 20 transactions and a success rate of at most 0.7499 is
    reported, and a method with a success rate of 0.75 or more is not: the
    double nearest to 0.95 minus 0.75 is 0.19999999999999996. *)
Theorem X12_method_fatigue
    (window_size_minutes : Z) (ops : list ObserverOp) (r : PaymentReasoner)
    (m : string) :
  let obs := observer_run ops (PaymentObserver_init window_size_minutes) in
  let volume := get_transaction_volume obs D_by_method m in
  let rate := get_success_rate obs D_by_method m in
  let degradation := fsub default_rate rate in
  reasoner_reachable r ->
  ((exists p, In p (_detect_method_fatigue r obs) /\ affected_value p = m)
   <-> 20 <= volume /\ (fl 0.20 <= degradation)%Q)
  /\ (forall p, In p (_detect_method_fatigue r obs) -> affected_value p = m ->
        pattern_type p = "method_fatigue"
        /\ severity p = Qmin (fdiv degradation 0.4) 1.0)
  /\ (20 <= volume -> (rate <= 0.7499)%Q ->
      exists p, In p (_detect_method_fatigue r obs) /\ affected_value p = m)
  /\ ((0.75 <= rate)%Q ->
      forall p, In p (_detect_method_fatigue r obs) -> affected_value p <> m).
Proof.
  intros obs volume rate degradation Hr.
  destruct (observer_run_inv ops _ (init_inv window_size_minutes)) as [_ Hwf].
  fold obs in Hwf.
  destruct (reasoner_reachable_inv r Hr) as [Ht _].
  destruct (reasoner_baselines_inv r Hr) as (Hm & _).
  pose proof (Hwf D_by_method) as Hnd. cbn [stats_dim] in Hnd.
  assert (Hpat : forall k h p,
            In p (method_pattern r k h)
            <-> (20 <= h_volume h
                 /\ (fl 0.20 <= fsub default_rate (h_success_rate h))%Q)
                /\ p = {| pattern_type := "method_fatigue";
                          severity :=
                            Qmin (fdiv (fsub default_rate (h_success_rate h)) 0.4) 1.0;
                          affected_dimension := "payment_method";
                          affected_value := k;
                          metrics := [ ("current_success_rate", h_success_rate h);
                                       ("baseline_success_rate", default_rate);
                                       ("degradation",
                                        fsub default_rate (h_success_rate h));
                                       ("volume", inject_Z (h_volume h)) ] |}).
  { intros k h p. unfold method_pattern. rewrite Ht, Hm.
    cbn [thresholds PaymentReasoner_init method_fatigue].
    change (dget_or default_rate [] k) with default_rate.
    destruct (Z.leb_spec 20 (h_volume h)) as [Hv|Hv]; cbn [andb].
    - destruct (Qgeb _ (fl 0.20)) eqn:E.
      + apply Qgeb_ge in E. split.
        * intros [<-|[]]. split; [split; assumption | reflexivity].
        * intros [_ ->]. left. reflexivity.
      + split; [intros [] | intros [[_ Hd] _]].
        apply Qgeb_ge in Hd. congruence.
    - split; [intros [] | intros [[Hv' _] _]; lia]. }
  assert (Hemit : forall p, In p (_detect_method_fatigue r obs) ->
            affected_value p = m ->
            (20 <= volume /\ (fl 0.20 <= degradation)%Q)
            /\ pattern_type p = "method_fatigue"
            /\ severity p = Qmin (fdiv degradation 0.4) 1.0).
  { intros p Hp Hav. apply (detect_method_In r obs p Hnd) in Hp.
    destruct Hp as (k & c & Hin & Hne & Hp).
    apply Hpat in Hp. destruct Hp as [[Hv Hd] ->].
    cbn [affected_value] in Hav. subst k.
    apply (In_dget _ _ _ Hnd) in Hin.
    destruct (method_record_view obs m c Hin Hne) as [Hrate Hvol].
    rewrite Hvol in Hv. rewrite Hrate in Hd.
    split; [split; assumption|]. split; [reflexivity|].
    cbn [severity]. rewrite Hrate. reflexivity. }
  assert (Hback : 20 <= volume -> (fl 0.20 <= degradation)%Q ->
            exists p, In p (_detect_method_fatigue r obs) /\ affected_value p = m).
  { intros Hv Hd.
    destruct (entry_of_volume obs D_by_method m) as (c & Hin & Hc); [fold volume; lia|].
    assert (Hne : total c <> 0).
    { subst volume. unfold get_transaction_volume in Hv. rewrite Hc in Hv. lia. }
    cbn [stats_dim] in Hin.
    pose proof (In_dget _ _ _ Hnd Hin) as Hget.
    destruct (method_record_view obs m c Hget Hne) as [Hrate Hvol].
    eexists. split.
    - apply (detect_method_In r obs _ Hnd). exists m, c.
      split; [exact Hin|]. split; [exact Hne|].
      apply Hpat. split; [|reflexivity]. rewrite Hvol, Hrate. split; assumption.
    - reflexivity. }
  split; [|split; [|split]].
  - split.
    + intros (p & Hp & Hav). apply (Hemit p Hp Hav).
    + intros [Hv Hd]. apply Hback; assumption.
  - intros p Hp Hav. apply (Hemit p Hp Hav).
  - intros Hv Hrate. apply Hback; [exact Hv|].
    assert (HK : (fl 0.20 <= fsub default_rate 0.7499)%Q)
      by (apply Qleb_le; vm_compute; reflexivity).
    eapply Qle_trans; [exact HK|]. apply fsub_mono; [apply Qle_refl | exact Hrate].
  - intros Hrate p Hp Hav. destruct (Hemit p Hp Hav) as [[_ Hd] _].
    assert (HK : (fsub default_rate 0.75 < fl 0.20)%Q)
      by (apply Qltb_lt; vm_compute; reflexivity).
    pose proof (fsub_mono default_rate default_rate _ 0.75 (Qle_refl _) Hrate) as Hmono.
    apply (Qlt_not_le _ _ HK). eapply Qle_trans; [exact Hd | exact Hmono].
Qed.

Lemma X12_witness :
  exists p, In p (_detect_method_fatigue PaymentReasoner_init troubled_observer)
            /\ affected_value p = "upi".
Proof.
  apply (proj1 (X12_method_fatigue 10
                  (List.map (fun st => OpIngest 0
                               (sample_transaction "t" 0 "ICICI" st None 100 false))
                     (repeat SUCCESS 12 ++ repeat FAILED 8))
                  PaymentReasoner_init "upi" reasoner_fresh)).
  split.
  - vm_compute. intros H. discriminate H.
  - vm_compute. intros H. discriminate H.
Defined.

(** X13.  For an observer reached by ingestions and evictions, a
    geographic issue is reported for a region exactly when the region has
    at least 10 transactions in the window and its gap is at least the
    double 0.20; the gap is the overall success rate minus the success
    rate of the region, as the code computes it in double precision; the
    severity is [min (gap / 0.4) 1], the quotient in double precision. *)
Theorem X13_geographic_issues
    (window_size_minutes : Z) (ops : list ObserverOp) (g : string) :
  let obs := observer_run ops (PaymentObserver_init window_size_minutes) in
  let volume := get_transaction_volume obs D_by_region g in
  let gap := fsub (get_success_rate obs D_overall "current")
                  (get_success_rate obs D_by_region g) in
  ((exists p, In p (_detect_geographic_issues obs) /\ affected_value p = g)
   <-> 10 <= volume /\ (fl 0.20 <= gap)%Q)
  /\ (forall p, In p (_detect_geographic_issues obs) -> affected_value p = g ->
        pattern_type p = "geographic_issue"
        /\ severity p = Qmin (fdiv gap 0.4) 1.0).
Proof.
  intros obs volume gap.
  destruct (observer_run_inv ops _ (init_inv window_size_minutes)) as [_ Hwf].
  fold obs in Hwf.
  assert (Hpat : forall c p,
            dget_or Counter_zero (stats_dim (stats obs) D_by_region) g = c ->
            In p (region_pattern obs g c)
            <-> (10 <= volume /\ (fl 0.20 <= gap)%Q)
                /\ pattern_type p = "geographic_issue" /\ affected_value p = g
                /\ severity p = Qmin (fdiv gap 0.4) 1.0
                /\ p = {| pattern_type := "geographic_issue";
                          severity := Qmin (fdiv gap 0.4) 1.0;
                          affected_dimension := "region";
                          affected_value := g;
                          metrics :=
                            [ ("region_success_rate", get_success_rate obs D_by_region g);
                              ("overall_success_rate",
                               get_success_rate obs D_overall "current");
                              ("degradation", gap);
                              ("volume", inject_Z volume) ] |}).
  { intros c p Hc. unfold region_pattern.
    assert (Hvol : volume = total c)
      by (subst volume; unfold get_transaction_volume; rewrite Hc; reflexivity).
    destruct (Z.ltb_spec (total c) 10) as [Hlt|Hge].
    - split; [intros [] | intros [[Hv _] _]; lia].
    - assert (Hne : total c <> 0) by lia.
      destruct (rate_of_entry obs D_by_region g c Hc Hne) as [Hrate _].
      destruct (Z.ltb_spec 0 (total c)) as [_|Hle]; [|lia].
      rewrite <- Hrate, <- Hvol. fold gap.
      destruct (Qgeb gap (fl 0.20)) eqn:E.
      + apply Qgeb_ge in E. split.
        * intros [<-|[]]. cbn [pattern_type affected_value severity].
          split; [split; [lia | exact E]|]. repeat split; reflexivity.
        * intros (_ & _ & _ & _ & ->). left. reflexivity.
      + split; [intros [] | intros [[_ Hd] _]].
        apply Qgeb_ge in Hd. congruence. }
  assert (Hemit : forall p, In p (_detect_geographic_issues obs) ->
            affected_value p = g ->
            (10 <= volume /\ (fl 0.20 <= gap)%Q)
            /\ pattern_type p = "geographic_issue"
            /\ severity p = Qmin (fdiv gap 0.4) 1.0).
  { intros p Hp Hav. unfold _detect_geographic_issues in Hp.
    apply in_flat_map in Hp. destruct Hp as ([k c] & Hin & Hp). cbn [fst snd] in Hp.
    destruct (region_pattern_shape obs k c p Hp) as (_ & Hk & _).
    rewrite Hav in Hk. subst k.
    apply (Hpat c p (reads_entry obs D_by_region g c Hwf Hin)) in Hp. tauto. }
  split.
  - split.
    + intros (p & Hp & Hav). apply (Hemit p Hp Hav).
    + intros [Hv Hd].
      destruct (entry_of_volume obs D_by_region g) as (c & Hin & Hc); [fold volume; lia|].
      eexists. split.
      * unfold _detect_geographic_issues. apply in_flat_map.
        exists (g, c). split; [exact Hin|]. cbn [fst snd].
        apply (Hpat c _ Hc). split; [split; assumption|].
        refine (conj _ (conj _ (conj _ eq_refl))); reflexivity.
      * reflexivity.
  - intros p Hp Hav. apply (Hemit p Hp Hav).
Qed.

(** ** Reasoner: retry storms and error clusters *)

Lemma overall_volume_is_window_length self :
  observer_inv self ->
  get_transaction_volume self D_overall "current"
  = Z.of_nat (length (transactions_window self)).
Proof.
  intros [Hag _]. unfold get_transaction_volume.
  specialize (Hag D_overall "current"). unfold reads in Hag. rewrite Hag.
  cbn [tally total]. rewrite filter_all_true; [reflexivity|].
  apply List.Forall_forall. intros t _. reflexivity.
Qed.

Lemma ratio_at_least_two_fifths (a b : Z) :
  0 < b -> (0.40 <= inject_Z a / inject_Z b)%Q <-> 2 * b <= 5 * a.
Proof.
  intros Hb.
  assert (Hpos : (0 < inject_Z b)%Q).
  { replace 0%Q with (inject_Z 0) by reflexivity. rewrite <- Zlt_Qlt. exact Hb. }
  assert (Hiff : (0.40 * inject_Z b <= inject_Z a)%Q <-> 2 * b <= 5 * a).
  { unfold Qle, Qmult, inject_Z. cbn [Qnum Qden]. lia. }
  rewrite <- Hiff. split.
  - intros H. apply (Qmult_le_compat_r _ _ (inject_Z b)) in H; [|lra].
    unfold Qdiv in H. rewrite <- Qmult_assoc, (Qmult_comm (/ inject_Z b)) in H.
    rewrite Qmult_inv_r, Qmult_1_r in H; [exact H | lra].
  - intros H. apply Qle_shift_div_l; assumption.
Qed.

(** X14.  For an observer reached by ingestions and evictions and a
    reasoner reached by baseline updates, the retry-storm detector reports
    at most one pattern; it reports one exactly when the window is not
    empty and at least two fifths of its transactions are retries; the
    severity is min(share / 0.6, 1), and the efficiency metric is the
    observer's cumulative retry efficiency. *)
Theorem X14_retry_storm
    (window_size_minutes : Z) (ops : list ObserverOp) (r : PaymentReasoner) :
  let obs := observer_run ops (PaymentObserver_init window_size_minutes) in
  let window := transactions_window obs in
  let retries := List.filter is_retry window in
  reasoner_reachable r ->
  (length (_detect_retry_storms r obs) <= 1)%nat
  /\ (_detect_retry_storms r obs <> []
      <-> window <> []
          /\ 2 * Z.of_nat (length window) <= 5 * Z.of_nat (length retries))
  /\ (forall p, In p (_detect_retry_storms r obs) ->
        pattern_type p = "retry_storm"
        /\ severity p
           = Qmin (inject_Z (Z.of_nat (length retries))
                   / inject_Z (Z.of_nat (length window)) / 0.6) 1.0
        /\ metric p "retry_efficiency" = Some (get_retry_efficiency obs)).
Proof.
  intros obs window retries Hr.
  pose proof (observer_run_inv ops _ (init_inv window_size_minutes)) as Hinv.
  fold obs in Hinv.
  destruct (reasoner_reachable_inv r Hr) as [Ht _].
  unfold _detect_retry_storms. rewrite Ht, (overall_volume_is_window_length obs Hinv).
  cbn [thresholds PaymentReasoner_init retry_storm]. fold window. fold retries.
  destruct (Z.eqb_spec (Z.of_nat (length window)) 0) as [Hz|Hnz].
  - split; [cbn; lia|]. split; [|intros p []].
    split; [congruence|]. intros [Hne _]. destruct window; [congruence | cbn in Hz; lia].
  - assert (Hpos : 0 < Z.of_nat (length window)) by lia.
    assert (Hwne : window <> []) by (intros E; rewrite E in Hnz; cbn in Hnz; lia).
    destruct (Qgeb _ 0.40) eqn:E.
    + apply Qgeb_ge, ratio_at_least_two_fifths in E; [|exact Hpos].
      split; [cbn; lia|]. split.
      * split; [intros _; split; assumption | discriminate].
      * intros p [<-|[]]. repeat split; reflexivity.
    + split; [cbn; lia|]. split; [|intros p []].
      split; [congruence|]. intros [_ H].
      apply ratio_at_least_two_fifths, Qgeb_ge in H; [congruence | exact Hpos].
Qed.

Lemma X14_witness :
  _detect_retry_storms PaymentReasoner_init
    (observer_run retried_payments (PaymentObserver_init 10)) <> [].
Proof.
  apply (proj1 (proj2 (X14_retry_storm 10 retried_payments PaymentReasoner_init
                          reasoner_fresh))).
  split.
  - vm_compute. intros H. discriminate H.
  - vm_compute. intros H. discriminate H.
Defined.

Lemma flat_map_length_le {A B : Type} (f : A -> list B) (l : list A) :
  (forall x, (length (f x) <= 1)%nat) ->
  (length (flat_map f l) <= length l)%nat.
Proof.
  intros Hf. induction l as [|x l IH]; cbn [flat_map length]; [lia|].
  rewrite List.length_app. specialize (Hf x). lia.
Qed.

(** X15.  For an observer reached by ingestions and evictions and a
    reasoner reached by baseline updates, the error-cluster detector
    reports at most five patterns; each is for a non-empty error code
    among the top five whose number of failures ever ingested, evicted or
    not, is at least 10, and a code among the top five with at least 10
    such failures is reported.  The severity is
    min(count / max(window length, 1) / 0.1, 1), which is 1 as soon as the
    window holds at most ten times as many transactions as the count, in
    particular when it is empty. *)
Theorem X15_error_clusters
    (window_size_minutes : Z) (ops : list ObserverOp) (r : PaymentReasoner) :
  let obs := observer_run ops (PaymentObserver_init window_size_minutes) in
  let seen code := Z.of_nat (length (List.filter (failed_with code) (ingested ops))) in
  let n := Z.of_nat (length (transactions_window obs)) in
  reasoner_reachable r ->
  (length (_detect_error_clusters r obs) <= 5)%nat
  /\ (forall p, In p (_detect_error_clusters r obs) ->
        pattern_type p = "error_cluster"
        /\ affected_value p <> EmptyString
        /\ 10 <= seen (affected_value p)
        /\ In (affected_value p, seen (affected_value p)) (get_top_errors obs 5)
        /\ severity p
           = Qmin (inject_Z (seen (affected_value p)) / inject_Z (Z.max n 1) / 0.1) 1.0
        /\ (n <= 10 * seen (affected_value p) -> (severity p == 1)%Q))
  /\ (forall code, In (code, seen code) (get_top_errors obs 5) -> 10 <= seen code ->
        exists p, In p (_detect_error_clusters r obs) /\ affected_value p = code).
Proof.
  intros obs seen n Hr.
  pose proof (observer_run_inv ops _ (init_inv window_size_minutes)) as Hinv.
  fold obs in Hinv.
  destruct (reasoner_reachable_inv r Hr) as [Ht _].
  destruct (error_codes_history window_size_minutes ops) as (Hc & Hnd & Hall).
  fold obs in Hc, Hnd, Hall.
  assert (Htop : forall code count, In (code, count) (get_top_errors obs 5) ->
            code <> EmptyString /\ count = seen code).
  { intros code count Hin. unfold get_top_errors in Hin.
    apply In_firstn, In_sort_desc in Hin.
    rewrite List.Forall_forall in Hall. destruct (Hall _ Hin) as [Hne _].
    cbn [fst] in Hne. split; [exact Hne|].
    pose proof (In_dget _ _ _ Hnd Hin) as Hget.
    specialize (Hc code). unfold dget_or in Hc. rewrite Hget in Hc.
    destruct (String.eqb_spec code EmptyString); [congruence | exact Hc]. }
  assert (Hpat : forall code count p,
            In p (error_pattern r obs code count)
            <-> 10 <= count
                /\ p = {| pattern_type := "error_cluster";
                          severity :=
                            Qmin (inject_Z count / inject_Z (Z.max n 1) / 0.1) 1.0;
                          affected_dimension := "error_code";
                          affected_value := code;
                          metrics :=
                            [ ("error_count", inject_Z count);
                              ("total_transactions", inject_Z n);
                              ("error_rate",
                               (inject_Z count / inject_Z (Z.max n 1))%Q) ] |}).
  { intros code count p. unfold error_pattern.
    rewrite Ht, (overall_volume_is_window_length obs Hinv).
    cbn [thresholds PaymentReasoner_init error_cluster]. fold n.
    destruct (Z.leb_spec 10 count) as [Hge|Hlt].
    - split; [intros [<-|[]]; split; [exact Hge | reflexivity]
             | intros [_ ->]; left; reflexivity].
    - split; [intros [] | intros [Hge _]; lia]. }
  split; [|split].
  - unfold _detect_error_clusters.
    etransitivity; [apply flat_map_length_le|].
    + intros [code count]. cbn [fst snd]. unfold error_pattern.
      destruct (_ <=? _); cbn; lia.
    + unfold get_top_errors. apply List.firstn_le_length.
  - intros p Hp. unfold _detect_error_clusters in Hp. apply in_flat_map in Hp.
    destruct Hp as ([code count] & Hin & Hp). cbn [fst snd] in Hp.
    apply Hpat in Hp. destruct Hp as [Hge ->].
    destruct (Htop code count Hin) as [Hne Hcount].
    cbn [pattern_type affected_value severity]. rewrite <- Hcount.
    split; [reflexivity|]. split; [exact Hne|]. split; [exact Hge|].
    split; [exact Hin|]. split; [reflexivity|].
    intros Hn.
    assert (Hpos : (0 < inject_Z (Z.max n 1))%Q).
    { replace 0%Q with (inject_Z 0) by reflexivity. rewrite <- Zlt_Qlt. lia. }
    assert (Hrate : (0.1 <= inject_Z count / inject_Z (Z.max n 1))%Q).
    { apply Qle_shift_div_l; [exact Hpos|].
      unfold Qle, Qmult, inject_Z. cbn [Qnum Qden]. lia. }
    set (rate := (inject_Z count / inject_Z (Z.max n 1))%Q) in *.
    assert (Hone : (1 <= rate / 0.1)%Q) by (apply Qle_shift_div_l; lra).
    unfold Qmin. destruct (Qleb (rate / 0.1) 1.0) eqn:E; [|reflexivity].
    apply Qleb_le in E. lra.
  - intros code Hin Hge. eexists. split.
    + unfold _detect_error_clusters. apply in_flat_map.
      exists (code, seen code). split; [exact Hin|]. cbn [fst snd].
      apply Hpat. split; [exact Hge | reflexivity].
    + reflexivity.
Qed.

Lemma X15_witness :
  (length (_detect_error_clusters PaymentReasoner_init
             (observer_run ten_failures (PaymentObserver_init 10))) <= 5)%nat.
Proof.
  exact (proj1 (X15_error_clusters 10 ten_failures PaymentReasoner_init reasoner_fresh)).
Defined.

(** ** Reasoner: hypotheses *)

Lemma generated_hypotheses_cases (pattern : Pattern) (hs : list PatternHypothesis) :
  generate_hypotheses pattern = Some hs ->
  (In (pattern_type pattern) known_pattern_types /\ hs <> []
   /\ (Qsum (List.map probability hs) == 1)%Q
   /\ Forall (fun h => (0 < probability h < 1)%Q) hs
   /\ (2 <= length hs <= 3)%nat)
  \/ (~ In (pattern_type pattern) known_pattern_types /\ hs = []).
Proof.
  unfold generate_hypotheses.
  destruct (String.eqb_spec (pattern_type pattern) "issuer_degradation") as [E1|E1].
  { unfold _generate_issuer_hypotheses.
    destruct (metric pattern "current_success_rate") as [current|]; [|discriminate].
    destruct (metric pattern "degradation"); [|discriminate].
    intros H. left. rewrite E1. split; [cbn; tauto|].
    destruct (Qltb current 0.20), (Qgtb _ 500);
      vm_compute in H; injection H as <-;
      (split; [discriminate|]); (split; [vm_compute; reflexivity|]);
      (split; [|cbn; lia]); repeat constructor. }
  destruct (String.eqb_spec (pattern_type pattern) "retry_storm") as [E2|E2].
  { unfold _generate_retry_hypotheses.
    destruct (metric pattern "retry_percentage"); [|discriminate].
    destruct (metric pattern "retry_efficiency"); [|discriminate].
    destruct (metric pattern "total_retries"); [|discriminate].
    intros H. left. rewrite E2. split; [cbn; tauto|].
    vm_compute in H; injection H as <-;
      (split; [discriminate|]); (split; [vm_compute; reflexivity|]);
      (split; [|cbn; lia]); repeat constructor. }
  destruct (String.eqb_spec (pattern_type pattern) "method_fatigue") as [E3|E3].
  { intros H. left. rewrite E3. split; [cbn; tauto|].
    vm_compute in H; injection H as <-;
      (split; [discriminate|]); (split; [vm_compute; reflexivity|]);
      (split; [|cbn; lia]); repeat constructor. }
  destruct (String.eqb_spec (pattern_type pattern) "latency_spike") as [E4|E4].
  { unfold _generate_latency_hypotheses.
    destruct (metric pattern "spike_factor"); [|discriminate].
    intros H. left. rewrite E4. split; [cbn; tauto|].
    vm_compute in H; injection H as <-;
      (split; [discriminate|]); (split; [vm_compute; reflexivity|]);
      (split; [|cbn; lia]); repeat constructor. }
  destruct (String.eqb_spec (pattern_type pattern) "error_cluster") as [E5|E5].
  { intros H. left. rewrite E5. split; [cbn; tauto|].
    vm_compute in H; injection H as <-;
      (split; [discriminate|]); (split; [vm_compute; reflexivity|]);
      (split; [|cbn; lia]); repeat constructor. }
  destruct (String.eqb_spec (pattern_type pattern) "geographic_issue") as [E6|E6].
  { intros H. left. rewrite E6. split; [cbn; tauto|].
    vm_compute in H; injection H as <-;
      (split; [discriminate|]); (split; [vm_compute; reflexivity|]);
      (split; [|cbn; lia]); repeat constructor. }
  intros H. right. vm_compute in H. injection H as <-.
  split; [|reflexivity]. cbn. intuition congruence.
Qed.

(** X16.  When [generate_hypotheses] returns, the list is empty exactly
    for a pattern whose type is not one of the six known ones; otherwise it
    holds two or three hypotheses whose probabilities lie strictly between
    0 and 1 and sum to 1. *)
Theorem X16_hypotheses_are_normalised (pattern : Pattern)
    (hs : list PatternHypothesis) :
  generate_hypotheses pattern = Some hs ->
  (hs <> [] <-> In (pattern_type pattern) known_pattern_types)
  /\ (hs <> [] ->
      (Qsum (List.map probability hs) == 1)%Q
      /\ Forall (fun h => (0 < probability h < 1)%Q) hs
      /\ (2 <= length hs <= 3)%nat).
Proof.
  intros H. destruct (generated_hypotheses_cases pattern hs H)
    as [(Hin & Hne & Hsum & Hall & Hlen)|[Hnin ->]].
  - split; [tauto|]. intros _. auto.
  - split; [|congruence]. split; [congruence | contradiction].
Qed.

Lemma X16_witness :
  (Qsum (List.map probability
           (normalise (py_sum [0.6; 0.4])
              [ {| root_cause := "specific_error_condition"; probability := 0.6 |};
                {| root_cause := "configuration_issue"; probability := 0.4 |} ])) == 1)%Q.
Proof.
  refine (proj1 (proj2 (X16_hypotheses_are_normalised
            {| pattern_type := "error_cluster"; severity := 1;
               affected_dimension := "error_code"; affected_value := "E1";
               metrics := [] |} _ _) _)).
  - reflexivity.
  - discriminate.
Defined.

(** X17.  For a reasoner reached by baseline updates and any observer,
    [generate_hypotheses] raises no [KeyError] on a pattern reported by
    [analyze], and returns at least two hypotheses for it. *)
Theorem X17_hypotheses_for_every_reported_pattern
    (self : PaymentReasoner) (observer : PaymentObserver) (p : Pattern) :
  reasoner_reachable self ->
  In p (analyze self observer) ->
  exists hs, generate_hypotheses p = Some hs
             /\ (2 <= length hs <= 3)%nat
             /\ (Qsum (List.map probability hs) == 1)%Q.
Proof.
  intros Hr Hp. destruct (reasoner_reachable_inv self Hr) as [Ht Hb].
  destruct (analyze_shape self observer p Ht Hb Hp) as (Hty & _ & Hi & Hrs & Hl).
  assert (Hsome : exists hs, generate_hypotheses p = Some hs).
  { unfold generate_hypotheses.
    destruct (String.eqb_spec (pattern_type p) "issuer_degradation") as [E1|E1].
    { destruct (Hi E1) as (a & b & Ha & Hb'). unfold _generate_issuer_hypotheses.
      rewrite Ha, Hb'. destruct (Qgtb (py_sum _) 0); eexists; reflexivity. }
    destruct (String.eqb_spec (pattern_type p) "retry_storm") as [E2|E2].
    { destruct (Hrs E2) as (a & b & c & Ha & Hb' & Hc).
      unfold _generate_retry_hypotheses.
      rewrite Ha, Hb', Hc. destruct (Qgtb (py_sum _) 0); eexists; reflexivity. }
    destruct (String.eqb_spec (pattern_type p) "method_fatigue") as [E3|E3].
    { unfold _generate_method_hypotheses.
      destruct (Qgtb (py_sum _) 0); eexists; reflexivity. }
    destruct (String.eqb_spec (pattern_type p) "latency_spike") as [E4|E4].
    { destruct (Hl E4) as (a & Ha). unfold _generate_latency_hypotheses.
      rewrite Ha. destruct (Qgtb (py_sum _) 0); eexists; reflexivity. }
    destruct (String.eqb_spec (pattern_type p) "error_cluster") as [E5|E5].
    { unfold _generate_error_hypotheses.
      destruct (Qgtb (py_sum _) 0); eexists; reflexivity. }
    destruct (String.eqb_spec (pattern_type p) "geographic_issue") as [E6|E6].
    { unfold _generate_geographic_hypotheses.
      destruct (Qgtb (py_sum _) 0); eexists; reflexivity. }
    exfalso. cbn in Hty. intuition congruence. }
  destruct Hsome as (hs & Hhs). exists hs. split; [exact Hhs|].
  destruct (generated_hypotheses_cases p hs Hhs)
    as [(_ & _ & Hsum & _ & Hlen)|[Hnin _]]; [auto | contradiction].
Qed.

Lemma X17_witness :
  exists hs,
    generate_hypotheses
      (hd (issuer_pattern_of PaymentReasoner_init "HDFC"
             {| h_success_rate := 0; h_failure_rate := 1; h_volume := 10;
                h_avg_latency := 100; h_p95_latency := 100 |})
          (analyze PaymentReasoner_init
             (observer_run ten_failures (PaymentObserver_init 10)))) = Some hs
    /\ (2 <= length hs <= 3)%nat
    /\ (Qsum (List.map probability hs) == 1)%Q.
Proof.
  apply (X17_hypotheses_for_every_reported_pattern PaymentReasoner_init
           (observer_run ten_failures (PaymentObserver_init 10))).
  - apply reasoner_fresh.
  - vm_compute. left. reflexivity.
Defined.

(** ** Executor: what one call of [execute] does *)

Lemma execute_by_type_counters now action state :
  let r := _execute_by_type now action state in
  actions_taken_last_hour (snd r) = actions_taken_last_hour state
  /\ rollbacks_last_hour (snd r) = rollbacks_last_hour state
  /\ actions_executed (snd r) = actions_executed state
  /\ actions_successful (snd r) = actions_successful state
  /\ (fst (fst r) = false -> snd r = state).
Proof.
  cbv zeta.
  unfold _execute_by_type, _execute_circuit_breaker, _execute_retry_adjustment,
    _execute_route_change, _execute_method_suppress, _execute_alert.
  destruct (action_type action);
    try (destruct (p_issuer (parameters action)) as [i|]; [destruct (truthy (Some i))|]);
    try (destruct (p_payment_method (parameters action)) as [m|];
         [destruct (truthy (Some m))|]);
    cbn [fst snd with_controls actions_taken_last_hour rollbacks_last_hour
         actions_executed actions_successful];
    repeat split; try reflexivity; intros Hf; discriminate Hf.
Qed.

Lemma pre_checks_can_take self action state :
  fst (_pre_execution_checks self action state) = true ->
  actions_taken_last_hour state < 50 /\ rollbacks_last_hour state < 10.
Proof.
  unfold _pre_execution_checks.
  destruct (_ && negb (truthy (approver action))); [discriminate|].
  destruct (_ && (_ && _)); [discriminate|].
  unfold can_take_action.
  destruct (Z.leb_spec 50 (actions_taken_last_hour state)); [discriminate|].
  destruct (Z.leb_spec 10 (rollbacks_last_hour state)); [discriminate|].
  intros _. lia.
Qed.

Lemma execute_cases now self action state observer :
  let r := execute now self action state observer in
  (ex_ok r = false /\ ex_self r = self /\ ex_state r = state
   /\ (ex_action r = action
       \/ ex_action r = set_status action "failed" (executed_at action)
                          (completed_at action)))
  \/ (ex_ok r = true
      /\ fst (_pre_execution_checks self action state) = true
      /\ fst (fst (_execute_by_type now action state)) = true
      /\ ex_action r = set_status action "executed" (Some now) (completed_at action)
      /\ ex_state r
         = (let state1 := snd (_execute_by_type now action state) in
            with_counters state1 (actions_taken_last_hour state1 + 1)
              (rollbacks_last_hour state1) (actions_executed state1 + 1))
      /\ execution_log (ex_self r)
         = _log_execution now (ex_action r) (_capture_baseline_metrics now observer)
             true (ex_message r) (execution_log self)
      /\ active_interventions (ex_self r)
         = dset (active_interventions self) (action_id action) (ex_action r)).
Proof.
  unfold execute.
  destruct (_pre_execution_checks self action state) as [can reason] eqn:Hpre.
  destruct can; cbn [negb]; [|left; cbn; auto].
  pose proof (execute_by_type_counters now action state) as Hc.
  destruct (_execute_by_type now action state) as [[ok message] state1].
  cbn [fst snd] in Hc. destruct Hc as (_ & _ & _ & _ & Hfail).
  destruct ok.
  - right. cbn. repeat split; reflexivity.
  - left. cbn. rewrite (Hfail eq_refl). auto.
Qed.

Lemma dset_length_le {V : Type} (d : dict V) k v :
  (length (dset d k v) <= S (length d))%nat.
Proof.
  induction d as [|[k' v'] d IH]; cbn [dset length]; [lia|].
  destruct (String.eqb k k'); cbn [length]; lia.
Qed.

(** ** Executor: what one pass of the monitor does *)

Lemma fold_ddel_existsb (due : list (string * Action)) (d : dict Action) :
  fold_left (fun d ka => ddel d (action_id (snd ka))) due d
  = List.filter
      (fun kv => negb (existsb (fun ka => String.eqb (action_id (snd ka)) (fst kv)) due))
      d.
Proof.
  revert d. induction due as [|ka due IH]; intros d; cbn [fold_left existsb].
  - symmetry. apply filter_all_true. apply List.Forall_forall. reflexivity.
  - rewrite IH, ddel_filter, <- filter_andb.
    apply List.filter_ext. intros kv. rewrite negb_orb. reflexivity.
Qed.

Lemma monitor_keeps_the_rest now current self :
  executor_inv self ->
  fold_left (fun d ka => ddel d (action_id (snd ka)))
    (List.filter (rollback_due now self current) (active_interventions self))
    (active_interventions self)
  = List.filter (fun ka => negb (rollback_due now self current ka))
      (active_interventions self).
Proof.
  intros (Hk & _ & Hall). rewrite fold_ddel_existsb.
  apply List.filter_ext_in. intros kv Hkv. f_equal.
  rewrite List.Forall_forall in Hall.
  destruct (rollback_due now self current kv) eqn:E.
  - apply existsb_exists. exists kv. split.
    + apply List.filter_In. split; assumption.
    + destruct (Hall kv Hkv) as (-> & _). apply String.eqb_refl.
  - destruct (existsb _ _) eqn:Ex; [|reflexivity].
    apply existsb_exists in Ex. destruct Ex as (ka & Hka & Heq).
    apply List.filter_In in Hka. destruct Hka as [Hka Hdue].
    apply String.eqb_eq in Heq. destruct (Hall ka Hka) as (Hid & _).
    rewrite Hid in Heq.
    assert (ka = kv).
    { destruct ka as [k a], kv as [k' a']. cbn [fst] in Heq. subst k'.
      f_equal. pose proof (In_dget _ _ _ Hk Hka) as H1.
      pose proof (In_dget _ _ _ Hk Hkv) as H2. congruence. }
    subst ka. congruence.
Qed.

Lemma filter_partition_length {A : Type} (f : A -> bool) (l : list A) :
  (length (List.filter f l) + length (List.filter (fun x => negb (f x)) l))%nat
  = length l.
Proof.
  induction l as [|x l IH]; cbn [List.filter length]; [reflexivity|].
  destruct (f x); cbn [negb length]; lia.
Qed.

Lemma rollback_state_counters ka st :
  actions_taken_last_hour (rollback_state st ka) = actions_taken_last_hour st
  /\ actions_executed (rollback_state st ka) = actions_executed st
  /\ actions_successful (rollback_state st ka) = actions_successful st.
Proof.
  unfold rollback_state, reverse_write.
  destruct (action_type (snd ka)); cbn;
    repeat match goal with |- context [match ?x with _ => _ end] => destruct x end;
    cbn; auto.
Qed.

Lemma fold_rollback_counters due st :
  actions_taken_last_hour (fold_left rollback_state due st) = actions_taken_last_hour st
  /\ actions_executed (fold_left rollback_state due st) = actions_executed st
  /\ actions_successful (fold_left rollback_state due st) = actions_successful st.
Proof.
  revert st. induction due as [|ka due IH]; intros st; cbn [fold_left]; [auto|].
  destruct (IH (rollback_state st ka)) as (-> & -> & ->).
  apply rollback_state_counters.
Qed.

Lemma monitor_summary now self state observer :
  executor_inv self ->
  let current := _capture_baseline_metrics now observer in
  let due := List.filter (rollback_due now self current) (active_interventions self) in
  let r := monitor_and_rollback now self state observer in
  rolled_back r = List.map fst due
  /\ execution_log (mon_self r) = execution_log self
  /\ active_interventions (mon_self r)
     = List.filter (fun ka => negb (rollback_due now self current ka))
         (active_interventions self)
  /\ mon_state r = fold_left rollback_state due state.
Proof.
  intros Hinv current due r. subst r. unfold monitor_and_rollback.
  match goal with
  | |- context [monitor_loop ?n ?c ?items ?acc] =>
      destruct (monitor_loop_spec n c self items acc eq_refl)
        as (Hrb & _ & _ & Hlog & Hact & Hst)
  end.
  cbn [mon_self mon_state rolled_back active_interventions app] in *.
  fold current in Hrb, Hlog, Hact, Hst |- *. fold due in Hrb, Hact, Hst.
  split; [exact Hrb|]. split; [exact Hlog|]. split; [|exact Hst].
  rewrite Hact. apply monitor_keeps_the_rest, Hinv.
Qed.

(** ** The agent's counters over a whole run *)

Lemma system_init_inv : system_inv (PaymentExecutor_init, AgentState_init).
Proof.
  unfold system_inv. cbn. repeat split; try lia; constructor.
Qed.

Lemma system_step_inv s op : system_inv s -> system_inv (system_step s op).
Proof.
  destruct s as [self state]. unfold system_inv. cbn [fst snd].
  intros (Hinv & Ht & Hs & He & H50 & Hr0 & Hra).
  destruct op as [now action observer|now observer|impacts]; cbn [system_step fst snd].
  - pose proof (execute_inv now self action state observer Hinv) as Hinv'.
    destruct (execute_cases now self action state observer)
      as [(Hok & Hself & Hstate & _)|(Hok & Hpre & _ & _ & Hstate & Hlog & Hact)].
    + rewrite Hok, Hself, Hstate. repeat (split; [assumption|]). assumption.
    + rewrite Hok. split; [exact Hinv'|].
      destruct (pre_checks_can_take self action state Hpre) as [Hlt _].
      destruct (execute_by_type_counters now action state) as (C1 & C2 & C3 & C4 & _).
      rewrite Hstate, Hlog, Hact. unfold _log_execution.
      rewrite List.length_app.
      cbn [count_successful with_counters actions_taken_last_hour actions_executed
           actions_successful rollbacks_last_hour length].
      rewrite C1, C2, C3, C4.
      pose proof (dset_length_le (active_interventions self) (action_id action)
                    (ex_action (execute now self action state observer))).
      repeat split; lia.
  - pose proof (monitor_inv now self state observer Hinv) as Hinv'.
    destruct (monitor_summary now self state observer Hinv) as (_ & Hlog & Hact & Hst).
    split; [exact Hinv'|]. rewrite Hlog, Hact, Hst.
    rewrite fold_rollback_count.
    destruct (fold_rollback_counters
                (List.filter
                   (rollback_due now self (_capture_baseline_metrics now observer))
                   (active_interventions self)) state) as (-> & -> & ->).
    pose proof (filter_partition_length
                  (rollback_due now self (_capture_baseline_metrics now observer))
                  (active_interventions self)).
    repeat split; lia.
  - cbn [execution_log active_interventions]. rewrite List.length_map.
    split; [|repeat (split; [assumption|]); assumption].
    destruct Hinv as (Hk & Hp & Hall).
    assert (Hkeys : List.map fst (List.map (learn_entry impacts) (active_interventions self))
                    = List.map fst (active_interventions self)).
    { rewrite List.map_map. apply List.map_ext. intros ka. unfold learn_entry.
      destruct (impacts (fst ka)); reflexivity. }
    assert (Hik : List.map intervention_key
                    (dvalues (List.map (learn_entry impacts) (active_interventions self)))
                  = List.map intervention_key (dvalues (active_interventions self))).
    { unfold dvalues. rewrite !List.map_map. apply List.map_ext. intros ka.
      unfold learn_entry. destruct (impacts (fst ka)); reflexivity. }
    unfold executor_inv. cbn [active_interventions]. unfold dkeys.
    rewrite Hkeys, Hik. split; [exact Hk|]. split; [exact Hp|].
    apply List.Forall_forall. intros ka Hin. apply List.in_map_iff in Hin.
    destruct Hin as (ka0 & <- & Hin0).
    rewrite List.Forall_forall in Hall. destruct (Hall ka0 Hin0) as (H1 & H2 & H3).
    unfold entry_ok, learn_entry.
    destruct (impacts (fst ka0)); cbn [fst snd set_actual_impact action_id executed_at];
      (split; [exact H1|]); (split; [exact H2|]);
      destruct self; exact H3.
Qed.

Lemma system_run_inv ops : system_inv (system_run ops).
Proof.
  unfold system_run.
  assert (H : forall s, system_inv s -> system_inv (fold_left system_step ops s)).
  { induction ops as [|op ops IH]; intros s Hs; [exact Hs|].
    cbn [fold_left]. apply IH, system_step_inv, Hs. }
  apply H, system_init_inv.
Qed.

Lemma py_slice_last {A : Type} (limit : Z) (l : list A) :
  0 < limit -> py_slice_from (- limit) l = lastn (Z.to_nat limit) l.
Proof.
  intros Hl. unfold py_slice_from, lastn.
  destruct (Z.ltb_spec (- limit) 0); [|lia].
  f_equal. lia.
Qed.

(** X18.  Over any sequence of act, monitor and learn phases from a fresh
    executor and a fresh agent state, the counter named
    [actions_taken_last_hour] is never reset: it equals [actions_executed],
    [actions_successful] and the length of the execution log, and never
    exceeds 50, so an executor performs at most 50 actions in its life;
    the rollbacks and the active interventions together never outnumber
    the executed actions; and [get_execution_history] with the default
    limit of 50 returns the whole log. *)
Theorem X18_lifetime_limits (ops : list SystemOp) :
  let self := fst (system_run ops) in
  let state := snd (system_run ops) in
  actions_taken_last_hour state = actions_executed state
  /\ actions_successful state = actions_executed state
  /\ actions_executed state = Z.of_nat (length (execution_log self))
  /\ actions_executed state <= 50
  /\ 0 <= rollbacks_last_hour state
  /\ rollbacks_last_hour state + Z.of_nat (length (get_active_interventions self))
     <= actions_executed state
  /\ get_execution_history self 50 = execution_log self.
Proof.
  intros self state. destruct (system_run_inv ops) as (_ & Ht & Hs & He & H50 & Hr0 & Hra).
  fold self in He, Hra. fold state in Ht, Hs, He, H50, Hr0, Hra.
  unfold get_active_interventions, dvalues. rewrite List.length_map.
  repeat split; try assumption.
  unfold get_execution_history. rewrite py_slice_last by lia. unfold lastn.
  replace (length (execution_log self) - Z.to_nat 50)%nat with 0%nat by lia.
  reflexivity.
Qed.

(** ** Executor: monitoring twice *)

(** X19.  For an executor reached by executions and monitor passes, one
    pass of [monitor_and_rollback] returns the identifiers of the active
    interventions that are due, in the order of the table, and keeps the
    others; a second pass at the same clock reading over the same observer
    rolls nothing back and changes neither the state nor the executor. *)
Theorem X19_monitor_twice
    (now : Z) (self : PaymentExecutor) (state : AgentState)
    (observer : PaymentObserver) :
  executor_reachable self ->
  let current := _capture_baseline_metrics now observer in
  let r := monitor_and_rollback now self state observer in
  let r' := monitor_and_rollback now (mon_self r) (mon_state r) observer in
  rolled_back r
  = List.map fst (List.filter (rollback_due now self current) (active_interventions self))
  /\ active_interventions (mon_self r)
     = List.filter (fun ka => negb (rollback_due now self current ka))
         (active_interventions self)
  /\ (length (rolled_back r) + length (active_interventions (mon_self r)))%nat
     = length (active_interventions self)
  /\ rolled_back r' = []
  /\ mon_state r' = mon_state r
  /\ mon_self r' = mon_self r.
Proof.
  intros Hreach current r r'.
  pose proof (executor_reachable_inv self Hreach) as Hinv.
  destruct (monitor_summary now self state observer Hinv) as (Hrb & Hlog & Hact & Hst).
  fold current in Hrb, Hact, Hst. fold r in Hrb, Hlog, Hact, Hst.
  pose proof (monitor_inv now self state observer Hinv) as Hinv'. fold r in Hinv'.
  destruct (monitor_summary now (mon_self r) (mon_state r) observer Hinv')
    as (Hrb' & Hlog' & Hact' & Hst').
  fold current in Hrb', Hact', Hst'. fold r' in Hrb', Hlog', Hact', Hst'.
  assert (Hnone : List.filter (rollback_due now (mon_self r) current)
                    (active_interventions (mon_self r)) = []).
  { rewrite Hact. apply filter_all_false. apply List.Forall_forall.
    intros ka Hka. apply List.filter_In in Hka. destruct Hka as [_ Hka].
    rewrite (rollback_due_log now (mon_self r) self current ka Hlog).
    apply negb_true_iff, Hka. }
  split; [exact Hrb|]. split; [exact Hact|]. split.
  - rewrite Hrb, Hact, List.length_map. apply filter_partition_length.
  - rewrite Hnone in Hrb', Hst'. cbn in Hrb', Hst'.
    split; [exact Hrb'|]. split; [exact Hst'|].
    assert (Hsame : active_interventions (mon_self r') = active_interventions (mon_self r)).
    { rewrite Hact'. apply filter_all_true. apply List.Forall_forall.
      intros ka Hka. apply negb_true_iff.
      destruct (rollback_due now (mon_self r) current ka) eqn:E; [|reflexivity].
      assert (Hin : In ka (List.filter (rollback_due now (mon_self r) current)
                             (active_interventions (mon_self r))))
        by (apply List.filter_In; split; assumption).
      rewrite Hnone in Hin. destruct Hin. }
    destruct (mon_self r') as [log' act'], (mon_self r) as [log act].
    cbn [execution_log active_interventions] in *. congruence.
Qed.

Lemma X19_witness :
  let r := monitor_and_rollback (minutes 1) (ex_self breaker_executed)
             (ex_state breaker_executed) degraded_observer in
  rolled_back r = ["cb-icici"]
  /\ rolled_back (monitor_and_rollback (minutes 1) (mon_self r) (mon_state r)
                    degraded_observer) = [].
Proof.
  intros r.
  destruct (X19_monitor_twice (minutes 1) (ex_self breaker_executed)
              (ex_state breaker_executed) degraded_observer)
    as (Hrb & _ & _ & Hnone & _).
  - apply executor_executed, executor_fresh.
  - split; [|exact Hnone]. fold r in Hrb. rewrite Hrb. vm_compute. reflexivity.
Defined.

(** ** Executor: successful and refused executions *)

(** X20.  When [execute] succeeds, the action is stored in the table of
    active interventions under its identifier, with status ['executed'] and
    the clock reading of the call, the newest log entry is the one of this
    execution, and [_find_baseline_for_action] returns for the action the
    metrics captured from the observer at that call; both action counters
    grow by one and the rollback counter is unchanged. *)
Theorem X20_execute_records_the_baseline
    (now : Z) (self : PaymentExecutor) (action : Action) (state : AgentState)
    (observer : PaymentObserver) :
  let r := execute now self action state observer in
  ex_ok r = true ->
  dget (active_interventions (ex_self r)) (action_id action) = Some (ex_action r)
  /\ action_status (ex_action r) = "executed"
  /\ executed_at (ex_action r) = Some now
  /\ _find_baseline_for_action (ex_self r) (action_id action)
     = Some (_capture_baseline_metrics now observer)
  /\ length (execution_log (ex_self r)) = S (length (execution_log self))
  /\ actions_taken_last_hour (ex_state r) = actions_taken_last_hour state + 1
  /\ actions_executed (ex_state r) = actions_executed state + 1
  /\ rollbacks_last_hour (ex_state r) = rollbacks_last_hour state
  /\ actions_taken_last_hour state < 50
  /\ rollbacks_last_hour state < 10.
Proof.
  intros r Hok. subst r.
  destruct (execute_cases now self action state observer)
    as [(Hno & _)|(_ & Hpre & _ & Hact' & Hstate & Hlog & Hact)]; [congruence|].
  destruct (pre_checks_can_take self action state Hpre) as [Hlt Hrl].
  destruct (execute_by_type_counters now action state) as (C1 & C2 & C3 & _).
  split; [rewrite Hact, dget_dset, String.eqb_refl; reflexivity|].
  split; [rewrite Hact'; reflexivity|]. split; [rewrite Hact'; reflexivity|].
  split.
  { destruct (ex_self (execute now self action state observer)) as [log act] eqn:E.
    cbn [execution_log] in Hlog. rewrite Hlog. unfold _log_execution.
    rewrite (find_baseline_log_app _ _ _ act). cbn [log_action_id log_baseline_metrics].
    rewrite Hact'. cbn [set_status action_id]. rewrite String.eqb_refl. reflexivity. }
  split; [rewrite Hlog; unfold _log_execution; rewrite List.length_app; cbn; lia|].
  rewrite Hstate. cbn [with_counters actions_taken_last_hour actions_executed
                       rollbacks_last_hour].
  rewrite C1, C2, C3. repeat split; assumption.
Qed.

Lemma X20_witness :
  _find_baseline_for_action (ex_self breaker_executed) "cb-icici"
  = Some (_capture_baseline_metrics 0 healthy_observer).
Proof.
  refine (proj1 (proj2 (proj2 (proj2
    (X20_execute_records_the_baseline 0 PaymentExecutor_init icici_breaker
       AgentState_init healthy_observer _))))).
  vm_compute. reflexivity.
Defined.

(** X21.  When [execute] does not succeed, whether the checks refuse the
    action or the action lacks its parameter, the agent state and the
    executor are unchanged, and the action is unchanged or only marked
    ['failed']; an action needing manual authorization and carrying no
    approver is always refused. *)
Theorem X21_refused_execute_changes_nothing
    (now : Z) (self : PaymentExecutor) (action : Action) (state : AgentState)
    (observer : PaymentObserver) :
  let r := execute now self action state observer in
  (ex_ok r = false ->
   ex_state r = state /\ ex_self r = self
   /\ (ex_action r = action
       \/ ex_action r = set_status action "failed" (executed_at action)
                          (completed_at action)))
  /\ (authorization_level action = MANUAL -> truthy (approver action) = false ->
      ex_ok r = false /\ ex_message r = "Manual authorization required"
      /\ ex_action r = action).
Proof.
  intros r. subst r. split.
  - intros Hok.
    destruct (execute_cases now self action state observer)
      as [(_ & Hself & Hstate & Hact)|(Hyes & _)]; [auto | congruence].
  - intros Hm Ha. unfold execute, _pre_execution_checks. rewrite Hm, Ha.
    cbn. auto.
Qed.

Lemma X21_witness :
  ex_self (execute 0 (fst five_active)
             (sample_action "cb" CIRCUIT_BREAKER "ICICI" no_parameters LOW)
             (snd five_active) healthy_observer)
  = fst five_active.
Proof.
  refine (proj1 (proj2 (proj1
    (X21_refused_execute_changes_nothing 0 (fst five_active)
       (sample_action "cb" CIRCUIT_BREAKER "ICICI" no_parameters LOW)
       (snd five_active) healthy_observer) _))).
  vm_compute. reflexivity.
Defined.

(** ** Executor: executing and rolling back the other action types *)

Lemma ddel_dset_absent {V : Type} (d : dict V) k v :
  dget d k = None -> ddel (dset d k v) k = d.
Proof.
  induction d as [|[k' v'] d IH]; cbn [dget dset ddel].
  - rewrite String.eqb_refl. reflexivity.
  - destruct (String.eqb k k') eqn:E; [discriminate|].
    intros H. cbn [ddel]. rewrite E, (IH H). reflexivity.
Qed.

Lemma dget_ddel_dset {V : Type} (d : dict V) k v k' :
  dget (ddel (dset d k v) k) k' = if String.eqb k k' then None else dget d k'.
Proof.
  rewrite dget_ddel, dget_dset. destruct (String.eqb k k'); reflexivity.
Qed.

(** X22.  Executing and then rolling back a retry adjustment, a route
    change or a method suppression.  The retry adjustment stores for the
    target the previous strategy overridden by the parameters given, and
    the route change stores an override built from the parameters; the
    rollback deletes the entry of the target, so a strategy or an override
    the target had before the execution is lost, every other target is
    untouched, and the state is the one before the execution exactly when
    the target had no entry.  A suppression adds the method and the
    rollback discards it, which restores the set exactly when the method
    was not suppressed before. *)
Theorem X22_execute_then_rollback_other_types
    (now : Z) (action : Action) (state : AgentState) :
  let executed := snd (_execute_by_type now action state) in
  let undone := reverse_write action executed in
  (action_type action = ADJUST_RETRY ->
   let previous :=
     dget_or {| max_retries := None; backoff_multiplier := None; timeout_ms := None |}
       (retry_strategies state) (target action) in
   fst (fst (_execute_by_type now action state)) = true
   /\ dget (retry_strategies executed) (target action)
      = Some {| max_retries :=
                  match p_max_retries (parameters action) with
                  | Some v => Some v
                  | None => max_retries previous
                  end;
                backoff_multiplier :=
                  match p_backoff_multiplier (parameters action) with
                  | Some v => Some v
                  | None => backoff_multiplier previous
                  end;
                timeout_ms :=
                  match p_timeout_ms (parameters action) with
                  | Some v => Some v
                  | None => timeout_ms previous
                  end |}
   /\ (forall k, dget (retry_strategies undone) k
                 = if String.eqb (target action) k then None
                   else dget (retry_strategies state) k)
   /\ (dget (retry_strategies state) (target action) = None -> undone = state))
  /\ (action_type action = ROUTE_CHANGE ->
      fst (fst (_execute_by_type now action state)) = true
      /\ (exists override, dget (routing_overrides executed) (target action) = Some override
                           /\ applied_at override = now)
      /\ (forall k, dget (routing_overrides undone) k
                    = if String.eqb (target action) k then None
                      else dget (routing_overrides state) k)
      /\ (dget (routing_overrides state) (target action) = None -> undone = state))
  /\ (action_type action = METHOD_SUPPRESS ->
      forall method, p_payment_method (parameters action) = Some method ->
      method <> EmptyString ->
      fst (fst (_execute_by_type now action state)) = true
      /\ method ∈ suppressed_methods executed
      /\ suppressed_methods undone = suppressed_methods state ∖ {[method]}
      /\ (method ∉ suppressed_methods state ->
          suppressed_methods undone = suppressed_methods state)).
Proof.
  intros executed undone. subst undone executed.
  unfold _execute_by_type, reverse_write. split; [|split].
  - intros Hty. rewrite Hty. unfold _execute_retry_adjustment.
    cbn [fst snd with_controls retry_strategies active_circuit_breakers
         suppressed_methods routing_overrides].
    split; [reflexivity|]. split; [rewrite dget_dset, String.eqb_refl; reflexivity|].
    split; [intros k; apply dget_ddel_dset|].
    intros Hnone. rewrite (ddel_dset_absent _ _ _ Hnone). destruct state; reflexivity.
  - intros Hty. rewrite Hty. unfold _execute_route_change.
    cbn [fst snd with_controls retry_strategies active_circuit_breakers
         suppressed_methods routing_overrides].
    split; [reflexivity|]. split.
    + eexists. split; [rewrite dget_dset, String.eqb_refl; reflexivity | reflexivity].
    + split; [intros k; apply dget_ddel_dset|].
      intros Hnone. rewrite (ddel_dset_absent _ _ _ Hnone). destruct state; reflexivity.
  - intros Hty method Hm Hne. rewrite Hty. unfold _execute_method_suppress. rewrite Hm.
    assert (Ht : truthy (Some method) = true).
    { unfold truthy. destruct (String.eqb_spec method EmptyString); [contradiction|].
      reflexivity. }
    rewrite Ht. cbn [fst snd with_controls suppressed_methods parameters].
    split; [reflexivity|]. split; [apply elem_of_union; left; apply elem_of_singleton;
                                   reflexivity|].
    assert (Heq : ({[method]} ∪ suppressed_methods state) ∖ {[method]}
                  = suppressed_methods state ∖ {[method]}).
    { apply set_eq. intros x.
      rewrite !elem_of_difference, elem_of_union, elem_of_singleton. tauto. }
    split; [exact Heq|]. intros Hnotin. rewrite Heq.
    apply set_eq. intros x. rewrite elem_of_difference, elem_of_singleton.
    split; [tauto|]. intros Hx. split; [exact Hx|]. intros ->. contradiction.
Qed.

Lemma X22_witness :
  let action :=
    sample_action "r1" ADJUST_RETRY "HDFC"
      {| p_issuer := None; p_duration_minutes := None; p_max_retries := Some 2;
         p_backoff_multiplier := None; p_timeout_ms := None;
         p_alternative_routing := None; p_reduce_routing_pct := None;
         p_payment_method := None |} LOW in
  reverse_write action (snd (_execute_by_type 0 action AgentState_init))
  = AgentState_init.
Proof.
  intros action.
  refine (proj2 (proj2 (proj2 (proj1
    (X22_execute_then_rollback_other_types 0 action AgentState_init) _))) _);
    reflexivity.
Defined.

(** ** Executor: the execution history *)

(** X23.  [get_execution_history limit] returns the last [limit] entries
    of the log, or the whole log when it is shorter, for a positive
    [limit]; for [limit = 0] it returns the whole log, not the empty list;
    for a negative [limit] it drops the first [-limit] entries.  What it
    returns is always a tail of the log. *)
Theorem X23_execution_history (self : PaymentExecutor) (limit : Z) :
  let log := execution_log self in
  (0 < limit ->
   get_execution_history self limit = lastn (Z.to_nat limit) log
   /\ Z.of_nat (length (get_execution_history self limit))
      = Z.min limit (Z.of_nat (length log)))
  /\ get_execution_history self 0 = log
  /\ (limit < 0 -> get_execution_history self limit = skipn (Z.to_nat (- limit)) log)
  /\ (exists older, log = older ++ get_execution_history self limit).
Proof.
  intros log. unfold get_execution_history. fold log.
  split; [|split; [|split]].
  - intros Hl. rewrite py_slice_last by exact Hl. split; [reflexivity|].
    unfold lastn. rewrite List.length_skipn. lia.
  - unfold py_slice_from. change (- 0) with 0. change (0 <? 0) with false.
    replace (Z.to_nat (Z.min 0 (Z.of_nat (length log)))) with 0%nat by lia.
    reflexivity.
  - intros Hl. unfold py_slice_from.
    destruct (Z.ltb_spec (- limit) 0); [lia|].
    destruct (Z.le_gt_cases (- limit) (Z.of_nat (length log))) as [Hle|Hgt].
    + rewrite Z.min_l by exact Hle. reflexivity.
    + rewrite Z.min_r by lia. rewrite Nat2Z.id.
      rewrite List.skipn_all. symmetry. apply List.skipn_all2. lia.
  - unfold py_slice_from. destruct (- limit <? 0).
    + exists (firstn (Z.to_nat (Z.max (Z.of_nat (length log) + - limit) 0)) log).
      symmetry. apply List.firstn_skipn.
    + exists (firstn (Z.to_nat (Z.min (- limit) (Z.of_nat (length log)))) log).
      symmetry. apply List.firstn_skipn.
Qed.

Lemma X23_witness :
  get_execution_history (fst five_active) 2
  = lastn 2 (execution_log (fst five_active)).
Proof.
  refine (proj1 (proj1 (X23_execution_history (fst five_active) 2) _)). lia.
Defined.

(** ** Learner: the outcomes on record *)

Lemma outcome_key_injective ty tgt ty' tgt' :
  outcome_key (ActionType_value ty) tgt = outcome_key (ActionType_value ty') tgt' ->
  ty = ty' /\ tgt = tgt'.
Proof.
  unfold outcome_key.
  destruct ty, ty'; cbv [String.append ActionType_value]; intros H;
    first [discriminate H | split; congruence].
Qed.

Lemma outcome_key_not_type ty ty' tgt :
  ActionType_value ty <> outcome_key (ActionType_value ty') tgt.
Proof.
  unfold outcome_key.
  destruct ty, ty'; cbv [String.append ActionType_value]; intros H; discriminate H.
Qed.

Lemma call_for_key ty tgt c :
  String.eqb
    (outcome_key (ActionType_value (action_type (fst (fst c)))) (target (fst (fst c))))
    (outcome_key (ActionType_value ty) tgt)
  = call_for ty tgt c.
Proof.
  unfold call_for.
  destruct (String.eqb_spec
              (outcome_key (ActionType_value (action_type (fst (fst c))))
                 (target (fst (fst c))))
              (outcome_key (ActionType_value ty) tgt)) as [E|E].
  - apply outcome_key_injective in E. destruct E as [-> ->].
    rewrite ActionType_eqb_refl, String.eqb_refl. reflexivity.
  - symmetry. apply andb_false_iff.
    destruct (String.eqb_spec (target (fst (fst c))) tgt) as [Et|Et]; [|right; reflexivity].
    left. destruct (action_type (fst (fst c))) eqn:Ea, ty; try reflexivity;
      exfalso; apply E; rewrite Et; reflexivity.
Qed.

Lemma learner_run_snoc calls c :
  learner_run (calls ++ [c])
  = fst (record_outcome (learner_run calls) (fst (fst c)) (snd (fst c)) (snd c)).
Proof. unfold learner_run. rewrite List.fold_left_app. reflexivity. Qed.

Lemma learner_run_records calls :
  (forall ty tgt,
      Forall2 outcome_records
        (dget_or [] (action_outcomes (learner_run calls))
           (outcome_key (ActionType_value ty) tgt))
        (List.filter (call_for ty tgt) calls))
  /\ (forall ty, dget_or [] (action_outcomes (learner_run calls)) (ActionType_value ty)
                 = []).
Proof.
  induction calls as [|c calls [IH1 IH2]] using List.rev_ind.
  - split; [intros; constructor | reflexivity].
  - rewrite learner_run_snoc. unfold record_outcome. cbn [fst action_outcomes].
    change (ActionType_value (action_type (fst (fst c))) ++ "_" ++ target (fst (fst c)))%string
      with (outcome_key (ActionType_value (action_type (fst (fst c))))
              (target (fst (fst c)))).
    split.
    + intros ty tgt. rewrite dget_or_dupd, call_for_key, List.filter_app.
      cbn [List.filter]. destruct (call_for ty tgt c).
      * apply List.Forall2_app; [apply IH1|].
        constructor; [|constructor]. repeat split.
      * rewrite List.app_nil_r. apply IH1.
    + intros ty. rewrite dget_or_dupd.
      destruct (String.eqb_spec
                  (outcome_key (ActionType_value (action_type (fst (fst c))))
                     (target (fst (fst c))))
                  (ActionType_value ty)) as [E|E]; [|apply IH2].
      symmetry in E. apply outcome_key_not_type in E. destruct E.
Qed.

Lemma improved_count outs (mine : list (Action * Metrics * Metrics)) :
  Forall2 outcome_records outs mine ->
  length (List.filter
            (fun o => Qgtb (actual_success_rate_delta (o_actual_impact o)) 0) outs)
  = length (List.filter
              (fun c => Qgtb (m_success_rate (snd c) - m_success_rate (snd (fst c))) 0)
              mine).
Proof.
  induction 1 as [|o c outs mine (_ & _ & Hd & _) _ IH]; [reflexivity|].
  cbn [List.filter]. rewrite Hd.
  destruct (Qgtb _ 0); cbn [length]; rewrite IH; reflexivity.
Qed.

(** X24.  After any sequence of [record_outcome] calls on a fresh learner,
    the outcomes kept for an action type and a target are the records of
    the calls made for that type and target, in the order of the calls:
    outcomes of different types or targets are never mixed.  For a
    non-empty target [get_action_effectiveness] reports their number as
    the sample size and, as success rate, the share of them whose measured
    success rate is above the baseline, between 0 and 1.  Called without a
    target or with an empty one it finds no outcome at all, however many
    were recorded for the type. *)
Theorem X24_recorded_outcomes
    (calls : list (Action * Metrics * Metrics)) (ty : ActionType) (tgt : string) :
  let learner := learner_run calls in
  let mine := List.filter (call_for ty tgt) calls in
  let improved c := Qgtb (m_success_rate (snd c) - m_success_rate (snd (fst c))) 0 in
  Forall2 outcome_records
    (dget_or [] (action_outcomes learner) (outcome_key (ActionType_value ty) tgt)) mine
  /\ (tgt <> EmptyString ->
      let e := get_action_effectiveness learner (ActionType_value ty) (Some tgt) in
      sample_size e = Z.of_nat (length mine)
      /\ (mine <> [] ->
          e_success_rate e
          = (inject_Z (Z.of_nat (length (List.filter improved mine)))
             / inject_Z (Z.of_nat (length mine)))%Q)
      /\ (0 <= e_success_rate e <= 1)%Q)
  /\ sample_size (get_action_effectiveness learner (ActionType_value ty) None) = 0
  /\ sample_size (get_action_effectiveness learner (ActionType_value ty)
                    (Some EmptyString)) = 0.
Proof.
  intros learner mine improved.
  destruct (learner_run_records calls) as [H1 H2].
  pose proof (H1 ty tgt) as Hrec. fold learner in Hrec, H2. fold mine in Hrec.
  split; [exact Hrec|]. split; [|split].
  - intros Hne e. subst e. unfold get_action_effectiveness.
    assert (Ht : truthy (Some tgt) = true).
    { unfold truthy. destruct (String.eqb_spec tgt EmptyString); [contradiction|].
      reflexivity. }
    rewrite Ht.
    pose proof (List.Forall2_length Hrec) as Hlen.
    pose proof (improved_count _ _ Hrec) as Himp.
    destruct (dget_or [] (action_outcomes learner) (outcome_key (ActionType_value ty) tgt))
      as [|o outs] eqn:E.
    + cbn [sample_size e_success_rate]. rewrite <- Hlen. cbn [length].
      split; [reflexivity|]. split; [|lra].
      intros Hm. destruct mine; [congruence | discriminate Hlen].
    + cbn [sample_size e_success_rate]. rewrite Himp, Hlen.
      split; [reflexivity|]. split; [reflexivity|].
      apply ratio_within_unit.
      * pose proof (filter_length_le
                      (fun c => Qgtb (m_success_rate (snd c) - m_success_rate (snd (fst c))) 0)
                      mine). lia.
      * rewrite <- Hlen. cbn [length]. lia.
  - unfold get_action_effectiveness. cbn [truthy]. rewrite H2. reflexivity.
  - unfold get_action_effectiveness. cbn [truthy String.eqb negb]. rewrite H2. reflexivity.
Qed.

(** ** Learner: the weights over many updates *)

Lemma adjust_weight_positive (learning_rate : Q) (scores : list Q) (w : Q) :
  (0 < w)%Q -> (0 < adjust_weight learning_rate scores w)%Q.
Proof.
  intros Hw. unfold adjust_weight. destruct scores as [|x scores]; [exact Hw|].
  unfold Qmax. destruct (Qleb 0.05 _) eqn:E; [apply Qleb_le in E|]; lra.
Qed.

Lemma update_decision_weights_ok learner w learning_rate :
  weights_ok w ->
  exists w', update_decision_weights learner w learning_rate = Some w' /\ weights_ok w'.
Proof.
  intros (Hs & Hl & Hc & Hr & _).
  unfold update_decision_weights, total_weight, adjusted_weights.
  cbn [w_success_rate w_latency w_cost w_risk].
  pose proof (adjust_weight_positive learning_rate
                (s_success_rate (objective_scores learner)) _ Hs) as Ps.
  pose proof (adjust_weight_positive learning_rate
                (s_latency (objective_scores learner)) _ Hl) as Pl.
  pose proof (adjust_weight_positive learning_rate
                (s_cost (objective_scores learner)) _ Hc) as Pc.
  pose proof (adjust_weight_positive learning_rate
                (s_risk (objective_scores learner)) _ Hr) as Pr.
  set (a_s := adjust_weight learning_rate _ (w_success_rate w)) in *.
  set (a_l := adjust_weight learning_rate _ (w_latency w)) in *.
  set (a_c := adjust_weight learning_rate _ (w_cost w)) in *.
  set (a_r := adjust_weight learning_rate _ (w_risk w)) in *.
  set (T := (0 + a_s + a_l + a_c + a_r)%Q).
  assert (HT0 : (0 < T)%Q) by (subst T; lra).
  destruct (Qeq_bool T 0) eqn:E; [apply Qeq_bool_eq in E; lra|].
  eexists. split; [reflexivity|].
  unfold weights_ok, weights_sum. cbn [w_success_rate w_latency w_cost w_risk].
  repeat split; try (apply Qlt_shift_div_l; [exact HT0 | lra]).
  subst T. field. lra.
Qed.

(** X25.  Starting from weights that are positive and sum to 1, as those
    of the constructor are, any sequence of [update_decision_weights]
    calls, with whatever learners and learning rates, returns at every call
    (the normalisation never divides by zero) and ends with weights that
    are positive, below 1 and sum to 1. *)
Theorem X25_weights_stay_normalised
    (calls : list (PaymentLearner * Q)) (weights : Weights) :
  weights_ok weights ->
  exists w, update_many calls weights = Some w
            /\ weights_ok w
            /\ (w_success_rate w < 1)%Q /\ (w_latency w < 1)%Q
            /\ (w_cost w < 1)%Q /\ (w_risk w < 1)%Q.
Proof.
  revert weights. induction calls as [|[learner learning_rate] calls IH]; intros weights Hok.
  - exists weights. split; [reflexivity|]. split; [exact Hok|].
    destruct Hok as (Hs & Hl & Hc & Hr & Hsum). unfold weights_sum in Hsum.
    repeat split; lra.
  - cbn [update_many].
    destruct (update_decision_weights_ok learner weights learning_rate Hok)
      as (w' & -> & Hok').
    apply IH, Hok'.
Qed.

Lemma X25_witness :
  exists w, update_many [(learner_with (sample_outcome breaker_estimate 0.05), 0.1%Q);
                         (PaymentLearner_init, 5%Q)] Weights_init = Some w
            /\ weights_ok w
            /\ (w_success_rate w < 1)%Q /\ (w_latency w < 1)%Q
            /\ (w_cost w < 1)%Q /\ (w_risk w < 1)%Q.
Proof.
  apply X25_weights_stay_normalised.
  unfold weights_ok, weights_sum. cbn. repeat split; lra.
Defined.

(** ** Decision maker: the scores *)

Lemma Qmax_spec (x y : Q) :
  (x <= Qmax x y)%Q /\ (y <= Qmax x y)%Q /\ (Qmax x y = x \/ Qmax x y = y).
Proof.
  unfold Qmax. destruct (Qleb x y) eqn:E.
  - apply Qleb_le in E. split; [exact E|]. split; [lra | right; reflexivity].
  - assert (H : (y < x)%Q).
    { apply Qltb_lt. unfold Qltb, Qleb in *. rewrite E. reflexivity. }
    split; [lra|]. split; [lra | left; reflexivity].
Qed.

Lemma Qmin_spec (x y : Q) :
  (Qmin x y <= x)%Q /\ (Qmin x y <= y)%Q /\ (Qmin x y = x \/ Qmin x y = y).
Proof.
  unfold Qmin. destruct (Qleb x y) eqn:E.
  - apply Qleb_le in E. split; [lra|]. split; [exact E | left; reflexivity].
  - assert (H : (y < x)%Q).
    { apply Qltb_lt. unfold Qltb, Qleb in *. rewrite E. reflexivity. }
    split; [lra|]. split; [lra | right; reflexivity].
Qed.

Lemma score_success_bounds (delta severity : Q) :
  (0 <= severity)%Q -> (0 <= _score_success_impact delta severity <= 1)%Q.
Proof.
  intros Hs. unfold _score_success_impact. destruct (Qgtb delta 0) eqn:E.
  - apply Qgtb_gt in E.
    assert (H0 : (0 <= delta / 0.20 * severity)%Q).
    { apply Qmult_le_0_compat; [|exact Hs]. apply Qle_shift_div_l; lra. }
    set (x := (delta / 0.20 * severity)%Q) in *.
    destruct (Qmin_spec x 1.0) as (_ & H1 & [Hm|Hm]); rewrite Hm in H1 |- *; lra.
  - assert (Hd : (delta <= 0)%Q).
    { destruct (Qlt_le_dec 0 delta) as [Hlt|Hle]; [|exact Hle].
      apply Qgtb_gt in Hlt. congruence. }
    assert (H1 : (1.0 + delta / 0.10 <= 1)%Q).
    { assert (delta / 0.10 <= 0)%Q by (apply Qle_shift_div_r; lra). lra. }
    set (x := (1.0 + delta / 0.10)%Q) in *.
    destruct (Qmax_spec 0.0 x) as (H0 & _ & [Hm|Hm]); rewrite Hm in H0 |- *; lra.
Qed.

Lemma score_latency_bounds (delta_ms current_latency : Q) :
  (0 <= _score_latency_impact delta_ms current_latency <= 1)%Q.
Proof.
  unfold _score_latency_impact.
  destruct (Qmax_spec current_latency 100) as (_ & H100 & _).
  set (m := Qmax current_latency 100) in *.
  destruct (Qltb delta_ms 0) eqn:E.
  - assert (H0 : (0 <= Qabs delta_ms / m * 2)%Q).
    { apply Qmult_le_0_compat; [|lra].
      apply Qle_shift_div_l; [lra|]. rewrite Qmult_0_l. apply Qabs_nonneg. }
    set (x := (Qabs delta_ms / m * 2)%Q) in *.
    destruct (Qmin_spec x 1.0) as (_ & H1 & [Hm|Hm]); rewrite Hm in H1 |- *; lra.
  - assert (Hd : (0 <= delta_ms)%Q).
    { destruct (Qlt_le_dec delta_ms 0) as [Hlt|Hle]; [|exact Hle].
      apply Qltb_lt in Hlt. congruence. }
    assert (H1 : (0 <= delta_ms / m)%Q) by (apply Qle_shift_div_l; lra).
    set (y := (delta_ms / m)%Q) in *.
    destruct (Qmax_spec 0.0 (1.0 - y)) as (H0 & _ & [Hm|Hm]); rewrite Hm in H0 |- *; lra.
Qed.

Lemma score_cost_values (delta : Q) :
  (_score_cost_impact delta = 1.0%Q /\ (delta == 0)%Q)
  \/ (_score_cost_impact delta = 0.8%Q /\ ~ (delta == 0)%Q /\ (delta <= 0.02)%Q)
  \/ (_score_cost_impact delta = 0.5%Q /\ (0.02 < delta <= 0.05)%Q)
  \/ (_score_cost_impact delta = 0.2%Q /\ (0.05 < delta)%Q).
Proof.
  unfold _score_cost_impact.
  destruct (Qeq_bool delta 0) eqn:E0.
  - left. split; [reflexivity | apply Qeq_bool_eq, E0].
  - right. assert (Hne : ~ (delta == 0)%Q) by (apply Qeq_bool_neq, E0).
    destruct (Qleb delta 0.02) eqn:E1.
    + left. apply Qleb_le in E1. auto.
    + right. assert (H1 : (0.02 < delta)%Q).
      { apply Qltb_lt. unfold Qltb, Qleb in *. rewrite E1. reflexivity. }
      destruct (Qleb delta 0.05) eqn:E2.
      * left. apply Qleb_le in E2. auto.
      * right. split; [reflexivity|].
        apply Qltb_lt. unfold Qltb, Qleb in *. rewrite E2. reflexivity.
Qed.

Lemma score_risk_bounds (risk : RiskLevel) (affected_pct : Q) (state : AgentState) :
  (0 < _score_risk risk affected_pct state <= 1)%Q.
Proof.
  unfold _score_risk.
  set (base := match risk with LOW => 1.0 | MEDIUM => 0.7 | HIGH => 0.4 | CRITICAL => 0.1 end%Q).
  assert (Hb : (0 < base <= 1)%Q) by (subst base; destruct risk; lra).
  assert (Hl : (0 < impact_limits risk)%Q) by (destruct risk; cbn; lra).
  set (limit := impact_limits risk) in *.
  assert (H1 : (0 < (if Qgtb affected_pct limit
                     then base * Qmax 0.1 (1.0 - (affected_pct - limit) / limit)
                     else base) <= 1)%Q).
  { destruct (Qgtb affected_pct limit) eqn:E; [|exact Hb].
    apply Qgtb_gt in E.
    assert (Hp : (0 < (affected_pct - limit) / limit)%Q)
      by (apply Qlt_shift_div_l; lra).
    destruct (Qmax_spec 0.1 (1.0 - (affected_pct - limit) / limit)) as (Hm0 & _ & Hm).
    set (f := Qmax 0.1 (1.0 - (affected_pct - limit) / limit)) in *.
    assert (Hf : (0.1 <= f <= 1)%Q) by (destruct Hm as [Hm|Hm]; rewrite Hm in *; lra).
    split; nra. }
  set (b1 := if Qgtb affected_pct limit then _ else base) in *.
  destruct (0 <? rollbacks_last_hour state); lra.
Qed.

(** X26.  The scores of the decision maker.  The success score lies
    between 0 and 1 for a severity that is not negative, the latency score
    always does, the cost score is one of 1, 0.8, 0.5 and 0.2, and the
    risk score is positive and at most 1.  A cost reduction scores 0.8,
    below the 1 of an unchanged cost.  With weights that are positive and
    sum to 1 and a confidence between 0 and 1, the total score of an
    action lies between 0 and 1, and it is positive when the confidence
    is. *)
Theorem X26_scores_are_bounded
    (weights : Weights) (action : Action)
    (pattern_severity average_latency_ms affected_traffic_pct : Q)
    (state : AgentState) :
  weights_ok weights ->
  (0 <= pattern_severity)%Q ->
  (0 <= confidence action <= 1)%Q ->
  (forall delta, (0 <= _score_success_impact delta pattern_severity <= 1)%Q)
  /\ (forall delta, (0 <= _score_latency_impact delta average_latency_ms <= 1)%Q)
  /\ (forall delta, In (_score_cost_impact delta) [1.0; 0.8; 0.5; 0.2]%Q)
  /\ (forall delta, (delta < 0)%Q ->
        _score_cost_impact delta = 0.8%Q /\ _score_cost_impact 0 = 1.0%Q)
  /\ (forall risk, (0 < _score_risk risk affected_traffic_pct state <= 1)%Q)
  /\ (0 <= _evaluate_action weights action pattern_severity average_latency_ms
             affected_traffic_pct state <= 1)%Q
  /\ ((0 < confidence action)%Q ->
      (0 < _evaluate_action weights action pattern_severity average_latency_ms
             affected_traffic_pct state)%Q).
Proof.
  intros (Ws & Wl & Wc & Wr & Wsum) Hsev Hconf. unfold weights_sum in Wsum.
  assert (Hcost : forall delta, (0 < _score_cost_impact delta <= 1)%Q).
  { intros delta.
    destruct (score_cost_values delta) as [[-> _]|[[-> _]|[[-> _]|[-> _]]]]; lra. }
  split; [intros; apply score_success_bounds, Hsev|].
  split; [intros; apply score_latency_bounds|].
  split.
  { intros delta.
    destruct (score_cost_values delta) as [[-> _]|[[-> _]|[[-> _]|[-> _]]]]; cbn; tauto. }
  split.
  { intros delta Hd. split; [|reflexivity].
    destruct (score_cost_values delta) as [[_ H]|[[H _]|[[_ H]|[_ H]]]];
      [lra | exact H | lra | lra]. }
  split; [intros; apply score_risk_bounds|].
  unfold _evaluate_action.
  pose proof (score_success_bounds (get0 (success_rate_delta (estimated_impact action)))
                pattern_severity Hsev) as Hs.
  pose proof (score_latency_bounds (get0 (latency_delta_ms (estimated_impact action)))
                average_latency_ms) as Hl.
  pose proof (Hcost (get0 (cost_delta_per_txn (estimated_impact action)))) as Hc.
  pose proof (score_risk_bounds (risk_level action) affected_traffic_pct state) as Hr.
  set (ss := _score_success_impact _ _) in *.
  set (sl := _score_latency_impact _ _) in *.
  set (sc := _score_cost_impact _) in *.
  set (sr := _score_risk _ _ _) in *.
  set (ws := w_success_rate weights) in *. set (wl := w_latency weights) in *.
  set (wc := w_cost weights) in *. set (wr := w_risk weights) in *.
  set (c := confidence action) in *.
  assert (T0 : (0 < ws * ss + wl * sl + wc * sc + wr * sr)%Q) by nra.
  assert (T1 : (ws * ss + wl * sl + wc * sc + wr * sr <= 1)%Q) by nra.
  set (t := (ws * ss + wl * sl + wc * sc + wr * sr)%Q) in *.
  split; [split; nra|]. intros Hc0. nra.
Qed.

Lemma X26_witness :
  (0 <= _evaluate_action Weights_init icici_breaker 1 200 0 AgentState_init <= 1)%Q.
Proof.
  refine (proj1 (proj2 (proj2 (proj2 (proj2 (proj2
    (X26_scores_are_bounded Weights_init icici_breaker 1 200 0 AgentState_init
       _ _ _))))))).
  - unfold weights_ok, weights_sum. cbn. repeat split; lra.
  - lra.
  - cbn. lra.
Defined.

(** ** Observer: basic anomalies *)

Lemma success_rate_bounds self dimension key :
  observer_inv self -> (0 <= get_success_rate self dimension key <= 1)%Q.
Proof.
  intros [Hag _]. unfold get_success_rate.
  specialize (Hag dimension key). unfold reads in Hag. rewrite Hag.
  pose proof (tally_success_le dimension key (transactions_window self)) as Hle.
  destruct (tally_sound dimension key (transactions_window self)) as (H1 & H2 & H3 & H4).
  destruct (Z.eqb_spec (total (tally dimension key (transactions_window self))) 0); [lra|].
  apply ratio_within_unit; lia.
Qed.

Lemma retry_efficiency_bounds window_size_minutes ops :
  (0 <= get_retry_efficiency
          (observer_run ops (PaymentObserver_init window_size_minutes)) <= 1)%Q.
Proof.
  destruct (retry_sums_history window_size_minutes ops) as [Ha Hs].
  unfold get_retry_efficiency.
  destruct (retry_stats _) eqn:E; [lra|]. rewrite <- E in *. rewrite Ha, Hs.
  destruct (Z.eqb_spec (Z.of_nat (length (List.filter is_retry (ingested ops)))) 0);
    [lra|].
  apply ratio_within_unit; [|lia].
  pose proof (filter_length_le status_key (List.filter is_retry (ingested ops))). lia.
Qed.

Lemma issuer_anomaly_In obs a :
  NoDup (dkeys (by_issuer (stats obs))) ->
  In a (flat_map (fun kv => issuer_anomaly (fst kv) (snd kv)) (get_issuer_health obs))
  <-> exists i,
        10 <= get_transaction_volume obs D_by_issuer i
        /\ (get_success_rate obs D_by_issuer i < 0.80)%Q
        /\ a = {| anomaly_type := "issuer_degradation";
                  anomaly_severity := 1.0 - get_success_rate obs D_by_issuer i;
                  anomaly_affected := Some i |}.
Proof.
  intros Hnd. unfold get_issuer_health.
  rewrite health_loop_spec by (auto; reflexivity).
  cbn [app]. rewrite in_flat_map. split.
  - intros ([k h] & Hin & Ha). apply In_health_entries in Hin.
    destruct Hin as (c & Hin & Hne & ->).
    apply (In_dget _ _ _ Hnd) in Hin.
    destruct (health_record_view obs k c Hin Hne) as [Hrate Hvol].
    cbn [fst snd] in Ha. unfold issuer_anomaly in Ha. rewrite Hrate, Hvol in Ha.
    destruct (Qltb _ 0.80) eqn:E1; [|destruct Ha].
    destruct (Z.leb_spec 10 (get_transaction_volume obs D_by_issuer k)); [|destruct Ha].
    destruct Ha as [<-|[]]. apply Qltb_lt in E1. exists k. auto.
  - intros (i & Hv & Hr & ->).
    destruct (entry_of_volume obs D_by_issuer i) as (c & Hin & Hc); [lia|].
    assert (Hne : total c <> 0).
    { unfold get_transaction_volume in Hv. rewrite Hc in Hv. lia. }
    cbn [stats_dim] in Hin. pose proof (In_dget _ _ _ Hnd Hin) as Hget.
    destruct (health_record_view obs i c Hget Hne) as [Hrate Hvol].
    exists (i, health_record (ring_by_issuer (latencies obs)) i c). split.
    + apply In_health_entries. exists c. auto.
    + cbn [fst snd]. unfold issuer_anomaly. rewrite Hrate, Hvol.
      apply Qltb_lt in Hr. rewrite Hr.
      destruct (Z.leb_spec 10 (get_transaction_volume obs D_by_issuer i)); [|lia].
      left. reflexivity.
Qed.

(** X27.  For an observer reached by ingestions and evictions,
    [detect_basic_anomalies] reports a low success rate exactly when the
    overall success rate of the window is below 0.85, and an anomaly for
    an issuer exactly when the issuer has at least 10 transactions in the
    window and a success rate below 0.80; every anomaly has one of four
    types and a severity above 0.15 and at most 1; with an empty window
    only the latency and the retry anomalies, computed from data that
    evictions do not touch, can be reported. *)
Theorem X27_basic_anomalies
    (window_size_minutes : Z) (ops : list ObserverOp) (i : string) :
  let obs := observer_run ops (PaymentObserver_init window_size_minutes) in
  (forall a, In a (detect_basic_anomalies obs) ->
     In (anomaly_type a)
        ["low_success_rate"; "issuer_degradation"; "high_latency"; "low_retry_efficiency"]
     /\ (3 # 20 < anomaly_severity a <= 1)%Q)
  /\ ((exists a, In a (detect_basic_anomalies obs) /\ anomaly_type a = "low_success_rate")
      <-> (get_success_rate obs D_overall "current" < 0.85)%Q)
  /\ ((exists a, In a (detect_basic_anomalies obs) /\ anomaly_affected a = Some i)
      <-> 10 <= get_transaction_volume obs D_by_issuer i
          /\ (get_success_rate obs D_by_issuer i < 0.80)%Q)
  /\ (transactions_window obs = [] ->
      forall a, In a (detect_basic_anomalies obs) ->
                anomaly_type a = "high_latency" \/ anomaly_type a = "low_retry_efficiency").
Proof.
  intros obs.
  pose proof (observer_run_inv ops _ (init_inv window_size_minutes)) as Hinv.
  fold obs in Hinv. pose proof (proj2 Hinv D_by_issuer) as Hnd. cbn [stats_dim] in Hnd.
  pose proof (retry_efficiency_bounds window_size_minutes ops) as Hre. fold obs in Hre.
  assert (Hcases : forall a, In a (detect_basic_anomalies obs) <->
            ((get_success_rate obs D_overall "current" < 0.85)%Q
             /\ a = {| anomaly_type := "low_success_rate";
                       anomaly_severity := 1.0 - get_success_rate obs D_overall "current";
                       anomaly_affected := None |})
            \/ (exists k, 10 <= get_transaction_volume obs D_by_issuer k
                          /\ (get_success_rate obs D_by_issuer k < 0.80)%Q
                          /\ a = {| anomaly_type := "issuer_degradation";
                                    anomaly_severity :=
                                      1.0 - get_success_rate obs D_by_issuer k;
                                    anomaly_affected := Some k |})
            \/ ((1000 < p95 (overall_latency_stats obs))%Q
                /\ a = {| anomaly_type := "high_latency";
                          anomaly_severity :=
                            Qmin (p95 (overall_latency_stats obs) / 2000) 1.0;
                          anomaly_affected := None |})
            \/ (((get_retry_efficiency obs < 0.30)%Q
                 /\ 10 <= Z.of_nat (length (retry_stats obs)))
                /\ a = {| anomaly_type := "low_retry_efficiency";
                          anomaly_severity := 1.0 - get_retry_efficiency obs;
                          anomaly_affected := None |})).
  { intros a. unfold detect_basic_anomalies.
    rewrite !List.in_app_iff, (issuer_anomaly_In obs a Hnd).
    assert (H1 : In a (if Qltb (get_success_rate obs D_overall "current") 0.85
                       then [ {| anomaly_type := "low_success_rate";
                                 anomaly_severity :=
                                   1.0 - get_success_rate obs D_overall "current";
                                 anomaly_affected := None |} ] else [])
                 <-> (get_success_rate obs D_overall "current" < 0.85)%Q
                     /\ a = {| anomaly_type := "low_success_rate";
                               anomaly_severity :=
                                 1.0 - get_success_rate obs D_overall "current";
                               anomaly_affected := None |}).
    { destruct (Qltb _ 0.85) eqn:E.
      - apply Qltb_lt in E. split; [intros [<-|[]]; auto | intros [_ ->]; left; reflexivity].
      - split; [intros [] | intros [H _]; apply Qltb_lt in H; congruence]. }
    assert (H3 : In a (if Qgtb (p95 (overall_latency_stats obs)) 1000
                       then [ {| anomaly_type := "high_latency";
                                 anomaly_severity :=
                                   Qmin (p95 (overall_latency_stats obs) / 2000) 1.0;
                                 anomaly_affected := None |} ] else [])
                 <-> (1000 < p95 (overall_latency_stats obs))%Q
                     /\ a = {| anomaly_type := "high_latency";
                               anomaly_severity :=
                                 Qmin (p95 (overall_latency_stats obs) / 2000) 1.0;
                               anomaly_affected := None |}).
    { destruct (Qgtb _ 1000) eqn:E.
      - apply Qgtb_gt in E. split; [intros [<-|[]]; auto | intros [_ ->]; left; reflexivity].
      - split; [intros [] | intros [H _]; apply Qgtb_gt in H; congruence]. }
    assert (H4 : In a (if Qltb (get_retry_efficiency obs) 0.30
                          && (10 <=? Z.of_nat (length (retry_stats obs)))
                       then [ {| anomaly_type := "low_retry_efficiency";
                                 anomaly_severity := 1.0 - get_retry_efficiency obs;
                                 anomaly_affected := None |} ] else [])
                 <-> ((get_retry_efficiency obs < 0.30)%Q
                      /\ 10 <= Z.of_nat (length (retry_stats obs)))
                     /\ a = {| anomaly_type := "low_retry_efficiency";
                               anomaly_severity := 1.0 - get_retry_efficiency obs;
                               anomaly_affected := None |}).
    { destruct (Qltb _ 0.30) eqn:E; cbn [andb].
      - apply Qltb_lt in E. destruct (Z.leb_spec 10 (Z.of_nat (length (retry_stats obs)))).
        + split; [intros [<-|[]]; auto | intros [_ ->]; left; reflexivity].
        + split; [intros [] | intros [[_ Hn] _]; lia].
      - split; [intros [] | intros [[Hn _] _]; apply Qltb_lt in Hn; congruence]. }
    rewrite H1, H3, H4. reflexivity.
  }
  pose proof (fun d k => success_rate_bounds obs d k Hinv) as Hrb.
  split; [|split; [|split]].
  - intros a Ha. apply Hcases in Ha.
    destruct Ha as [[H ->]|[(k & Hv & H & ->)|[[H ->]|[[H _] ->]]]];
      cbn [anomaly_type anomaly_severity]; (split; [cbn; tauto|]).
    + pose proof (Hrb D_overall "current"). lra.
    + pose proof (Hrb D_by_issuer k). lra.
    + set (x := p95 (overall_latency_stats obs)) in *.
      assert (Hx : (1 # 2 < x / 2000)%Q) by (apply Qlt_shift_div_l; lra).
      destruct (Qmin_spec (x / 2000) 1.0) as (_ & H1 & [Hm|Hm]); rewrite Hm in H1 |- *; lra.
    + lra.
  - split.
    + intros (a & Ha & Hty). apply Hcases in Ha.
      destruct Ha as [[H _]|[(k & _ & _ & ->)|[[_ ->]|[_ ->]]]];
        [exact H | discriminate Hty ..].
    + intros H. eexists. split; [apply Hcases; left; split; [exact H | reflexivity]|].
      reflexivity.
  - split.
    + intros (a & Ha & Haf). apply Hcases in Ha.
      destruct Ha as [[_ ->]|[(k & Hv & H & ->)|[[_ ->]|[_ ->]]]];
        try discriminate Haf.
      cbn [anomaly_affected] in Haf. injection Haf as ->. auto.
    + intros [Hv H]. eexists. split.
      * apply Hcases. right. left. exists i. split; [exact Hv|]. split; [exact H|].
        reflexivity.
      * reflexivity.
  - intros Hempty a Ha. apply Hcases in Ha.
    destruct Ha as [[H _]|[(k & Hv & _)|[[_ ->]|[_ ->]]]]; auto; exfalso.
    + unfold get_success_rate in H.
      rewrite (empty_window_reads obs D_overall "current" Hinv Hempty) in H.
      cbn in H. lra.
    + unfold get_transaction_volume in Hv.
      rewrite (empty_window_reads obs D_by_issuer k Hinv Hempty) in Hv.
      cbn in Hv. lia.
Qed.

(** ** The rollback manager of src/safety/rollback.py *)

(** X28.  [RollbackManager.check_rollback_needed].  Without a baseline
    the answer is no and nothing is recorded.  After [set_baseline] the
    answer is yes exactly when the success rate fell by more than its
    threshold, or the latency baseline is positive and the latency rose by
    more than its threshold in percent, or the error rate rose by more
    than its threshold; the fall, the rise in percent and the rise of the
    error rate are the ones the code computes, in double precision, and
    each is compared with the double nearest to its threshold.  A yes
    appends one event for the action to the history and a no changes
    nothing.  Fed with the metrics the executor captures, whose latency is
    stored under ['avg_latency'] and which hold no error rate, a manager
    with the default thresholds answers yes exactly when the success rate
    fell, in double precision, by more than the double 0.05, whatever the
    latencies are. *)
Theorem X28_rollback_manager
    (self : Rollback.RollbackManager) (action : Action)
    (metrics current : dict Q) (before after : Metrics) :
  (Rollback.baseline_metrics self = None ->
   Rollback.check_rollback_needed self action current = ((false, None), self))
  /\ (let m := Rollback.set_baseline self metrics in
      let r := Rollback.check_rollback_needed m action current in
      let t := Rollback.thresholds self in
      let b_success := dget_or 0.95%Q metrics "success_rate" in
      let b_latency := dget_or 200%Q metrics "avg_latency_ms" in
      let b_error := dget_or 0.05%Q metrics "error_rate" in
      (fst (fst r) = true
       <-> (fl (Rollback.success_rate_drop t)
            < fsub b_success (dget_or 0%Q current "success_rate"))%Q
           \/ ((0 < fl b_latency)%Q
               /\ (fl (Rollback.latency_increase_percent t)
                   < fmul (fdiv (fsub (dget_or 0%Q current "avg_latency_ms") b_latency)
                                b_latency)
                          100)%Q)
           \/ (fl (Rollback.error_rate_increase t)
               < fsub (dget_or 0%Q current "error_rate") b_error)%Q)
      /\ (fst (fst r) = true ->
          exists reason,
            snd (fst r) = Some reason
            /\ Rollback.rollback_history (snd r)
               = Rollback.rollback_history self
                 ++ [ {| Rollback.ev_action_id := action_id action;
                         Rollback.ev_action_type := ActionType_value (action_type action);
                         Rollback.ev_target := target action;
                         Rollback.ev_reason := reason |} ])
      /\ (fst (fst r) = false -> snd (fst r) = None /\ snd r = m))
  /\ (let m :=
        Rollback.set_baseline
          (Rollback.RollbackManager_init Rollback.RollbackThresholds_default)
          (metrics_dict before) in
      fst (fst (Rollback.check_rollback_needed m action (metrics_dict after))) = true
      <-> (fl 0.05 < fsub (m_success_rate before) (m_success_rate after))%Q).
Proof.
  split; [|split].
  - intros Hnone. unfold Rollback.check_rollback_needed. rewrite Hnone. reflexivity.
  - intros m r t b_success b_latency b_error. subst r m.
    unfold Rollback.check_rollback_needed, Rollback.set_baseline, Rollback._record_rollback.
    cbn [Rollback.baseline_metrics Rollback.thresholds Rollback.rollback_history
         Rollback.b_success_rate Rollback.b_avg_latency_ms Rollback.b_error_rate].
    fold t b_success b_latency b_error.
    destruct (Qgtb (fsub b_success (dget_or 0%Q current "success_rate"))
                (fl (Rollback.success_rate_drop t))) eqn:E1.
    { apply Qgtb_gt in E1. cbn [fst snd Rollback.rollback_history].
      split; [split; auto|]. split; [intros _; eexists; split; reflexivity|].
      discriminate. }
    assert (N1 : ~ (fl (Rollback.success_rate_drop t)
                    < fsub b_success (dget_or 0%Q current "success_rate"))%Q).
    { intros H. apply Qgtb_gt in H. congruence. }
    destruct (Qgtb (fl b_latency) 0) eqn:E2.
    + apply Qgtb_gt in E2.
      destruct (Qgtb (fmul (fdiv (fsub (dget_or 0%Q current "avg_latency_ms") b_latency)
                                 b_latency) 100)
                  (fl (Rollback.latency_increase_percent t))) eqn:E3.
      { apply Qgtb_gt in E3. cbn [fst snd Rollback.rollback_history].
        split; [split; auto|]. split; [intros _; eexists; split; reflexivity|].
        discriminate. }
      assert (N3 : ~ (fl (Rollback.latency_increase_percent t)
                      < fmul (fdiv (fsub (dget_or 0%Q current "avg_latency_ms") b_latency)
                                   b_latency) 100)%Q).
      { intros H. apply Qgtb_gt in H. congruence. }
      destruct (Qgtb (fsub (dget_or 0%Q current "error_rate") b_error)
                  (fl (Rollback.error_rate_increase t))) eqn:E4.
      * apply Qgtb_gt in E4. cbn [fst snd Rollback.rollback_history].
        split; [split; auto|]. split; [intros _; eexists; split; reflexivity|].
        discriminate.
      * cbn [fst snd]. split; [|split; [discriminate | auto]].
        split; [discriminate|]. intros [H|[[_ H]|H]]; try contradiction.
        apply Qgtb_gt in H. congruence.
    + assert (N2 : ~ (0 < fl b_latency)%Q).
      { intros H. apply Qgtb_gt in H. congruence. }
      destruct (Qgtb (fsub (dget_or 0%Q current "error_rate") b_error)
                  (fl (Rollback.error_rate_increase t))) eqn:E4.
      * apply Qgtb_gt in E4. cbn [fst snd Rollback.rollback_history].
        split; [split; auto|]. split; [intros _; eexists; split; reflexivity|].
        discriminate.
      * cbn [fst snd]. split; [|split; [discriminate | auto]].
        split; [discriminate|]. intros [H|[[H _]|H]]; try contradiction.
        apply Qgtb_gt in H. congruence.
  - intros m. subst m.
    unfold Rollback.check_rollback_needed, Rollback.set_baseline,
      Rollback.RollbackManager_init, Rollback._record_rollback, metrics_dict.
    cbn [Rollback.baseline_metrics Rollback.thresholds Rollback.rollback_history
         Rollback.b_success_rate Rollback.b_avg_latency_ms Rollback.b_error_rate
         Rollback.RollbackThresholds_default Rollback.success_rate_drop
         Rollback.latency_increase_percent Rollback.error_rate_increase].
    change (dget_or 0.95%Q _ "success_rate") with (m_success_rate before).
    change (dget_or 0%Q _ "success_rate") with (m_success_rate after).
    change (dget_or 200%Q _ "avg_latency_ms") with 200%Q.
    change (dget_or 0%Q _ "avg_latency_ms") with 0%Q.
    change (dget_or 0.05%Q _ "error_rate") with 0.05%Q.
    change (dget_or 0%Q _ "error_rate") with 0%Q.
    destruct (Qgtb (fsub (m_success_rate before) (m_success_rate after)) (fl 0.05)) eqn:E1.
    + apply Qgtb_gt in E1. cbn [fst]. split; auto.
    + destruct (Qgtb (fl 200) 0) eqn:E2; [|vm_compute in E2; discriminate E2].
      destruct (Qgtb (fmul _ 100) _) eqn:E3; [vm_compute in E3; discriminate E3|].
      destruct (Qgtb (fsub 0 0.05) _) eqn:E4; [vm_compute in E4; discriminate E4|].
      cbn [fst]. split; [discriminate|]. intros H. apply Qgtb_gt in H. congruence.
Qed.

(** ** Learner: the prediction error *)

Lemma Qabs_div_nonneg (a b : Q) : (0 <= Qabs (a / b))%Q.
Proof. apply Qabs_nonneg. Qed.

(** X29.  [_calculate_prediction_error] is never negative; it is 0 when
    both estimates are at most 0.001 in absolute value, whatever was
    measured, and when each estimate above that equals what was measured;
    the estimated cost is never looked at. *)
Theorem X29_prediction_error (estimated : Impact) (actual : ActualImpact) :
  let est_success := get0 (success_rate_delta estimated) in
  let est_latency := get0 (latency_delta_ms estimated) in
  (0 <= _calculate_prediction_error estimated actual)%Q
  /\ ((Qabs est_success <= 0.001)%Q -> (Qabs est_latency <= 0.001)%Q ->
      _calculate_prediction_error estimated actual = 0.0%Q)
  /\ ((est_success == actual_success_rate_delta actual)%Q ->
      (est_latency == actual_latency_delta actual)%Q ->
      (_calculate_prediction_error estimated actual == 0)%Q)
  /\ (forall cost,
        _calculate_prediction_error
          {| success_rate_delta := success_rate_delta estimated;
             latency_delta_ms := latency_delta_ms estimated;
             cost_delta_per_txn := cost |} actual
        = _calculate_prediction_error estimated actual).
Proof.
  intros est_success est_latency.
  unfold _calculate_prediction_error. cbn [success_rate_delta latency_delta_ms].
  fold est_success est_latency.
  set (a := actual_success_rate_delta actual). set (b := actual_latency_delta actual).
  split; [|split; [|split]].
  - destruct (Qgtb (Qabs est_success) 0.001), (Qgtb (Qabs est_latency) 0.001);
      cbn [app]; unfold np_mean; cbn [Qsum fold_right length Z.of_nat Pos.of_succ_nat Pos.succ].
    + pose proof (Qabs_div_nonneg (est_success - a) est_success).
      pose proof (Qabs_div_nonneg (est_latency - b) est_latency).
      apply Qle_shift_div_l; [reflexivity|]. lra.
    + pose proof (Qabs_div_nonneg (est_success - a) est_success).
      apply Qle_shift_div_l; [reflexivity|]. lra.
    + pose proof (Qabs_div_nonneg (est_latency - b) est_latency).
      apply Qle_shift_div_l; [reflexivity|]. lra.
    + lra.
  - intros Hs Hl.
    assert (Es : Qgtb (Qabs est_success) 0.001 = false).
    { apply not_true_is_false. intros E. apply Qgtb_gt in E. lra. }
    assert (El : Qgtb (Qabs est_latency) 0.001 = false).
    { apply not_true_is_false. intros E. apply Qgtb_gt in E. lra. }
    rewrite Es, El. reflexivity.
  - intros Hs Hl.
    assert (Zs : (Qabs ((est_success - a) / est_success) == 0)%Q).
    { assert (E : (est_success - a == 0)%Q) by lra. rewrite E.
      unfold Qdiv. rewrite Qmult_0_l. reflexivity. }
    assert (Zl : (Qabs ((est_latency - b) / est_latency) == 0)%Q).
    { assert (E : (est_latency - b == 0)%Q) by lra. rewrite E.
      unfold Qdiv. rewrite Qmult_0_l. reflexivity. }
    destruct (Qgtb (Qabs est_success) 0.001), (Qgtb (Qabs est_latency) 0.001);
      cbn [app]; unfold np_mean; cbn [Qsum fold_right length Z.of_nat Pos.of_succ_nat Pos.succ];
      try rewrite Zs; try rewrite Zl; reflexivity.
  - intros cost. reflexivity.
Qed.
